(** * AquaSentinel: sensor ingestion, analysis and alerting

    A shallow embedding of the analytic core of the AquaSentinel backend
    ([backend/sensors.py], [backend/ml_model_simple.py],
    [backend/ml_model.py], the monitoring task, the WebSocket manager and
    the routes of [backend/main.py]), of the hardware and drone controllers
    ([backend/controller.py]), of the weather analysis
    ([backend/weather_integration.py]) and of the routing of MQTT messages
    ([backend/iot_comm.py]), followed by the properties of that code.

    Conventions of the embedding.
    - A finite Python float is modelled by the rational number it denotes
      ([Q]), and arithmetic on finite values is exact here.  A comparison
      of two floats is exact in Python as well, so a threshold test on a
      measured value is modelled without loss; a value the code computes in
      binary64 can differ from the exact one by rounding, and a statement
      about such a value leaves room for it ([rounding_slack]) instead of
      asserting an equality.  Where non-finite values can reach the code
      (the serial parser and the validator) the type [pyfloat] adds [inf],
      [-inf] and [nan] with the IEEE comparison rules.
    - A Python function that can raise lives in the error monad [py].
    - A [dict] that is iterated is an insertion-ordered association list
      ([odict]); a [dict] that is only looked up is a [gmap].
    - Calls into the environment (the clock, [random.uniform], numpy's
      statistics, the outcome of I/O in one loop iteration) are explicit
      arguments. *)

From Stdlib Require Import QArith Qround Qabs Qminmax Lqa Ascii String.
From stdpp Require Import gmap strings list.

Local Open Scope Q_scope.

(** ** Numbers *)

Definition Qlt_bool (a b : Q) : bool := negb (Qle_bool b a).

Definition Qgt_bool (a b : Q) : bool := Qlt_bool b a.

(** Python's [min(a, b)] and [max(a, b)] on numbers: the first argument is
    returned unless the second is strictly smaller (resp. larger). *)
Definition py_min (a b : Q) : Q := if Qlt_bool b a then b else a.

Definition py_max (a b : Q) : Q := if Qlt_bool a b then b else a.

(** Rounding to the nearest integer, ties to even. *)
Definition round_half_even (x : Q) : Z :=
  let f := Qfloor x in
  let r := x - inject_Z f in
  if Qlt_bool r (1 # 2) then f
  else if Qlt_bool (1 # 2) r then (f + 1)%Z
  else if Z.even f then f else (f + 1)%Z.

(** Python's [round(x, 1)]: the closest value with one decimal. *)
Definition py_round1 (x : Q) : Q := inject_Z (round_half_even (x * 10)) / 10.

(** Floats with the non-finite values. *)
Inductive pyfloat : Type :=
| Fin (q : Q)
| PosInf
| NegInf
| NaN.

(** [a < b] on floats: false as soon as one side is [nan]. *)
Definition flt (a b : pyfloat) : bool :=
  match a, b with
  | NaN, _ | _, NaN => false
  | Fin x, Fin y => Qlt_bool x y
  | NegInf, NegInf => false
  | NegInf, _ => true
  | _, NegInf => false
  | PosInf, _ => false
  | Fin _, PosInf => true
  end.

Definition fgt (a b : pyfloat) : bool := flt b a.


(** ** Exceptions *)

Inductive exn : Type :=
| ValueError
| KeyError
| ZeroDivisionError.

Inductive py (A : Type) : Type :=
| Ok (a : A)
| Raise (e : exn).

Arguments Ok {A} a.
Arguments Raise {A} e.

Definition py_bind {A B : Type} (m : py A) (k : A -> py B) : py B :=
  match m with
  | Ok a => k a
  | Raise e => Raise e
  end.

Notation "'try' x <- m 'in' k" := (py_bind m (fun x => k))
  (at level 10, x name, m at level 100, k at level 200).

(** Python's [a / b] on floats. *)
Definition py_div (a b : Q) : py Q :=
  if Qeq_bool b 0 then Raise ZeroDivisionError else Ok (a / b).

(** ** Insertion-ordered dictionaries

    [d[k] = v] keeps the position of a key that is already present and
    appends a new key at the end, as Python's [dict] does. *)

Section ODict.
Context {K V : Type} `{EqDecision K}.

Fixpoint odict_set (k : K) (v : V) (d : list (K * V)) : list (K * V) :=
  match d with
  | [] => [(k, v)]
  | (k', v') :: d' =>
      if decide (k = k') then (k, v) :: d' else (k', v') :: odict_set k v d'
  end.

Fixpoint odict_get (k : K) (d : list (K * V)) : option V :=
  match d with
  | [] => None
  | (k', v') :: d' => if decide (k = k') then Some v' else odict_get k d'
  end.
End ODict.

(** ** Strings *)

(** [s.split(sep)] for a one-character separator: never empty. *)
Fixpoint split (sep : ascii) (s : string) : list string :=
  match s with
  | EmptyString => [EmptyString]
  | String c s' =>
      if Ascii.eqb c sep then EmptyString :: split sep s'
      else match split sep s' with
           | [] => [String c EmptyString]
           | w :: ws => String c w :: ws
           end
  end.

(** ** Readings

    [SensorReading] of [sensors.py] (and [SimpleSensorReading] of
    [ml_model_simple.py], which has the same fields).  The parameter is the
    type of the measured values. *)

Record SensorReading (A : Type) : Type := mkSensorReading {
  timestamp : Z;
  tds : A;
  ph : A;
  orp : A;
  turbidity : A;
  temperature : A
}.

Arguments mkSensorReading {A} _ _ _ _ _ _.
Arguments timestamp {A} _.
Arguments tds {A} _.
Arguments ph {A} _.
Arguments orp {A} _.
Arguments turbidity {A} _.
Arguments temperature {A} _.

(** ** Logging and loop bookkeeping *)

Inductive log_level : Type := INFO | WARNING | ERROR.

Inductive loop_status : Type :=
| Running   (* inside the [while], waiting for the next outcome *)
| Returned. (* the coroutine has left the [while] *)

(** * [backend/sensors.py] *)

Module Sensors.

(** ** [SensorManager._parse_sensor_response] *)

Section Parser.
(** The builtins [float], [str.strip] and [str.lower]. *)
Variable py_float : string -> py pyfloat.
Variable py_strip : string -> string.
Variable py_lower : string -> string.

(** One turn of [for pair in pairs]: the unpacking
    [key, value = pair.split(':')] needs exactly two parts. *)
Definition parse_pair (data : gmap string pyfloat) (p : string)
  : py (gmap string pyfloat) :=
  match split ":" p with
  | [key; value] =>
      try v <- py_float (py_strip value) in
      Ok (<[py_lower (py_strip key) := v]> data)
  | _ => Raise ValueError
  end.

Fixpoint parse_pairs (data : gmap string pyfloat) (pairs : list string)
  : py (gmap string pyfloat) :=
  match pairs with
  | [] => Ok data
  | p :: rest =>
      try data' <- parse_pair data p in parse_pairs data' rest
  end.

(** [data.get(key, dflt)] *)
Definition get_default (data : gmap string pyfloat) (key : string)
  (dflt : pyfloat) : pyfloat :=
  default dflt (data !! key).

(** The body of the [try] block; [now] is [datetime.now()]. *)
Definition parse_body (now : Z) (response : string)
  : py (SensorReading pyfloat) :=
  try data <- parse_pairs ∅ (split "," response) in
  Ok {| timestamp := now;
        tds := get_default data "tds" (Fin 0);
        ph := get_default data "ph" (Fin 7);
        orp := get_default data "orp" (Fin 0);
        turbidity := get_default data "turb" (Fin 0);
        temperature := get_default data "temp" (Fin 20) |}.

(** [except Exception] logs and returns [None]. *)
Definition _parse_sensor_response (now : Z) (response : string)
  : option (SensorReading pyfloat) :=
  match parse_body now response with
  | Ok reading => Some reading
  | Raise _ => None
  end.

(** The key a well-formed pair stores under, and the keys of a response,
    pair by pair. *)
Definition pair_keys (p : string) : list string :=
  match split ":" p with
  | [key; _] => [py_lower (py_strip key)]
  | _ => []
  end.

Definition response_keys (response : string) : list string :=
  flat_map pair_keys (split "," response).

(** What a pair contributes to [data] when it is well formed. *)
Definition pair_entry (p : string) : option (string * pyfloat) :=
  match split ":" p with
  | [key; value] =>
      match py_float (py_strip value) with
      | Ok v => Some (py_lower (py_strip key), v)
      | Raise _ => None
      end
  | _ => None
  end.
End Parser.

(** The builtins on ASCII text, enough to run the parser on the
    documented format ["TDS:250.5,pH:7.2,ORP:350.0,TURB:0.5,TEMP:22.5"]. *)

Definition is_space (c : ascii) : bool :=
  let n := nat_of_ascii c in
  ((9 <=? n)%nat && (n <=? 13)%nat) || ((28 <=? n)%nat && (n <=? 32)%nat).

Fixpoint lstrip (s : string) : string :=
  match s with
  | String c s' => if is_space c then lstrip s' else s
  | EmptyString => EmptyString
  end.

Fixpoint rstrip (s : string) : string :=
  match s with
  | String c s' =>
      match rstrip s' with
      | EmptyString => if is_space c then EmptyString else String c EmptyString
      | t => String c t
      end
  | EmptyString => EmptyString
  end.

Definition ascii_strip (s : string) : string := rstrip (lstrip s).

Definition lower_char (c : ascii) : ascii :=
  let n := nat_of_ascii c in
  if (65 <=? n)%nat && (n <=? 90)%nat then ascii_of_nat (n + 32) else c.

Fixpoint ascii_lower (s : string) : string :=
  match s with
  | String c s' => String (lower_char c) (ascii_lower s')
  | EmptyString => EmptyString
  end.

Fixpoint digits_value (acc : Z) (s : string) : option Z :=
  match s with
  | EmptyString => Some acc
  | String c s' =>
      let n := nat_of_ascii c in
      if (48 <=? n)%nat && (n <=? 57)%nat
      then digits_value (10 * acc + Z.of_nat (n - 48))%Z s'
      else None
  end.

(** [float] on plain decimal literals ([12], [250.5], [-3.5]), [nan],
    [inf] and [-inf]; exponents and underscores are left out. *)
Definition unsigned_decimal (s : string) : py Q :=
  match split "." s with
  | [i] =>
      match i, digits_value 0 i with
      | String _ _, Some n => Ok (inject_Z n)
      | _, _ => Raise ValueError
      end
  | [i; f] =>
      match (i +:+ f)%string, digits_value 0 (i +:+ f) with
      | String _ _, Some n =>
          Ok (inject_Z n / inject_Z (10 ^ Z.of_nat (String.length f)))
      | _, _ => Raise ValueError
      end
  | _ => Raise ValueError
  end.

Definition decimal_float (s : string) : py pyfloat :=
  if String.eqb s "nan" then Ok NaN
  else if String.eqb s "inf" then Ok PosInf
  else if String.eqb s "-inf" then Ok NegInf
  else match s with
       | String "-" s' => try q <- unsigned_decimal s' in Ok (Fin (- q))
       | String "+" s' => try q <- unsigned_decimal s' in Ok (Fin q)
       | _ => try q <- unsigned_decimal s in Ok (Fin q)
       end.

Definition parse_ascii : Z -> string -> option (SensorReading pyfloat) :=
  _parse_sensor_response decimal_float ascii_strip ascii_lower.

(** ** [SensorManager.validate_reading] *)

Definition validate_reading (reading : SensorReading pyfloat)
  : py (list (string * string)) :=
  let warnings := [] in
  let warnings :=
    if flt (ph reading) (Fin 6.5)
    then odict_set "ph" "pH too low - water is acidic" warnings
    else if fgt (ph reading) (Fin 8.5)
    then odict_set "ph" "pH too high - water is alkaline" warnings
    else warnings in
  let warnings :=
    if fgt (tds reading) (Fin 600)
    then odict_set "tds" "TDS too high - excessive dissolved solids" warnings
    else if flt (tds reading) (Fin 50)
    then odict_set "tds" "TDS too low - may lack essential minerals" warnings
    else warnings in
  let warnings :=
    if fgt (turbidity reading) (Fin 1)
    then odict_set "turbidity" "Turbidity too high - water appears cloudy" warnings
    else warnings in
  let warnings :=
    if flt (orp reading) (Fin 200)
    then odict_set "orp" "ORP too low - poor disinfection potential" warnings
    else if fgt (orp reading) (Fin 800)
    then odict_set "orp" "ORP too high - over-oxidized water" warnings
    else warnings in
  Ok warnings.

(** ** [SensorManager.start_monitoring] and [stop_monitoring]

    The loop is run against a list of [tick]s: one per turn of the
    [while], giving the outcome of each call made in that turn. *)

Record SensorManager : Type := mkSensorManager {
  is_running : bool;
  serial_open : bool;
  log : list (log_level * string);
  slept : list Z (* arguments of the completed [asyncio.sleep] calls, latest first *)
}.

Record tick : Type := mkTick {
  read_result : py (option (SensorReading pyfloat));
  save_result : py bool;
  sleep_result : py unit;
  stop_called : bool (* [stop_monitoring()] runs while this turn is suspended *)
}.

Definition add_log (lvl : log_level) (msg : string) (m : SensorManager)
  : SensorManager :=
  {| is_running := is_running m; serial_open := serial_open m;
     log := (lvl, msg) :: log m; slept := slept m |}.

Definition add_sleep (seconds : Z) (m : SensorManager) : SensorManager :=
  {| is_running := is_running m; serial_open := serial_open m;
     log := log m; slept := seconds :: slept m |}.

Definition stop_monitoring (m : SensorManager) : SensorManager :=
  add_log INFO "Sensor monitoring stopped"
    {| is_running := false; serial_open := serial_open m;
       log := log m; slept := slept m |}.

Definition disconnect_serial (m : SensorManager) : SensorManager :=
  if serial_open m
  then add_log INFO "Serial connection closed"
         {| is_running := is_running m; serial_open := false;
            log := log m; slept := slept m |}
  else m.

(** One turn of the [while] body: the manager when the turn ends or
    raises, and how it ended. *)
Definition monitoring_iteration (interval : Z) (t : tick) (m : SensorManager)
  : SensorManager * py unit :=
  match read_result t with
  | Raise e => (m, Raise e)
  | Ok reading =>
      let handled :=
        match reading with
        | Some r =>
            match save_result t with
            | Raise e => (m, Raise e)
            | Ok true =>
                let m1 := add_log INFO "Sensor reading saved" m in
                match validate_reading r with
                | Raise e => (m1, Raise e)
                | Ok [] => (m1, Ok tt)
                | Ok (_ :: _) => (add_log WARNING "Water quality warnings" m1, Ok tt)
                end
            | Ok false => (add_log ERROR "Failed to save sensor reading" m, Ok tt)
            end
        | None => (m, Ok tt)
        end in
      match handled with
      | (m1, Raise e) => (m1, Raise e)
      | (m1, Ok _) =>
          match sleep_result t with
          | Raise e => (m1, Raise e)
          | Ok _ => (add_sleep interval m1, Ok tt)
          end
      end
  end.

(** [try: while self.is_running: ... except Exception: log; finally:
    disconnect_serial()].  The [try] encloses the whole loop. *)
Fixpoint monitoring_loop (interval : Z) (ticks : list tick) (m : SensorManager)
  : loop_status * SensorManager :=
  match ticks with
  | [] => if is_running m then (Running, m) else (Returned, disconnect_serial m)
  | t :: rest =>
      if is_running m then
        match monitoring_iteration interval t m with
        | (m1, Ok _) =>
            monitoring_loop interval rest
              (if stop_called t then stop_monitoring m1 else m1)
        | (m1, Raise _) =>
            (Returned, disconnect_serial (add_log ERROR "Error during monitoring" m1))
        end
      else (Returned, disconnect_serial m)
  end.

(** [connected] is the result of [connect_serial()]. *)
Definition start_monitoring (interval : Z) (connected : bool)
  (ticks : list tick) (m : SensorManager) : loop_status * SensorManager :=
  monitoring_loop interval ticks
    (add_log INFO "Starting sensor monitoring"
       {| is_running := true; serial_open := connected;
          log := log m; slept := slept m |}).


(** ** [SensorManager._simulate_sensor_data]

    [random.uniform(a, b)] is [a + (b - a) * random()]; [u] stands for the
    value of [random()], a number of [0, 1). *)

Definition random_uniform (a b u : Q) : Q := a + (b - a) * u.

Definition _simulate_sensor_data (now : Z) (u_tds u_ph u_orp u_turb u_temp : Q)
  : SensorReading pyfloat :=
  {| timestamp := now;
     tds := Fin (random_uniform 150 300 u_tds);
     ph := Fin (random_uniform 6.5 8.5 u_ph);
     orp := Fin (random_uniform 200 600 u_orp);
     turbidity := Fin (random_uniform 0.1 1.0 u_turb);
     temperature := Fin (random_uniform 20 25 u_temp) |}.

End Sensors.

(** * Results shared by the two analysis modules *)

(** The dictionary returned by [predict_saturation]. *)
Inductive filter_analysis : Type :=
| FilterError (error : string)
| FilterPrediction (saturation_percent days_until_replacement : Q)
    (replacement_needed : bool) (confidence : string).

(** [filter_analysis.get("replacement_needed")], tested for truth. *)
Definition get_replacement_needed (fa : filter_analysis) : bool :=
  match fa with
  | FilterPrediction _ _ needed _ => needed
  | FilterError _ => false
  end.

(** [filter_analysis.get("saturation_percent", 0)] *)
Definition get_saturation_percent (fa : filter_analysis) : Q :=
  match fa with
  | FilterPrediction saturation _ _ _ => saturation
  | FilterError _ => 0
  end.

(** The dictionary returned by [get_optimization_recommendations]. *)
Record optimization : Type := mkOptimization {
  recommendations : list string;
  actions : list (list (string * string));
  quality_score : Q;
  overall_status : string
}.

(** Alerts.  The message of an alert is an f-string; it is kept as the
    template it instantiates together with the interpolated values.  [M] is
    the type of anomaly messages. *)
Inductive alert_message (M : Type) : Type :=
| FilterReplacementNeeded (saturation : Q)
| FilterSaturationAt (saturation : Q)
| AnomalyIn (param : string) (message : M)
| QualityBelow (score : Q).

Arguments FilterReplacementNeeded {M} _.
Arguments FilterSaturationAt {M} _.
Arguments AnomalyIn {M} _ _.
Arguments QualityBelow {M} _.

Record alert (M : Type) : Type := mkAlert {
  alert_type : string;
  severity : string;
  message : alert_message M
}.

Arguments mkAlert {M} _ _ _.
Arguments alert_type {M} _.
Arguments severity {M} _.
Arguments message {M} _.

(** * [backend/ml_model_simple.py] *)

Module MLSimple.

(** The module accepts a reading either as an object with attributes or
    as a dictionary ([hasattr(reading, 'tds')] decides). *)
Inductive any_reading : Type :=
| Obj (r : SensorReading Q)
| Dict (d : gmap string Q).

(** [reading.x if hasattr(reading, 'x') else reading.get('x', dflt)] *)
Definition field (proj : SensorReading Q -> Q) (key : string) (dflt : Q)
  (reading : any_reading) : Q :=
  match reading with
  | Obj r => proj r
  | Dict d => default dflt (d !! key)
  end.

(** [readings[-1] if hasattr(readings[-1], 'tds') else
    SimpleSensorReading(datetime.now(), readings[-1].get('tds', 250), ...)] *)
Definition latest_reading (now : Z) (l : any_reading) : SensorReading Q :=
  match l with
  | Obj r => r
  | Dict d =>
      mkSensorReading now (default 250 (d !! "tds")) (default 7.2 (d !! "ph"))
        (default 400 (d !! "orp")) (default 0.3 (d !! "turbidity"))
        (default 22 (d !! "temperature"))
  end.

(** ** [SimpleFilterPredictor.predict_saturation]

    [now] is [datetime.now()] and [noise] the value returned by
    [random.uniform(-5, 5)]. *)
Definition predict_saturation (readings : list any_reading)
  (filter_usage_hours : Q) (days_since_replacement : Z)
  (now : Z) (noise : Q) : filter_analysis :=
  match last readings with
  | None => FilterError "No data available for prediction"
  | Some l =>
      let latest := latest_reading now l in
      let base_saturation := py_min (inject_Z days_since_replacement * 1.2) 90 in
      let base_saturation :=
        if Qgt_bool (tds latest) 300 then base_saturation + 10 else base_saturation in
      let base_saturation :=
        if Qgt_bool (turbidity latest) 0.5 then base_saturation + 15 else base_saturation in
      let base_saturation :=
        if Qlt_bool (ph latest) 6.5 || Qgt_bool (ph latest) 8.5
        then base_saturation + 5 else base_saturation in
      let saturation := py_min (base_saturation + noise) 100 in
      let days_remaining :=
        if Qlt_bool saturation 80 then (80 - saturation) / 1.5 else 0 in
      FilterPrediction (py_round1 saturation) (py_round1 days_remaining)
        (Qle_bool 80 saturation)
        (if Qgt_bool saturation 20 then "high" else "medium")
  end.

(** ** [SimpleAnomalyDetector] *)

Inductive anomaly_message : Type :=
| TdsOutsideRange (value : Q)     (* "TDS value {tds} outside normal range (50-800 ppm)" *)
| PhOutsideRange (value : Q)      (* "pH value {ph} outside safe range (6.0-9.0)" *)
| OrpOutsideRange (value : Q)     (* "ORP value {orp} outside normal range (100-900 mV)" *)
| TurbidityTooHigh (value : Q).   (* "Turbidity {turbidity} too high (>5.0 NTU)" *)

Definition detect_anomalies (reading : any_reading)
  : list (string * anomaly_message) :=
  let anomalies := [] in
  let tds := field tds "tds" 0 reading in
  let ph := field ph "ph" 7 reading in
  let orp := field orp "orp" 0 reading in
  let turbidity := field turbidity "turbidity" 0 reading in
  let anomalies :=
    if Qlt_bool tds 50 || Qgt_bool tds 800
    then odict_set "tds" (TdsOutsideRange tds) anomalies else anomalies in
  let anomalies :=
    if Qlt_bool ph 6 || Qgt_bool ph 9
    then odict_set "ph" (PhOutsideRange ph) anomalies else anomalies in
  let anomalies :=
    if Qlt_bool orp 100 || Qgt_bool orp 900
    then odict_set "orp" (OrpOutsideRange orp) anomalies else anomalies in
  let anomalies :=
    if Qgt_bool turbidity 5
    then odict_set "turbidity" (TurbidityTooHigh turbidity) anomalies else anomalies in
  anomalies.

(** ** [SimpleWaterQualityOptimizer] *)

(** The list [scores] built by [_calculate_quality_score]. *)
Definition sub_scores (tds ph orp turbidity : Q) : list Q :=
  let tds_score :=
    if Qle_bool 150 tds && Qle_bool tds 300 then 100
    else py_max 0 (100 - Qabs (tds - 225) / 2) in
  let ph_score :=
    if Qle_bool 6.5 ph && Qle_bool ph 8.5 then 100
    else py_max 0 (100 - Qabs (ph - 7.2) * 20) in
  let orp_score :=
    if Qle_bool 300 orp && Qle_bool orp 600 then 100
    else py_max 0 (100 - Qabs (orp - 450) / 5) in
  let turb_score :=
    if Qle_bool turbidity 1 then 100
    else py_max 0 (100 - (turbidity - 1) * 50) in
  [tds_score; ph_score; orp_score; turb_score].

Definition _calculate_quality_score (tds ph orp turbidity : Q) : Q :=
  let scores := sub_scores tds ph orp turbidity in
  py_round1 (foldr Qplus 0 scores / inject_Z (Z.of_nat (length scores))).

Definition _get_overall_status (score : Q) : string :=
  if Qle_bool 90 score then "excellent"
  else if Qle_bool 80 score then "good"
  else if Qle_bool 70 score then "acceptable"
  else if Qle_bool 60 score then "poor"
  else "critical".

Definition get_optimization_recommendations (reading : any_reading)
  : optimization :=
  let tds := field tds "tds" 250 reading in
  let ph := field ph "ph" 7.2 reading in
  let orp := field orp "orp" 400 reading in
  let turbidity := field turbidity "turbidity" 0.3 reading in
  let out : list string * list (list (string * string)) := ([], []) in
  let out :=
    if Qgt_bool tds 300
    then (out.1 ++ ["TDS high - increase RO filtration"],
          out.2 ++ [[("type", "filter_adjustment"); ("parameter", "ro_pressure"); ("change", "+10%")]])
    else if Qlt_bool tds 150
    then (out.1 ++ ["TDS low - add mineral cartridge"],
          out.2 ++ [[("type", "filter_adjustment"); ("parameter", "mineral_addition"); ("change", "enable")]])
    else out in
  let out :=
    if Qgt_bool ph 8.5
    then (out.1 ++ ["pH high - activate acid injection"],
          out.2 ++ [[("type", "chemical_dosing"); ("chemical", "acid"); ("amount", "low")]])
    else if Qlt_bool ph 6.5
    then (out.1 ++ ["pH low - activate alkaline injection"],
          out.2 ++ [[("type", "chemical_dosing"); ("chemical", "alkaline"); ("amount", "low")]])
    else out in
  let out :=
    if Qlt_bool orp 300
    then (out.1 ++ ["ORP low - increase disinfection"],
          out.2 ++ [[("type", "disinfection"); ("method", "chlorine"); ("change", "+20%")]])
    else out in
  let out :=
    if Qgt_bool turbidity 1
    then (out.1 ++ ["Turbidity high - backwash filters"],
          out.2 ++ [[("type", "filter_maintenance"); ("action", "backwash")]])
    else out in
  let recommendations :=
    match out.1 with
    | [] => ["Water quality within optimal ranges"]
    | _ => out.1
    end in
  let quality_score := _calculate_quality_score tds ph orp turbidity in
  {| recommendations := recommendations;
     actions := out.2;
     quality_score := quality_score;
     overall_status := _get_overall_status quality_score |}.

(** ** [analyze_water_quality] *)

Record report : Type := mkReport {
  report_timestamp : Z;
  current_readings : any_reading;
  report_filter_analysis : filter_analysis;
  anomalies : list (string * anomaly_message);
  report_optimization : optimization;
  alerts : list (alert anomaly_message)
}.

Inductive analysis : Type :=
| AnalysisError (error : string)
| Analysis (r : report).

Definition analyze_water_quality (readings : list any_reading)
  (filter_usage_hours : Q) (days_since_replacement : Z)
  (now : Z) (noise : Q) : analysis :=
  match last readings with
  | None => AnalysisError "No sensor readings provided"
  | Some latest_reading =>
      let filter_analysis :=
        predict_saturation readings filter_usage_hours days_since_replacement now noise in
      let anomalies := detect_anomalies latest_reading in
      let optimization := get_optimization_recommendations latest_reading in
      let alerts := [] in
      let alerts :=
        if get_replacement_needed filter_analysis
        then alerts ++ [mkAlert "filter_replacement" "high"
                          (FilterReplacementNeeded (get_saturation_percent filter_analysis))]
        else alerts in
      let alerts :=
        alerts ++ map (fun '(param, m) =>
                         mkAlert "sensor_anomaly" "high" (AnomalyIn param m)) anomalies in
      let alerts :=
        if Qlt_bool (quality_score optimization) 70
        then alerts ++ [mkAlert "water_quality" "medium"
                          (QualityBelow (quality_score optimization))]
        else alerts in
      Analysis {| report_timestamp := now;
                  current_readings := latest_reading;
                  report_filter_analysis := filter_analysis;
                  anomalies := anomalies;
                  report_optimization := optimization;
                  alerts := alerts |}
  end.


(** ** [SimpleSensorReading.to_dict]

    The numeric entries of the dictionary; its ['timestamp'] entry, a
    string, is read by none of the functions above. *)
Definition to_dict (r : SensorReading Q) : gmap string Q :=
  <["temperature" := temperature r]>
    (<["turbidity" := turbidity r]>
       (<["orp" := orp r]> (<["ph" := ph r]> (<["tds" := tds r]> ∅)))).

End MLSimple.

(** * [backend/ml_model.py] *)

Module MLModel.

(** The parameter names the detector and the optimizer iterate over. *)
Inductive param : Type := TDS | PH | ORP | TURBIDITY | TEMPERATURE.

Definition param_name (p : param) : string :=
  match p with
  | TDS => "tds"
  | PH => "ph"
  | ORP => "orp"
  | TURBIDITY => "turbidity"
  | TEMPERATURE => "temperature"
  end.

(** [getattr(reading, param)] *)
Definition getattr (reading : SensorReading Q) (p : param) : Q :=
  match p with
  | TDS => tds reading
  | PH => ph reading
  | ORP => orp reading
  | TURBIDITY => turbidity reading
  | TEMPERATURE => temperature reading
  end.

(** ** [AnomalyDetector] *)

Record BaselineStats : Type := mkStats {
  mean : Q;
  std : Q;
  median : Q;
  q25 : Q;
  q75 : Q
}.

Record AnomalyDetector : Type := mkDetector {
  baseline_stats : gmap string BaselineStats
}.

(** [AnomalyDetector()] *)
Definition new_detector : AnomalyDetector := {| baseline_stats := ∅ |}.

(** [self.anomaly_thresholds[param]] as [(min, max)]. *)
Definition anomaly_thresholds (p : param) : Q * Q :=
  match p with
  | TDS => (50, 800)
  | PH => (6, 9)
  | ORP => (100, 900)
  | TURBIDITY => (0, 5)
  | TEMPERATURE => (10, 35)
  end.

Definition all_params : list param := [TDS; PH; ORP; TURBIDITY; TEMPERATURE].

(** [readings[-n:]] *)
Definition last_n {A : Type} (n : nat) (l : list A) : list A :=
  drop (length l - n) l.

Section Numpy.
(** [np.mean], [np.std], [np.median] and [np.percentile]. *)
Variables np_mean np_std np_median : list Q -> Q.
Variable np_percentile : list Q -> Q -> Q.

Definition update_baseline (readings : list (SensorReading Q))
  (self : AnomalyDetector) : AnomalyDetector :=
  if (length readings <? 10)%nat then self
  else
    foldl (fun self p =>
             let values := map (fun r => getattr r p) (last_n 50 readings) in
             {| baseline_stats :=
                  <[param_name p :=
                      {| mean := np_mean values;
                         std := np_std values;
                         median := np_median values;
                         q25 := np_percentile values 25;
                         q75 := np_percentile values 75 |}]>
                    (baseline_stats self) |})
      self all_params.
End Numpy.

Inductive anomaly_message : Type :=
| OutsideNormalRange (value lo hi : Q)
    (* "Value {value} outside normal range ({min}-{max})" *)
| StdDevFromNormal (value : Q) (ratio : pyfloat)
    (* "Value {value} is {ratio:.1f} std dev from normal" *)
| DifferentFromTypical (value : Q).
    (* "Value {value} significantly different from typical range" *)

(** The baseline is made of numpy scalars, so the quotient in the second
    message is numpy's: a zero divisor gives [inf] or [nan] and a
    [RuntimeWarning], not an exception. *)
Inductive np_warning : Type :=
| DivideByZero   (* "divide by zero encountered" *)
| InvalidValue.  (* "invalid value encountered" *)

Definition np_divide (a b : Q) : pyfloat * list np_warning :=
  if Qeq_bool b 0 then
    if Qeq_bool a 0 then (NaN, [InvalidValue])
    else if Qlt_bool 0 a then (PosInf, [DivideByZero])
    else (NegInf, [DivideByZero])
  else (Fin (a / b), []).

(** What one call of [detect_anomalies] builds: the returned dictionary
    and the numpy warnings emitted on the way. *)
Record detection : Type := mkDetection {
  anomalies : list (string * anomaly_message);
  np_warnings : list np_warning
}.

(** One turn of [for param in [...]]. *)
Definition detect_param (self : AnomalyDetector) (reading : SensorReading Q)
  (acc : detection) (p : param) : detection :=
  let value := getattr reading p in
  let thresholds := anomaly_thresholds p in
  if Qlt_bool value thresholds.1 || Qgt_bool value thresholds.2 then
    {| anomalies :=
         odict_set (param_name p)
           (OutsideNormalRange value thresholds.1 thresholds.2) (anomalies acc);
       np_warnings := np_warnings acc |}
  else
    match baseline_stats self !! param_name p with
    | Some stats =>
        let acc :=
          if Qgt_bool (Qabs (value - mean stats)) (3 * std stats) then
            let ratio := np_divide (Qabs (value - mean stats)) (std stats) in
            {| anomalies :=
                 odict_set (param_name p) (StdDevFromNormal value ratio.1)
                   (anomalies acc);
               np_warnings := np_warnings acc ++ ratio.2 |}
          else acc in
        let iqr := q75 stats - q25 stats in
        if Qgt_bool (Qabs (value - median stats)) (2 * iqr) then
          {| anomalies :=
               odict_set (param_name p) (DifferentFromTypical value) (anomalies acc);
             np_warnings := np_warnings acc |}
        else acc
    | None => acc
    end.

Definition detect_run (self : AnomalyDetector) (reading : SensorReading Q)
  : detection :=
  foldl (detect_param self reading) {| anomalies := []; np_warnings := [] |}
    all_params.

Definition detect_anomalies (self : AnomalyDetector) (reading : SensorReading Q)
  : list (string * anomaly_message) :=
  anomalies (detect_run self reading).

(** ** [FilterSaturationPredictor.predict_saturation]

    [forest] stands for the fitted scaler and random forest applied to
    the vector of [prepare_features]; that vector is empty exactly when
    [readings] is. *)
Section Forest.
Variable forest : list (SensorReading Q) -> Q -> Z -> Q.

Definition predict_saturation (readings : list (SensorReading Q))
  (filter_usage_hours : Q) (days_since_replacement : Z) : filter_analysis :=
  match readings with
  | [] => FilterError "No data available for prediction"
  | _ :: _ =>
      let saturation := forest readings filter_usage_hours days_since_replacement in
      let saturation := py_max 0 (py_min 100 saturation) in
      let days_remaining :=
        if Qlt_bool saturation 80
        then py_max 0 ((80 - saturation)
                       / py_max 1 (saturation / py_max 1 (inject_Z days_since_replacement)))
        else 0 in
      FilterPrediction (py_round1 saturation) (py_round1 days_remaining)
        (Qle_bool 80 saturation)
        (if Qgt_bool saturation 20 then "high" else "medium")
  end.
End Forest.

(** ** [WaterQualityOptimizer] *)

Record target_range : Type := mkTarget {
  range_min : Q;
  range_max : Q;
  optimal : Q
}.

(** [self.target_ranges[param]] *)
Definition target_ranges (p : param) : py target_range :=
  match p with
  | TDS => Ok {| range_min := 150; range_max := 300; optimal := 225 |}
  | PH => Ok {| range_min := 6.5; range_max := 8.5; optimal := 7.2 |}
  | ORP => Ok {| range_min := 300; range_max := 600; optimal := 450 |}
  | TURBIDITY => Ok {| range_min := 0; range_max := 1; optimal := 0.2 |}
  | TEMPERATURE => Raise KeyError
  end.

(** The body of the loop of [_calculate_quality_score]. *)
Definition param_score (reading : SensorReading Q) (p : param) : py Q :=
  let value := getattr reading p in
  try target <- target_ranges p in
  if Qeq_bool value (optimal target) then Ok 100
  else if Qle_bool (range_min target) value && Qle_bool value (range_max target) then
    if Qlt_bool value (optimal target) then
      try x <- py_div (20 * (value - range_min target))
                 (optimal target - range_min target) in
      Ok (80 + x)
    else
      try x <- py_div (20 * (range_max target - value))
                 (range_max target - optimal target) in
      Ok (80 + x)
  else if Qlt_bool value (range_min target) then
    try x <- py_div value (range_min target) in
    Ok (py_max 0 (80 * x))
  else
    try x <- py_div (range_max target) value in
    Ok (py_max 0 (80 * x)).

Fixpoint collect_scores (reading : SensorReading Q) (ps : list param)
  (scores : list Q) : py (list Q) :=
  match ps with
  | [] => Ok scores
  | p :: rest =>
      try score <- param_score reading p in
      collect_scores reading rest (scores ++ [score])
  end.

Definition _calculate_quality_score (reading : SensorReading Q) : py Q :=
  try scores <- collect_scores reading [TDS; PH; ORP; TURBIDITY] [] in
  Ok (py_round1 (foldr Qplus 0 scores / inject_Z (Z.of_nat (length scores)))).

Definition _get_overall_status (reading : SensorReading Q) : py string :=
  try score <- _calculate_quality_score reading in
  Ok (if Qle_bool 90 score then "excellent"
      else if Qle_bool 80 score then "good"
      else if Qle_bool 70 score then "acceptable"
      else if Qle_bool 60 score then "poor"
      else "critical")%string.

Definition get_optimization_recommendations (reading : SensorReading Q)
  : py optimization :=
  let out : list string * list (list (string * string)) := ([], []) in
  let out :=
    if Qgt_bool (tds reading) 300
    then (out.1 ++ ["TDS too high - increase reverse osmosis pressure"],
          out.2 ++ [[("type", "filter_adjustment"); ("parameter", "ro_pressure"); ("change", "+10%")]])
    else if Qlt_bool (tds reading) 150
    then (out.1 ++ ["TDS too low - add mineral cartridge or reduce filtration"],
          out.2 ++ [[("type", "filter_adjustment"); ("parameter", "mineral_addition"); ("change", "enable")]])
    else out in
  let out :=
    if Qgt_bool (ph reading) 8.5
    then (out.1 ++ ["pH too high - activate acid injection system"],
          out.2 ++ [[("type", "chemical_dosing"); ("chemical", "acid"); ("amount", "low")]])
    else if Qlt_bool (ph reading) 6.5
    then (out.1 ++ ["pH too low - activate alkaline injection system"],
          out.2 ++ [[("type", "chemical_dosing"); ("chemical", "alkaline"); ("amount", "low")]])
    else out in
  let out :=
    if Qlt_bool (orp reading) 300
    then (out.1 ++ ["ORP too low - increase chlorination or ozonation"],
          out.2 ++ [[("type", "disinfection"); ("method", "chlorine"); ("change", "+20%")]])
    else if Qgt_bool (orp reading) 600
    then (out.1 ++ ["ORP too high - reduce disinfectant dosing"],
          out.2 ++ [[("type", "disinfection"); ("method", "chlorine"); ("change", "-15%")]])
    else out in
  let out :=
    if Qgt_bool (turbidity reading) 1
    then (out.1 ++ ["Turbidity too high - backwash filters or replace cartridges"],
          out.2 ++ [[("type", "filter_maintenance"); ("action", "backwash")]])
    else out in
  let recommendations :=
    match out.1 with
    | [] => ["Water quality within optimal ranges"]
    | _ => out.1
    end in
  try score <- _calculate_quality_score reading in
  try status <- _get_overall_status reading in
  Ok {| recommendations := recommendations;
        actions := out.2;
        quality_score := score;
        overall_status := status |}.

(** ** [_generate_alerts] *)

Definition _generate_alerts (filter_analysis : filter_analysis)
  (anomalies : list (string * anomaly_message)) (optimization : optimization)
  : list (alert anomaly_message) :=
  let alerts := [] in
  let alerts :=
    if get_replacement_needed filter_analysis
    then alerts ++ [mkAlert "filter_replacement" "high"
                      (FilterReplacementNeeded (get_saturation_percent filter_analysis))]
    else if Qgt_bool (get_saturation_percent filter_analysis) 60
    then alerts ++ [mkAlert "filter_warning" "medium"
                      (FilterSaturationAt (get_saturation_percent filter_analysis))]
    else alerts in
  let alerts :=
    alerts ++ map (fun '(param, m) =>
                     mkAlert "sensor_anomaly" "high" (AnomalyIn param m)) anomalies in
  let alerts :=
    if Qlt_bool (quality_score optimization) 70
    then alerts ++ [mkAlert "water_quality" "medium"
                      (QualityBelow (quality_score optimization))]
    else alerts in
  alerts.

(** ** [analyze_water_quality]

    The module-level detector is threaded through the call. *)

Record report : Type := mkReport {
  report_timestamp : Z;
  current_readings : SensorReading Q;
  report_filter_analysis : filter_analysis;
  report_anomalies : list (string * anomaly_message);
  report_optimization : optimization;
  alerts : list (alert anomaly_message)
}.

Inductive analysis : Type :=
| AnalysisError (error : string)
| Analysis (r : report).

Section Analysis.
Variables np_mean np_std np_median : list Q -> Q.
Variable np_percentile : list Q -> Q -> Q.
Variable forest : list (SensorReading Q) -> Q -> Z -> Q.

Definition analyze_water_quality (readings : list (SensorReading Q))
  (filter_usage_hours : Q) (days_since_replacement : Z)
  (anomaly_detector : AnomalyDetector) : py analysis * AnomalyDetector :=
  match last readings with
  | None => (Ok (AnalysisError "No sensor readings provided"), anomaly_detector)
  | Some latest_reading =>
      let anomaly_detector :=
        update_baseline np_mean np_std np_median np_percentile readings
          anomaly_detector in
      let filter_analysis :=
        predict_saturation forest readings filter_usage_hours
          days_since_replacement in
      let anomalies := detect_anomalies anomaly_detector latest_reading in
      match get_optimization_recommendations latest_reading with
      | Raise e => (Raise e, anomaly_detector)
      | Ok optimization =>
          (Ok (Analysis
                 {| report_timestamp := timestamp latest_reading;
                    current_readings := latest_reading;
                    report_filter_analysis := filter_analysis;
                    report_anomalies := anomalies;
                    report_optimization := optimization;
                    alerts := _generate_alerts filter_analysis anomalies optimization |}),
           anomaly_detector)
      end
  end.
End Analysis.

End MLModel.

(** * [backend/main.py]: the background monitoring task *)

Module Main.

(** The module-level flag [monitoring_active], with the log and the
    completed sleeps as observable history. *)
Record state : Type := mkState {
  monitoring_active : bool;
  log : list (log_level * string);
  slept : list Z
}.

(** Outcomes of the calls made in one turn of the [while]. *)
Record tick : Type := mkTick {
  read_result : py (option (SensorReading pyfloat)); (* [read_sensor_data()] *)
  save_result : py bool;        (* [save_reading(reading)] *)
  publish_result : py unit;     (* [publish_sensor_data], [publish_alert] *)
  broadcast_result : py unit;   (* [websocket_manager.broadcast] of the update *)
  recent_count : nat;           (* [len(get_recent_readings(hours=1))] *)
  analysis_result : py unit;    (* the statements under the inner [try] *)
  sleep_result : py unit;       (* [asyncio.sleep(30)] *)
  stop_requested : bool         (* the shutdown code clears the flag meanwhile *)
}.

Definition add_log (lvl : log_level) (msg : string) (st : state) : state :=
  {| monitoring_active := monitoring_active st;
     log := (lvl, msg) :: log st; slept := slept st |}.

Definition add_sleep (seconds : Z) (st : state) : state :=
  {| monitoring_active := monitoring_active st;
     log := log st; slept := seconds :: slept st |}.

(** [monitoring_active = False] in [lifespan]. *)
Definition shutdown (st : state) : state :=
  {| monitoring_active := false; log := log st; slept := slept st |}.

(** The statements under [if reading:]. *)
Definition process_reading (t : tick) (reading : SensorReading pyfloat)
  (st : state) : state * py unit :=
  match save_result t with
  | Raise e => (st, Raise e)
  | Ok _ =>
      match publish_result t with
      | Raise e => (st, Raise e)
      | Ok _ =>
          match Sensors.validate_reading reading with
          | Raise e => (st, Raise e)
          | Ok _ =>
              match broadcast_result t with
              | Raise e => (st, Raise e)
              | Ok _ =>
                  if (recent_count t mod 10 =? 0)%nat then
                    match analysis_result t with
                    | Ok _ => (st, Ok tt)
                    | Raise _ =>
                        (add_log ERROR "ML analysis error in background task" st, Ok tt)
                    end
                  else (st, Ok tt)
              end
          end
      end
  end.

(** The body of the outer [try]. *)
Definition iteration (t : tick) (st : state) : state * py unit :=
  match read_result t with
  | Raise e => (st, Raise e)
  | Ok reading =>
      let handled :=
        match reading with
        | Some r => process_reading t r st
        | None => (st, Ok tt)
        end in
      match handled with
      | (st1, Raise e) => (st1, Raise e)
      | (st1, Ok _) =>
          match sleep_result t with
          | Raise e => (st1, Raise e)
          | Ok _ => (add_sleep 30 st1, Ok tt)
          end
      end
  end.

(** [try: ... except Exception: log; await asyncio.sleep(60)], inside
    the [while]. *)
Definition guarded_iteration (t : tick) (st : state) : state :=
  match iteration t st with
  | (st1, Ok _) => st1
  | (st1, Raise _) => add_sleep 60 (add_log ERROR "Background monitoring error" st1)
  end.

Fixpoint monitoring_loop (ticks : list tick) (st : state)
  : loop_status * state :=
  match ticks with
  | [] => (if monitoring_active st then Running else Returned, st)
  | t :: rest =>
      if monitoring_active st then
        let st1 := guarded_iteration t st in
        monitoring_loop rest (if stop_requested t then shutdown st1 else st1)
      else (Returned, st)
  end.

Definition background_monitoring (ticks : list tick) (st : state)
  : loop_status * state :=
  monitoring_loop ticks
    (add_log INFO "Starting background monitoring task"
       {| monitoring_active := true; log := log st; slept := slept st |}).


(** ** The alerts the analysis block forwards

    [for alert in analysis.get("alerts", []): if alert.get("severity") ==
    "high": iot_hub.publish_alert(...)] *)
Definition forwarded_alerts (analysis : MLSimple.analysis)
  : list (alert MLSimple.anomaly_message) :=
  let alerts :=
    match analysis with
    | MLSimple.Analysis rep => MLSimple.alerts rep
    | MLSimple.AnalysisError _ => []
    end in
  List.filter (fun a => String.eqb (severity a) "high") alerts.

(** ** [WebSocketManager]

    A connection is identified by a number; [send c] is the outcome of
    [connection.send_text(json.dumps(message, default=str))] on it. *)
Record WebSocketManager : Type := mkManager {
  active_connections : list nat
}.

(** [list.remove(x)]: the first occurrence goes. *)
Fixpoint remove_first (x : nat) (l : list nat) : list nat :=
  match l with
  | [] => []
  | y :: l' => if decide (x = y) then l' else y :: remove_first x l'
  end.

(** [accepted] is the outcome of [websocket.accept()]. *)
Definition connect (accepted : py unit) (websocket : nat) (m : WebSocketManager)
  : py WebSocketManager :=
  try _ <- accepted in
  Ok {| active_connections := active_connections m ++ [websocket] |}.

Definition disconnect (websocket : nat) (m : WebSocketManager) : WebSocketManager :=
  if decide (websocket ∈ active_connections m)
  then {| active_connections := remove_first websocket (active_connections m) |}
  else m.

Definition broadcast (send : nat -> py unit) (m : WebSocketManager)
  : WebSocketManager :=
  match active_connections m with
  | [] => m
  | _ :: _ =>
      let disconnected :=
        foldl (fun disconnected connection =>
                 match send connection with
                 | Ok _ => disconnected
                 | Raise _ => disconnected ++ [connection]
                 end) [] (active_connections m) in
      foldl (fun m conn => disconnect conn m) m disconnected
  end.

(** ** The HTTP routes that raise inside their own [try]

    [HTTPException] is a subclass of [Exception], so the handler
    [except Exception as e: raise HTTPException(status_code=500, ...)]
    also catches the ones raised in the body. *)
Inductive raised : Type :=
| HTTPException (status_code : Z) (detail : string)
| Unexpected (e : exn).

Inductive http (A : Type) : Type :=
| Reply (a : A)
| Abort (r : raised).

Arguments Reply {A} a.
Arguments Abort {A} r.

(** [except Exception as e: raise HTTPException(status_code=500,
    detail=f"{what}: {str(e)}")]; [str_of] is [str]. *)
Definition reraise_500 {A : Type} (str_of : raised -> string) (what : string)
  (body : http A) : http A :=
  match body with
  | Reply a => Reply a
  | Abort e => Abort (HTTPException 500 (what +:+ ": " +:+ str_of e))
  end.

(** [GET /sensors/current]; [reading] is the result of
    [read_sensor_data()]. *)
Definition get_current_reading (str_of : raised -> string)
  (reading : py (option (SensorReading pyfloat)))
  : http (SensorReading pyfloat) :=
  reraise_500 str_of "Failed to get sensor reading"
    match reading with
    | Raise e => Abort (Unexpected e)
    | Ok (Some r) => Reply r
    | Ok None => Abort (HTTPException 404 "No current sensor data available")
    end.

(** [GET /sensors/history]; [get_recent_readings] is the database query,
    which returns [[]] on its own errors. *)
Definition get_sensor_history (str_of : raised -> string)
  (get_recent_readings : Z -> list (SensorReading pyfloat)) (hours : Z)
  : http (list (SensorReading pyfloat) * nat * Z) :=
  reraise_500 str_of "Failed to get sensor history"
    (if (hours <? 1)%Z || (168 <? hours)%Z
     then Abort (HTTPException 400 "Hours must be between 1 and 168")
     else
       let readings := get_recent_readings hours in
       Reply (readings, length readings, hours)).

(** [GET /ml/analysis] *)
Definition get_ml_analysis (str_of : raised -> string)
  (readings : list MLSimple.any_reading)
  (filter_usage_hours : Q) (days_since_replacement : Z) (now : Z) (noise : Q)
  : http MLSimple.analysis :=
  reraise_500 str_of "ML analysis failed"
    match readings with
    | [] => Abort (HTTPException 404 "No sensor data available for analysis")
    | _ :: _ =>
        Reply (MLSimple.analyze_water_quality readings filter_usage_hours
                 days_since_replacement now noise)
    end.

End Main.

(** * [backend/controller.py] *)

Module Controller.

Inductive ValveState : Type := OPEN | CLOSED | UNKNOWN.

Definition valve_value (v : ValveState) : string :=
  match v with OPEN => "0" | CLOSED => "C" | UNKNOWN => "U" end.

Inductive FilterPosition : Type := FORWARD | BACKWARD | ROTATE | STOP.

Definition filter_value (f : FilterPosition) : string :=
  match f with FORWARD => "f" | BACKWARD => "b" | ROTATE => "r" | STOP => "s" end.

Inductive ControllerStatus : Type := READY | BUSY | ERROR | DISCONNECTED.

Record command_entry : Type := mkEntry {
  command : string;
  entry_timestamp : Q;
  simulated : bool
}.

(** [serial_open] stands for [self.serial_connection and
    self.serial_connection.is_open]; times are in seconds. *)
Record HardwareController : Type := mkController {
  serial_open : bool;
  status : ControllerStatus;
  valve_state : ValveState;
  filter_position : FilterPosition;
  last_command_time : option Q;
  command_history : list command_entry;
  valve_operation_count : Z;
  valve_count_reset_time : Q
}.

Definition max_valve_operations_per_hour : Z := 100.

Definition set_status (st : ControllerStatus) (c : HardwareController)
  : HardwareController :=
  mkController (serial_open c) st (valve_state c) (filter_position c)
    (last_command_time c) (command_history c) (valve_operation_count c)
    (valve_count_reset_time c).

Definition set_valve_state (v : ValveState) (c : HardwareController)
  : HardwareController :=
  mkController (serial_open c) (status c) v (filter_position c)
    (last_command_time c) (command_history c) (valve_operation_count c)
    (valve_count_reset_time c).

Definition set_filter_position (f : FilterPosition) (c : HardwareController)
  : HardwareController :=
  mkController (serial_open c) (status c) (valve_state c) f
    (last_command_time c) (command_history c) (valve_operation_count c)
    (valve_count_reset_time c).

Definition log_command (entry : command_entry) (sent_at : option Q)
  (c : HardwareController) : HardwareController :=
  mkController (serial_open c) (status c) (valve_state c) (filter_position c)
    sent_at (command_history c ++ [entry]) (valve_operation_count c)
    (valve_count_reset_time c).

Definition set_valve_count (n : Z) (reset_time : Q) (c : HardwareController)
  : HardwareController :=
  mkController (serial_open c) (status c) (valve_state c) (filter_position c)
    (last_command_time c) (command_history c) n reset_time.

(** What the outside supplies to one command exchange: the clock, the
    outcome of [serial_connection.write] and of
    [readline().decode('utf-8').strip()]. *)
Record exchange : Type := mkExchange {
  now : Q;
  write_result : py unit;
  readline_result : py string
}.

(** The dictionaries the operations return. *)
Inductive result : Type :=
| ValveDone (action valve : string) (timestamp : Q)
| FilterDone (action position : string) (timestamp : Q)
| EmergencyDone (valve position : string) (timestamp : Q)
| DroneDone (mission_counter unix_time : Z) (mission_type : string)
    (latitude longitude : Q) (estimated_arrival_minute : Z)
| Failure (error : string) (state : option string).

(** [ValveState(action)] and [FilterPosition(action)] *)
Definition valve_of (action : string) : ValveState :=
  if String.eqb action "0" then OPEN
  else if String.eqb action "C" then CLOSED
  else UNKNOWN.

Definition filter_of (action : string) : FilterPosition :=
  if String.eqb action "f" then FORWARD
  else if String.eqb action "b" then BACKWARD
  else if String.eqb action "r" then ROTATE
  else STOP.

Definition _simulate_command (command : string) (e : exchange)
  (c : HardwareController) : bool * HardwareController :=
  let c := log_command (mkEntry command (now e) true) (last_command_time c) c in
  let c :=
    if String.eqb command (valve_value OPEN) then set_valve_state OPEN c
    else if String.eqb command (valve_value CLOSED) then set_valve_state CLOSED c
    else if bool_decide (command ∈ [filter_value FORWARD; filter_value BACKWARD;
                                     filter_value ROTATE])
    then set_filter_position (filter_of command) c
    else c in
  (true, c).

Definition _send_command (command : string) (e : exchange)
  (c : HardwareController) : bool * HardwareController :=
  if negb (serial_open c) then _simulate_command command e c
  else
    match write_result e with
    | Ok _ => (true, log_command (mkEntry command (now e) false) (Some (now e)) c)
    | Raise _ => (false, c)
    end.

Definition _read_response (e : exchange) (c : HardwareController)
  : option string :=
  if negb (serial_open c) then Some "OK"%string
  else
    match readline_result e with
    | Ok response => if String.eqb response "" then None else Some response
    | Raise _ => None
    end.

(** [needle in hay] *)
Fixpoint contains (needle hay : string) : bool :=
  String.prefix needle hay
  || match hay with
     | String _ hay' => contains needle hay'
     | EmptyString => false
     end.

Definition _check_valve_safety_limits (e : exchange) (c : HardwareController)
  : bool * HardwareController :=
  let c :=
    if Qlt_bool 3600 (now e - valve_count_reset_time c)
    then set_valve_count 0 (now e) c
    else c in
  ((valve_operation_count c <? max_valve_operations_per_hour)%Z, c).

Definition _increment_valve_count (c : HardwareController) : HardwareController :=
  set_valve_count (valve_operation_count c + 1) (valve_count_reset_time c) c.

Section Hardware.
(** [str.upper] *)
Variable py_upper : string -> string.

(** [response and "OK" in response.upper()] *)
Definition acknowledged (response : option string) : bool :=
  match response with
  | Some r => negb (String.eqb r "") && contains "OK" (py_upper r)
  | None => false
  end.

Definition control_valve (action : string) (e : exchange)
  (c : HardwareController) : result * HardwareController :=
  if negb (bool_decide (action ∈ [valve_value OPEN; valve_value CLOSED])) then
    (Failure ("Invalid valve action: " +:+ action
              +:+ ". Use '0' (open) or 'C' (close)") None, c)
  else
    let '(allowed, c) := _check_valve_safety_limits e c in
    if negb allowed then
      (Failure "Valve operation limit exceeded. Too many operations in the last hour."
         None, c)
    else
      let c := set_status BUSY c in
      let '(success, c) := _send_command action e c in
      if success then
        if acknowledged (_read_response e c) then
          let c := set_valve_state (valve_of action) c in
          let c := _increment_valve_count c in
          let c := set_status READY c in
          (ValveDone (if String.eqb action "0" then "opened" else "closed")
             (valve_value (valve_state c)) (now e), c)
        else
          let c := set_status ERROR c in
          (Failure "Hardware did not acknowledge command"
             (Some (valve_value (valve_state c))), c)
      else
        let c := set_status ERROR c in
        (Failure "Failed to send command" (Some (valve_value (valve_state c))), c).

Definition control_filter (action : string) (e : exchange)
  (c : HardwareController) : result * HardwareController :=
  if negb (bool_decide (action ∈ [filter_value FORWARD; filter_value BACKWARD;
                                   filter_value ROTATE])) then
    (Failure ("Invalid filter action: " +:+ action
              +:+ ". Use 'f' (forward), 'b' (backward), 'r' (rotate)") None, c)
  else
    let c := set_status BUSY c in
    let '(success, c) := _send_command action e c in
    if success then
      if acknowledged (_read_response e c) then
        let c := set_filter_position (filter_of action) c in
        let c := set_status READY c in
        (FilterDone (if String.eqb action "f" then "moved forward"
                     else if String.eqb action "b" then "moved backward"
                     else "rotated")
           (filter_value (filter_position c)) (now e), c)
      else
        let c := set_status ERROR c in
        (Failure "Hardware did not acknowledge command"
           (Some (filter_value (filter_position c))), c)
    else
      let c := set_status ERROR c in
      (Failure "Failed to send command" (Some (filter_value (filter_position c))), c).
End Hardware.

(** [e_stop] and [e_close] are the exchanges of the two commands. *)
Definition emergency_stop (e_stop e_close : exchange) (c : HardwareController)
  : result * HardwareController :=
  let '(success, c) := _send_command "STOP" e_stop c in
  if success then
    let '(_, c) := _send_command (valve_value CLOSED) e_close c in
    let c := set_valve_state CLOSED c in
    let c := set_filter_position STOP c in
    let c := set_status READY c in
    (EmergencyDone (valve_value (valve_state c)) (filter_value (filter_position c))
       (now e_close), c)
  else (Failure "Failed to send emergency stop command" None, c).

(** ** [DroneController]

    A mission id [f"mission_{counter}_{int(time.time())}"] is kept as the
    pair of its two numbers. *)

Definition mission_id : Type := Z * Z.

Record mission : Type := mkMission {
  id : mission_id;
  mission_type : string;
  latitude : Q;
  longitude : Q;
  mission_status : string;
  dispatch_time : Q;
  estimated_arrival_minute : Z;
  completion_time : option Q
}.

Record DroneController : Type := mkDrone {
  active_missions : list (mission_id * mission);
  drone_status : string;
  mission_counter : Z
}.

(** [DroneController()] *)
Definition new_drone : DroneController :=
  {| active_missions := []; drone_status := "available"; mission_counter := 0 |}.

(** The clock readings of [dispatch_drone]: [datetime.now()] in seconds,
    [int(time.time())] and [datetime.now().minute]. *)
Record clock : Type := mkClock {
  clock_now : Q;
  unix_time : Z;
  minute : Z
}.

(** The third component lists the coroutines handed to
    [asyncio.create_task]: [_simulate_mission_completion(mission_id)]. *)
Definition dispatch_drone (lat lon : Q) (kind : string) (k : clock)
  (d : DroneController) : result * DroneController * list mission_id :=
  if negb (String.eqb (drone_status d) "available") then
    (Failure ("Drone not available. Current status: " +:+ drone_status d) None, d, [])
  else if negb (Qle_bool (-90) lat && Qle_bool lat 90)
          || negb (Qle_bool (-180) lon && Qle_bool lon 180) then
    (Failure "Invalid coordinates" None, d, [])
  else
    let d := {| active_missions := active_missions d;
                drone_status := drone_status d;
                mission_counter := mission_counter d + 1 |} in
    let mid := (mission_counter d, unix_time k) in
    (* datetime.now().replace(minute=datetime.now().minute + 15) *)
    if (59 <? minute k + 15)%Z then
      (Failure "minute must be in 0..59" None, d, [])
    else
      let m := {| id := mid; mission_type := kind; latitude := lat;
                  longitude := lon; mission_status := "dispatched";
                  dispatch_time := clock_now k;
                  estimated_arrival_minute := minute k + 15;
                  completion_time := None |} in
      let d := {| active_missions := odict_set mid m (active_missions d);
                  drone_status := "dispatched";
                  mission_counter := mission_counter d |} in
      (DroneDone (mission_counter d) (unix_time k) kind lat lon (minute k + 15),
       d, [mid]).

(** The body of [_simulate_mission_completion] after its sleep. *)
Definition _simulate_mission_completion (mid : mission_id) (finished_at : Q)
  (d : DroneController) : DroneController :=
  match odict_get mid (active_missions d) with
  | Some m =>
      {| active_missions :=
           odict_set mid
             {| id := id m; mission_type := mission_type m;
                latitude := latitude m; longitude := longitude m;
                mission_status := "completed";
                dispatch_time := dispatch_time m;
                estimated_arrival_minute := estimated_arrival_minute m;
                completion_time := Some finished_at |}
             (active_missions d);
         drone_status := "available";
         mission_counter := mission_counter d |}
  | None => d
  end.

(** [get_mission_status]: the mission, or "Mission not found". *)
Definition get_mission_status (mid : mission_id) (d : DroneController)
  : mission + string :=
  match odict_get mid (active_missions d) with
  | Some m => inl m
  | None => inr "Mission not found"%string
  end.

(** [get_drone_status]: status, number of dispatched missions, total, and
    the last five missions. *)
Definition get_drone_status (d : DroneController)
  : string * nat * Z * list mission :=
  (drone_status d,
   length (List.filter (fun m => String.eqb (mission_status m) "dispatched")
             (map snd (active_missions d))),
   mission_counter d,
   drop (length (active_missions d) - 5) (map snd (active_missions d))).

(** ** [process_control_command]

    The two module-level controllers and the completion tasks that have
    been created and have not run yet. *)
Record system : Type := mkSystem {
  hardware_controller : HardwareController;
  drone_controller : DroneController;
  completion_tasks : list mission_id
}.

Record call_env : Type := mkEnv {
  first_exchange : exchange;
  second_exchange : exchange;
  dispatch_clock : clock
}.

(** [x and y] on optional numbers: [None] and [0] are false. *)
Definition truthy (x : option Q) : bool :=
  match x with
  | Some q => negb (Qeq_bool q 0)
  | None => false
  end.

Section Commands.
Variable py_upper : string -> string.

(** [None] is the result of a call that falls off the end of the
    function. *)
Definition process_control_command (command_type command : string)
  (latitude longitude : option Q) (env : call_env) (sys : system)
  : option result * system :=
  if String.eqb command_type "valve" then
    let '(r, c) := control_valve py_upper command (first_exchange env)
                     (hardware_controller sys) in
    (Some r, mkSystem c (drone_controller sys) (completion_tasks sys))
  else if String.eqb command_type "filter" then
    let '(r, c) := control_filter py_upper command (first_exchange env)
                     (hardware_controller sys) in
    (Some r, mkSystem c (drone_controller sys) (completion_tasks sys))
  else if String.eqb command_type "drone" then
    if String.eqb command "dispatch" then
      match latitude, longitude with
      | Some lat, Some lon =>
          if truthy latitude && truthy longitude then
            let '(r, d, tasks) := dispatch_drone lat lon "delivery" (dispatch_clock env)
                                    (drone_controller sys) in
            (Some r, mkSystem (hardware_controller sys) d (completion_tasks sys ++ tasks))
          else (Some (Failure "Missing coordinates" None), sys)
      | _, _ => (Some (Failure "Missing coordinates" None), sys)
      end
    else (None, sys)
  else if String.eqb command_type "emergency" then
    let '(r, c) := emergency_stop (first_exchange env) (second_exchange env)
                     (hardware_controller sys) in
    (Some r, mkSystem c (drone_controller sys) (completion_tasks sys))
  else
    (Some (Failure ("Unknown command type: " +:+ command_type) None), sys).
End Commands.

End Controller.

(** * [backend/weather_integration.py] *)

Module Weather.

(** The JSON object of the weather service, with the blocks and entries
    the module reads.  A key that is absent is [None]; [other_keys] tells
    whether the object has any further key. *)
Record main_block : Type := mkMain {
  temp : option Q;
  humidity : option Q;
  pressure : option Q
}.

Record weather_entry : Type := mkEntry {
  condition : option string;   (* ['main'] *)
  description : option string
}.

Record wind_block : Type := mkWind { speed : option Q }.

Record rain_block : Type := mkRain { one_hour : option Q }. (* ['1h'] *)

Record weather_data : Type := mkWeather {
  main : option main_block;
  weather : option (list weather_entry);
  wind : option wind_block;
  rain : option rain_block;
  visibility : option Q;
  other_keys : bool
}.

(** [not weather_data] on a dictionary: it has no key. *)
Definition is_empty (wd : weather_data) : bool :=
  match main wd, weather wd, wind wd, rain wd, visibility wd with
  | None, None, None, None, None => negb (other_keys wd)
  | _, _, _, _, _ => false
  end.

(** ** [WeatherAnalyzer] *)

Record impact : Type := mkImpact {
  risk : string;
  impact_message : string;
  impact_recommendations : list string
}.

Definition _analyze_temperature_impact (temperature : Q) : impact :=
  if Qlt_bool temperature 5 then
    mkImpact "medium" "Low temperature may reduce filtration efficiency"
      ["Increase filtration time"; "Monitor flow rate"]
  else if Qgt_bool temperature 30 then
    mkImpact "medium" "High temperature may increase bacterial growth risk"
      ["Increase disinfection"; "Monitor microbial levels"]
  else mkImpact "low" "Temperature within normal range" [].

Definition _analyze_humidity_impact (humidity : Q) : impact :=
  if Qgt_bool humidity 85 then
    mkImpact "medium" "High humidity may affect electronic components"
      ["Check sensor calibration"; "Monitor for condensation"]
  else if Qlt_bool humidity 30 then
    mkImpact "low" "Low humidity - monitor for static buildup"
      ["Check electrical connections"]
  else mkImpact "low" "Humidity within acceptable range" [].

(** [self.pollution_factors.get(area_type, 1.1)] *)
Definition pollution_factor (area_type : string) : Q :=
  if String.eqb area_type "industrial" then 1.5
  else if String.eqb area_type "urban" then 1.3
  else if String.eqb area_type "suburban" then 1.1
  else if String.eqb area_type "rural" then 1.0
  else 1.1.

Definition _analyze_rainfall_impact (rainfall : Q) (area_type : string) : impact :=
  let adjusted_impact := rainfall * pollution_factor area_type in
  if Qeq_bool rainfall 0 then
    mkImpact "low" "No rainfall - stable source conditions" []
  else if Qlt_bool adjusted_impact 2.5 then
    mkImpact "low" "Light rainfall - minimal impact on source water"
      ["Continue normal operation"]
  else if Qlt_bool adjusted_impact 10 then
    mkImpact "medium" "Moderate rainfall - potential source water contamination"
      ["Increase pre-filtration"; "Monitor turbidity closely"]
  else
    mkImpact "high" "Heavy rainfall - significant contamination risk"
      ["Activate enhanced filtration"; "Increase monitoring frequency";
       "Consider alternative source"].

Definition _analyze_air_quality_impact (weather_condition : string) (wind_speed : Q)
  : impact :=
  if bool_decide (weather_condition ∈ ["Haze"; "Smoke"; "Dust"; "Sand"; "Fog"]%string) then
    mkImpact "high"
      (weather_condition +:+ " conditions may increase airborne contaminants")
      ["Activate air filtration"; "Increase water pre-treatment"]
  else if Qgt_bool wind_speed 15 then
    mkImpact "medium" "High winds may increase dust and debris"
      ["Monitor pre-filters"; "Check intake protection"]
  else mkImpact "low" "Good air quality conditions" [].

Record analysis : Type := mkAnalysis {
  temperature_impact : impact;
  humidity_impact : impact;
  rainfall_impact : impact;
  air_quality_impact : impact;
  overall_risk : string;
  recommendations : list string
}.

(** [list(dict.fromkeys(l))]: duplicates go, first occurrences stay in
    place. *)
Definition unique_in_order (l : list string) : list string :=
  map fst (foldl (fun d k => odict_set k tt d) [] l).

Definition _generate_recommendations (a : analysis) : list string :=
  let recommendations :=
    impact_recommendations (temperature_impact a)
    ++ impact_recommendations (humidity_impact a)
    ++ impact_recommendations (rainfall_impact a)
    ++ impact_recommendations (air_quality_impact a) in
  let recommendations :=
    if String.eqb (overall_risk a) "high" then
      recommendations
      ++ ["Increase monitoring frequency to every 15 minutes";
          "Activate all backup filtration systems";
          "Prepare for manual intervention if needed"]
    else if String.eqb (overall_risk a) "medium" then
      recommendations
      ++ ["Increase monitoring frequency to every 30 minutes";
          "Review filter replacement schedule"]
    else recommendations in
  unique_in_order recommendations.

Inductive analysis_result : Type :=
| AnalysisError (error : string)
| Analysed (a : analysis).

(** [weather_data] is [None] when the caller has no data. *)
Definition analyze_current_conditions (weather_data : option weather_data)
  (area_type : string) : analysis_result :=
  match weather_data with
  | None => AnalysisError "No weather data available"
  | Some wd =>
      if is_empty wd then AnalysisError "No weather data available"
      else
        match default [mkEntry None None] (weather wd) with
        | [] => AnalysisError "list index out of range"
        | first :: _ =>
            let temperature := default 20 (main wd ≫= temp) in
            let humidity := default 50 (main wd ≫= humidity) in
            let weather_condition := default "Clear"%string (condition first) in
            let wind_speed := default 0 (wind wd ≫= speed) in
            let rainfall := default 0 (rain wd ≫= one_hour) in
            let a :=
              {| temperature_impact := _analyze_temperature_impact temperature;
                 humidity_impact := _analyze_humidity_impact humidity;
                 rainfall_impact := _analyze_rainfall_impact rainfall area_type;
                 air_quality_impact :=
                   _analyze_air_quality_impact weather_condition wind_speed;
                 overall_risk := "low";
                 recommendations := [] |} in
            let risks := [] in
            let risks :=
              if negb (String.eqb (risk (temperature_impact a)) "low")
              then risks ++ [risk (temperature_impact a)] else risks in
            let risks :=
              if negb (String.eqb (risk (rainfall_impact a)) "low")
              then risks ++ [risk (rainfall_impact a)] else risks in
            let risks :=
              if negb (String.eqb (risk (air_quality_impact a)) "low")
              then risks ++ [risk (air_quality_impact a)] else risks in
            let overall :=
              if bool_decide ("high"%string ∈ risks) then "high"%string
              else if bool_decide ("medium"%string ∈ risks) then "medium"%string
              else overall_risk a in
            let a :=
              {| temperature_impact := temperature_impact a;
                 humidity_impact := humidity_impact a;
                 rainfall_impact := rainfall_impact a;
                 air_quality_impact := air_quality_impact a;
                 overall_risk := overall;
                 recommendations := [] |} in
            Analysed
              {| temperature_impact := temperature_impact a;
                 humidity_impact := humidity_impact a;
                 rainfall_impact := rainfall_impact a;
                 air_quality_impact := air_quality_impact a;
                 overall_risk := overall_risk a;
                 recommendations := _generate_recommendations a |}
        end
  end.

(** ** [WeatherBasedController] *)

(** [analysis.get('overall_risk', 'low')] *)
Definition get_overall_risk (r : analysis_result) : string :=
  match r with
  | Analysed a => overall_risk a
  | AnalysisError _ => "low"
  end.

Definition _generate_treatment_adjustments (r : analysis_result) (wd : weather_data)
  : list (string * string) :=
  let adjustments :=
    [("filtration_rate", "normal"); ("disinfection_level", "normal");
     ("monitoring_frequency", "normal"); ("backup_systems", "standby")]%string in
  let risk_level := get_overall_risk r in
  let adjustments :=
    if String.eqb risk_level "high" then
      odict_set "backup_systems" "active"
        (odict_set "monitoring_frequency" "high"
           (odict_set "disinfection_level" "enhanced"
              (odict_set "filtration_rate" "increased" adjustments)))
    else if String.eqb risk_level "medium" then
      odict_set "backup_systems" "ready"
        (odict_set "monitoring_frequency" "increased"
           (odict_set "disinfection_level" "increased"
              (odict_set "filtration_rate" "slightly_increased" adjustments)))
    else adjustments in
  let rain := default 0 (rain wd ≫= one_hour) in
  let adjustments :=
    if Qgt_bool rain 5 then
      odict_set "turbidity_monitoring" "continuous"
        (odict_set "pre_filtration" "enhanced" adjustments)
    else adjustments in
  let temp := default 20 (main wd ≫= temp) in
  let adjustments :=
    if Qgt_bool temp 25
    then odict_set "disinfection_contact_time" "extended" adjustments
    else adjustments in
  adjustments.

Record weather_alert : Type := mkAlert {
  alert_type : string;
  alert_severity : string;
  alert_location : string;
  alert_value : Q
}.

Definition _check_location_alerts (location_name : string) (wd : weather_data)
  : list weather_alert :=
  let alerts := [] in
  let alerts :=
    match main wd ≫= temp with
    | Some temp =>
        if Qlt_bool temp 0
        then alerts ++ [mkAlert "low_temperature" "medium" location_name temp]
        else if Qgt_bool temp 35
        then alerts ++ [mkAlert "high_temperature" "medium" location_name temp]
        else alerts
    | None => alerts
    end in
  let rain := default 0 (rain wd ≫= one_hour) in
  let alerts :=
    if Qgt_bool rain 10
    then alerts ++ [mkAlert "heavy_rainfall" "high" location_name rain]
    else alerts in
  let wind_speed := default 0 (wind wd ≫= speed) in
  let alerts :=
    if Qgt_bool wind_speed 20
    then alerts ++ [mkAlert "high_wind" "medium" location_name wind_speed]
    else alerts in
  alerts.

(** A call that can end in an [IndexError] nobody catches. *)
Inductive outcome (A : Type) : Type :=
| Returns (a : A)
| RaisesIndexError.   (* "list index out of range" *)

Arguments Returns {A} a.
Arguments RaisesIndexError {A}.

(** The dictionary of [_extract_current_conditions]; an absent value is
    [None] (for ['visibility'], the text 'N/A'). *)
Record current_conditions : Type := mkConditions {
  shown_temperature : option Q;
  shown_humidity : option Q;
  shown_pressure : option Q;
  shown_weather : option string;
  shown_wind_speed : option Q;
  shown_rainfall : Q;
  shown_visibility : option Q
}.

(** [weather_data.get('weather', [{}])[0]] is outside any [try] here. *)
Definition _extract_current_conditions (wd : weather_data)
  : outcome current_conditions :=
  match default [mkEntry None None] (weather wd) with
  | [] => RaisesIndexError
  | first :: _ =>
      Returns {| shown_temperature := main wd ≫= temp;
                 shown_humidity := main wd ≫= humidity;
                 shown_pressure := main wd ≫= pressure;
                 shown_weather := description first;
                 shown_wind_speed := wind wd ≫= speed;
                 shown_rainfall := default 0 (rain wd ≫= one_hour);
                 shown_visibility := visibility wd |}
  end.

Record location : Type := mkLocation {
  location_name : string;
  location_latitude : Q;
  location_longitude : Q;
  location_area_type : string
}.

(** The dictionary [get_treatment_recommendations] returns when it has
    weather data. *)
Record treatment_report : Type := mkReport {
  report_location : string;
  weather_conditions : current_conditions;
  report_analysis : analysis_result;
  treatment_adjustments : list (string * string);
  report_timestamp : Q
}.

(** [next((loc for loc in locations if loc['name'] == name), None)] *)
Fixpoint find_location (name : string) (locations : list location)
  : option location :=
  match locations with
  | [] => None
  | loc :: rest =>
      if String.eqb (location_name loc) name then Some loc
      else find_location name rest
  end.

(** [current_weather] is the outcome of
    [weather_manager.get_current_weather] at the coordinates, [now] is
    [datetime.now()]; an error dictionary is [inl]. *)
Definition get_treatment_recommendations (monitoring_locations : list location)
  (name : option string) (current_weather : Q -> Q -> option weather_data)
  (now : Q) : outcome (string + treatment_report) :=
  match monitoring_locations with
  | [] => Returns (inl "No monitoring locations configured"%string)
  | first_location :: _ =>
      let location :=
        match name with
        | Some n =>
            if String.eqb n "" then None
            else find_location n monitoring_locations
        | None => None
        end in
      let location := default first_location location in
      match current_weather (location_latitude location)
              (location_longitude location) with
      | None => Returns (inl "Unable to retrieve weather data"%string)
      | Some wd =>
          if is_empty wd then Returns (inl "Unable to retrieve weather data"%string)
          else
            let analysis :=
              analyze_current_conditions (Some wd) (location_area_type location) in
            let adjustments := _generate_treatment_adjustments analysis wd in
            match _extract_current_conditions wd with
            | RaisesIndexError => RaisesIndexError
            | Returns conditions =>
                Returns (inr {| report_location := location_name location;
                                weather_conditions := conditions;
                                report_analysis := analysis;
                                treatment_adjustments := adjustments;
                                report_timestamp := now |})
            end
      end
  end.

(** ** [WeatherDataManager]: the ten-minute cache *)

Record cache_entry : Type := mkCached {
  data : weather_data;
  cached_at : Q
}.

Record WeatherDataManager : Type := mkManager {
  cache : gmap string cache_entry
}.

Definition cache_duration : Q := 600.

(** [now] is [datetime.now()], in seconds. *)
Definition _is_cache_valid (cache_key : string) (now : Q) (m : WeatherDataManager)
  : bool :=
  match cache m !! cache_key with
  | None => false
  | Some entry => Qlt_bool (now - cached_at entry) cache_duration
  end.

(** The answer of [requests.get]: the status code and what [response.json()]
    gives. *)
Record http_response : Type := mkResponse {
  status_code : Z;
  json : py weather_data
}.

Section Fetch.
(** The rendering of a coordinate inside the f-string of the cache key. *)
Variable format_float : Q -> string.

Definition current_key (latitude longitude : Q) : string :=
  "current_" +:+ format_float latitude +:+ "_" +:+ format_float longitude.

(** [checked_at] and [stored_at] are the two readings of the clock;
    [request] is the outcome of [requests.get]. *)
Definition get_current_weather (latitude longitude : Q)
  (checked_at stored_at : Q) (request : py http_response)
  (m : WeatherDataManager) : option weather_data * WeatherDataManager :=
  let cache_key := current_key latitude longitude in
  if _is_cache_valid cache_key checked_at m then
    (data <$> cache m !! cache_key, m)
  else
    match request with
    | Raise _ => (None, m)
    | Ok response =>
        if (status_code response =? 200)%Z then
          match json response with
          | Ok d =>
              (Some d,
               {| cache := <[cache_key := mkCached d stored_at]> (cache m) |})
          | Raise _ => (None, m)
          end
        else (None, m)
    end.
End Fetch.

End Weather.

(** * [backend/iot_comm.py]: routing of MQTT messages *)

Module IoT.

(** The loop of [_topic_matches] over [zip(topic_parts, pattern_parts)]. *)
Fixpoint parts_match (topic_parts pattern_parts : list string) : bool :=
  match topic_parts, pattern_parts with
  | topic_part :: ts, pattern_part :: ps =>
      if negb (String.eqb pattern_part "+") && negb (String.eqb pattern_part topic_part)
      then false
      else parts_match ts ps
  | _, _ => true
  end.

Definition _topic_matches (topic pattern : string) : bool :=
  let topic_parts := split "/" topic in
  let pattern_parts := split "/" pattern in
  if negb (length topic_parts =? length pattern_parts)%nat then false
  else parts_match topic_parts pattern_parts.

(** ['+' in callback_topic] *)
Fixpoint has_plus (s : string) : bool :=
  match s with
  | EmptyString => false
  | String c s' => Ascii.eqb c "+" || has_plus s'
  end.

(** The loop over [self.message_callbacks.items()] in [_on_message]: the
    first wildcard entry that matches, then [break]. *)
Fixpoint first_wildcard {C : Type} (topic : string) (callbacks : list (string * C))
  : option C :=
  match callbacks with
  | [] => None
  | (callback_topic, callback) :: rest =>
      if has_plus callback_topic && _topic_matches topic callback_topic
      then Some callback
      else first_wildcard topic rest
  end.

(** The callback [_on_message] hands the payload to, if any. *)
Definition route {C : Type} (callbacks : list (string * C)) (topic : string)
  : option C :=
  match odict_get topic callbacks with
  | Some callback => Some callback
  | None => first_wildcard topic callbacks
  end.

(** The two handlers of [_setup_mqtt_handlers], in registration order. *)
Inductive handler : Type := handle_control_message | handle_emergency.

Definition registered_handlers : list (string * handler) :=
  odict_set "aquasentinel/emergency" handle_emergency
    (odict_set "aquasentinel/control/+" handle_control_message []).

End IoT.

(** * Formulas used in the statements

    First the formulas that follow the words of the specification
    ([spec_...], [all_finite]); then views of the code that the properties
    below relate to it: the verdict of the detector for one parameter, and
    the summary of a run of the monitoring task. *)






(** "Absolute range check ... -> anomaly": the verdict of the absolute
    thresholds alone. *)
Definition absolute_check (r : SensorReading Q) (p : MLModel.param)
  : option MLModel.anomaly_message :=
  let value := MLModel.getattr r p in
  let thresholds := MLModel.anomaly_thresholds p in
  if Qlt_bool value thresholds.1 || Qgt_bool value thresholds.2
  then Some (MLModel.OutsideNormalRange value thresholds.1 thresholds.2)
  else None.

(** The two statistical tests against a baseline. *)
Definition sigma_outlier (value : Q) (stats : MLModel.BaselineStats) : bool :=
  Qgt_bool (Qabs (value - MLModel.mean stats)) (3 * MLModel.std stats).

Definition iqr_deviation (value : Q) (stats : MLModel.BaselineStats) : bool :=
  Qgt_bool (Qabs (value - MLModel.median stats))
    (2 * (MLModel.q75 stats - MLModel.q25 stats)).

(** The entry one parameter ends up with: the absolute check first, then,
    only if it passes and a baseline exists, the statistical tests. *)
Definition param_verdict (self : MLModel.AnomalyDetector) (r : SensorReading Q)
  (p : MLModel.param) : option MLModel.anomaly_message :=
  match absolute_check r p with
  | Some m => Some m
  | None =>
      match MLModel.baseline_stats self !! MLModel.param_name p with
      | Some stats =>
          let value := MLModel.getattr r p in
          if iqr_deviation value stats
          then Some (MLModel.DifferentFromTypical value)
          else if sigma_outlier value stats
          then Some (MLModel.StdDevFromNormal value
                       (MLModel.np_divide (Qabs (value - MLModel.mean stats))
                          (MLModel.std stats)).1)
          else None
      | None => None
      end
  end.

(** The numpy warnings one parameter causes. *)
Definition param_warnings (self : MLModel.AnomalyDetector) (r : SensorReading Q)
  (p : MLModel.param) : list MLModel.np_warning :=
  match absolute_check r p with
  | Some _ => []
  | None =>
      match MLModel.baseline_stats self !! MLModel.param_name p with
      | Some stats =>
          let value := MLModel.getattr r p in
          if sigma_outlier value stats
          then (MLModel.np_divide (Qabs (value - MLModel.mean stats))
                  (MLModel.std stats)).2
          else []
      | None => []
      end
  end.

(** Whether the body of the outer [try] ends in an exception; this
    depends on the outcomes of the tick alone. *)
Definition tick_raises (t : Main.tick) : bool :=
  match (Main.iteration t (Main.mkState true [] [])).2 with
  | Raise _ => true
  | Ok _ => false
  end.

(** "sleep until next tick (default 30s)"; "it waits a longer backoff
    interval (default 60s)". *)
Definition pause_after (t : Main.tick) : Z :=
  if tick_raises t then 60 else 30.

(** The number of "Background monitoring error" entries of a log. *)
Definition outer_errors (log : list (log_level * string)) : nat :=
  length (List.filter (fun e => String.eqb e.2 "Background monitoring error") log).

(** The state after the given turns when nobody clears the flag. *)
Definition run_ticks (ticks : list Main.tick) (st : Main.state) : Main.state :=
  foldl (fun st t => Main.guarded_iteration t st) st ticks.

(** Whether a turn of [SensorManager.start_monitoring] ends in an
    exception; this depends on the outcomes of the tick alone. *)
Definition sensor_tick_raises (t : Sensors.tick) : bool :=
  match (Sensors.monitoring_iteration 0 t (Sensors.mkSensorManager true false [] [])).2 with
  | Raise _ => true
  | Ok _ => false
  end.

(** The value of the last entry stored under [k]. *)
Definition last_value (k : string) (entries : list (string * pyfloat))
  : option pyfloat :=
  foldl (fun acc e => if decide (e.1 = k) then Some e.2 else acc) None entries.

(** Whether the detector leaves an entry for a parameter. *)
Definition flagged (self : MLModel.AnomalyDetector) (r : SensorReading Q)
  (p : MLModel.param) : bool :=
  match param_verdict self r p with
  | Some _ => true
  | None => false
  end.

(** Whether a broadcast reaches a connection. *)
Definition delivered (send : nat -> py unit) (connection : nat) : bool :=
  match send connection with
  | Ok _ => true
  | Raise _ => false
  end.

(** A sequence of [control_valve] calls on one controller: the results,
    and the controller they leave. *)
Fixpoint valve_calls (py_upper : string -> string)
  (calls : list (string * Controller.exchange)) (c : Controller.HardwareController)
  : list Controller.result * Controller.HardwareController :=
  match calls with
  | [] => ([], c)
  | (action, e) :: rest =>
      let '(r, c) := Controller.control_valve py_upper action e c in
      let '(rs, c) := valve_calls py_upper rest c in
      (r :: rs, c)
  end.

Definition is_valve_done (r : Controller.result) : bool :=
  match r with
  | Controller.ValveDone _ _ _ => true
  | _ => false
  end.

(** [c in s] for a character. *)
Fixpoint occurs (c : ascii) (s : string) : bool :=
  match s with
  | EmptyString => false
  | String c' s' => Ascii.eqb c' c || occurs c s'
  end.

(** The recommendations [_generate_recommendations] adds for the overall
    risk. *)
Definition escalation (overall_risk : string) : list string :=
  if String.eqb overall_risk "high" then
    ["Increase monitoring frequency to every 15 minutes";
     "Activate all backup filtration systems";
     "Prepare for manual intervention if needed"]%string
  else if String.eqb overall_risk "medium" then
    ["Increase monitoring frequency to every 30 minutes";
     "Review filter replacement schedule"]%string
  else [].

(** [sep.join(parts)] *)
Fixpoint join (sep : ascii) (parts : list string) : string :=
  match parts with
  | [] => EmptyString
  | w :: ws =>
      match ws with
      | [] => w
      | _ :: _ => w +:+ String sep (join sep ws)
      end
  end.

(** What happens to the drone controller: a call of [dispatch_drone], or
    the oldest task created by [asyncio.create_task] gets past its sleep
    and runs the rest of [_simulate_mission_completion]. *)
Inductive drone_event : Type :=
| DispatchRequest (lat lon : Q) (kind : string) (k : Controller.clock)
| TaskCompletes (finished_at : Q).

(** The controller together with the completion tasks still asleep. *)
Definition drone_step
  (st : Controller.DroneController * list Controller.mission_id)
  (ev : drone_event) : Controller.DroneController * list Controller.mission_id :=
  match ev with
  | DispatchRequest lat lon kind k =>
      let '(_, d, tasks) := Controller.dispatch_drone lat lon kind k st.1 in
      (d, st.2 ++ tasks)
  | TaskCompletes finished_at =>
      match st.2 with
      | [] => st
      | mid :: rest =>
          (Controller._simulate_mission_completion mid finished_at st.1, rest)
      end
  end.

Definition drone_run (events : list drone_event)
  : Controller.DroneController * list Controller.mission_id :=
  foldl drone_step (Controller.new_drone, []) events.

Definition completed (km : Controller.mission_id * Controller.mission) : Prop :=
  Controller.mission_status km.2 = "completed"%string.

(** What every reachable state of the drone controller satisfies. *)
Definition drone_invariant
  (st : Controller.DroneController * list Controller.mission_id) : Prop :=
  Forall (fun km : Controller.mission_id * Controller.mission =>
            (km.1.1 <= Controller.mission_counter st.1)%Z)
    (Controller.active_missions st.1)
  /\ match st.2 with
     | [] =>
         Controller.drone_status st.1 = "available"%string
         /\ Forall completed (Controller.active_missions st.1)
     | [mid] =>
         Controller.drone_status st.1 = "dispatched"%string
         /\ exists pre post m,
              Controller.active_missions st.1 = pre ++ (mid, m) :: post
              /\ Controller.mission_status m = "dispatched"%string
              /\ Forall completed pre /\ Forall completed post
              /\ mid ∉ map fst pre
     | _ :: _ :: _ => False
     end.

(** What binary64 arithmetic can add to or take from a value computed
    below, compared with exact arithmetic: far less than this. *)
Definition rounding_slack : Q := 1 # 1000000000.

(** "100 at the optimal value, falling linearly to 80 at the edges of the
    band" *)
Definition graded_score (target : MLModel.target_range) (value : Q) : Q :=
  if Qlt_bool value (MLModel.optimal target)
  then 80 + 20 * (value - MLModel.range_min target)
            / (MLModel.optimal target - MLModel.range_min target)
  else 80 + 20 * (MLModel.range_max target - value)
            / (MLModel.range_max target - MLModel.optimal target).

Definition raises {A : Type} (r : py A) : bool :=
  match r with
  | Raise _ => true
  | Ok _ => false
  end.

(** "an exception that reaches the outer handler": one of the calls of the
    turn that stand outside the analysis block raises (reading the
    sensors; with a reading, saving it, publishing it, broadcasting it;
    the sleep at the end of the turn). *)
Definition outer_exception (t : Main.tick) : bool :=
  match Main.read_result t with
  | Raise _ => true
  | Ok None => raises (Main.sleep_result t)
  | Ok (Some _) =>
      raises (Main.save_result t) || raises (Main.publish_result t)
      || raises (Main.broadcast_result t) || raises (Main.sleep_result t)
  end.

(** "an exception raised in the ML-analysis block": the block is reached
    (a reading was obtained, saved, published and broadcast, and the number
    of readings of the last hour is a multiple of 10) and raises. *)
Definition analysis_exception (t : Main.tick) : bool :=
  match Main.read_result t with
  | Ok (Some _) =>
      negb (raises (Main.save_result t)) && negb (raises (Main.publish_result t))
      && negb (raises (Main.broadcast_result t))
      && (Main.recent_count t mod 10 =? 0)%nat
      && raises (Main.analysis_result t)
  | _ => false
  end.

(** "followed by the 60 s backoff sleep" after an exception that reaches
    the outer handler, "the ordinary 30 s sleep" otherwise. *)
Definition spec_pause (t : Main.tick) : Z :=
  if outer_exception t then 60 else 30.

(** "logged": what a turn adds to the log, newest entry first. *)
Definition spec_log (t : Main.tick) : list (log_level * string) :=
  (if outer_exception t
   then [(ERROR, "Background monitoring error"%string)] else [])
  ++ (if analysis_exception t
      then [(ERROR, "ML analysis error in background task"%string)] else []).

(** * Properties *)

(** ** Dictionaries *)

Lemma odict_get_set_eq {K V : Type} `{EqDecision K} (k : K) (v : V)
  (d : list (K * V)) :
  odict_get k (odict_set k v d) = Some v.
Proof.
  induction d as [|[k' v'] d IH]; simpl.
  - by rewrite decide_True.
  - destruct (decide (k = k')) as [->|Hne]; simpl.
    + by rewrite decide_True.
    + by rewrite decide_False.
Qed.

Lemma odict_get_set_ne {K V : Type} `{EqDecision K} (k k0 : K) (v : V)
  (d : list (K * V)) :
  k0 <> k -> odict_get k0 (odict_set k v d) = odict_get k0 d.
Proof.
  intros Hne. induction d as [|[k' v'] d IH]; simpl.
  - by rewrite decide_False.
  - destruct (decide (k = k')) as [->|Hne']; simpl.
    + by rewrite !decide_False.
    + destruct (decide (k0 = k')); [done | apply IH].
Qed.

(** ** Arithmetic helpers *)

Lemma Qlt_bool_iff (a b : Q) : Qlt_bool a b = true <-> a < b.
Proof.
  unfold Qlt_bool. rewrite negb_true_iff.
  destruct (Qle_bool b a) eqn:E.
  - apply Qle_bool_iff in E. split; [discriminate | intros H; lra].
  - split; [intros _ | reflexivity].
    destruct (Qlt_le_dec a b) as [H|H]; [exact H |].
    apply Qle_bool_iff in H. congruence.
Qed.

Lemma Qlt_bool_false (a b : Q) : Qlt_bool a b = false <-> b <= a.
Proof.
  destruct (Qlt_bool a b) eqn:E.
  - apply Qlt_bool_iff in E. split; [discriminate | intros H; lra].
  - split; [intros _ | reflexivity].
    destruct (Qlt_le_dec a b) as [H|H]; [| exact H].
    apply Qlt_bool_iff in H. congruence.
Qed.

Lemma Qle_bool_false (a b : Q) : Qle_bool a b = false <-> b < a.
Proof.
  rewrite <- Qlt_bool_iff. unfold Qlt_bool.
  destruct (Qle_bool a b); simpl; split; congruence.
Qed.

(** Turn every boolean comparison among the hypotheses into its
    proposition. *)
Ltac qprops :=
  repeat match goal with
    | H : Qlt_bool _ _ = true |- _ => apply Qlt_bool_iff in H
    | H : Qlt_bool _ _ = false |- _ => apply Qlt_bool_false in H
    | H : Qgt_bool _ _ = true |- _ => unfold Qgt_bool in H
    | H : Qgt_bool _ _ = false |- _ => unfold Qgt_bool in H
    | H : Qle_bool _ _ = true |- _ => apply Qle_bool_iff in H
    | H : Qle_bool _ _ = false |- _ => apply Qle_bool_false in H
    | H : Qeq_bool _ _ = true |- _ => apply Qeq_bool_iff in H
    | H : Qeq_bool _ _ = false |- _ => apply Qeq_bool_neq in H
    end.

Lemma py_min_spec (a b : Q) :
  (b < a /\ py_min a b = b) \/ (a <= b /\ py_min a b = a).
Proof.
  unfold py_min. destruct (Qlt_bool b a) eqn:E; qprops; auto.
Qed.

Lemma py_max_spec (a b : Q) :
  (a < b /\ py_max a b = b) \/ (b <= a /\ py_max a b = a).
Proof.
  unfold py_max. destruct (Qlt_bool a b) eqn:E; qprops; auto.
Qed.

Lemma round_half_even_bounds (x : Q) (a b : Z) :
  inject_Z a <= x -> x <= inject_Z b ->
  (a <= round_half_even x <= b)%Z.
Proof.
  intros Ha Hb.
  assert (Hfa : (a <= Qfloor x)%Z).
  { rewrite <- (Qfloor_Z a). by apply Qfloor_resp_le. }
  assert (Hfx : inject_Z (Qfloor x) <= x) by apply Qfloor_le.
  assert (Hfb : (Qfloor x <= b)%Z).
  { rewrite Zle_Qle. lra. }
  unfold round_half_even.
  destruct (Qlt_bool (x - inject_Z (Qfloor x)) (1 # 2)) eqn:E1; [lia |].
  assert (Hlt : (Qfloor x < b)%Z).
  { qprops. rewrite Zlt_Qlt. lra. }
  destruct (Qlt_bool (1 # 2) (x - inject_Z (Qfloor x))); [lia |].
  destruct (Z.even (Qfloor x)); lia.
Qed.

Lemma py_round1_bounds (x : Q) (a b : Z) :
  inject_Z a <= x -> x <= inject_Z b ->
  inject_Z a <= py_round1 x /\ py_round1 x <= inject_Z b.
Proof.
  intros Ha Hb. unfold py_round1.
  destruct (round_half_even_bounds (x * 10) (a * 10) (b * 10)) as [H1 H2].
  - rewrite inject_Z_mult. change (inject_Z 10) with 10. lra.
  - rewrite inject_Z_mult. change (inject_Z 10) with 10. lra.
  - rewrite Zle_Qle in H1, H2. rewrite inject_Z_mult in H1, H2.
    change (inject_Z 10) with 10 in *.
    set (n := inject_Z (round_half_even (x * 10))) in *.
    split.
    + apply Qle_shift_div_l; lra.
    + apply Qle_shift_div_r; lra.
Qed.

Global Instance Qlt_bool_proper : Proper (Qeq ==> Qeq ==> eq) Qlt_bool.
Proof. intros a b Hab c d Hcd. unfold Qlt_bool. by rewrite Hab, Hcd. Qed.

Global Instance round_half_even_proper : Proper (Qeq ==> eq) round_half_even.
Proof.
  intros a b Hab. unfold round_half_even.
  rewrite (Qfloor_comp a b Hab).
  assert (E : a - inject_Z (Qfloor b) == b - inject_Z (Qfloor b)) by (rewrite Hab; reflexivity).
  by rewrite !E.
Qed.

Global Instance py_round1_proper : Proper (Qeq ==> Qeq) py_round1.
Proof.
  intros a b Hab. unfold py_round1.
  assert (E : a * 10 == b * 10) by (rewrite Hab; reflexivity).
  by rewrite (round_half_even_proper _ _ E).
Qed.

Lemma round_half_even_error (x : Q) :
  - (1 # 2) <= inject_Z (round_half_even x) - x
  /\ inject_Z (round_half_even x) - x <= 1 # 2.
Proof.
  pose proof (Qfloor_le x) as Hf. pose proof (Qlt_floor x) as Hc.
  rewrite inject_Z_plus in Hc. change (inject_Z 1) with 1 in Hc.
  unfold round_half_even.
  destruct (Qlt_bool (x - inject_Z (Qfloor x)) (1 # 2)) eqn:E1; qprops; [lra |].
  destruct (Qlt_bool (1 # 2) (x - inject_Z (Qfloor x))) eqn:E2; qprops.
  - rewrite inject_Z_plus. change (inject_Z 1) with 1. lra.
  - destruct (Z.even (Qfloor x)); [lra |].
    rewrite inject_Z_plus. change (inject_Z 1) with 1. lra.
Qed.

Lemma py_round1_error (x : Q) :
  - (1 # 20) <= py_round1 x - x /\ py_round1 x - x <= 1 # 20.
Proof.
  destruct (round_half_even_error (x * 10)) as [H1 H2].
  unfold py_round1. set (n := inject_Z (round_half_even (x * 10))) in *.
  assert (E : n / 10 == n * (1 # 10)) by field.
  rewrite E. lra.
Qed.

(** ** The filter wear estimator *)






(** The cap is applied above only: a fresh filter, a clean reading and a
    draw of -3 return -3.0.  ([FilterSaturationPredictor] of [ml_model.py]
    clamps on both sides, see [forest_saturation_range].) *)
Lemma predict_saturation_below_zero :
  exists s d needed c,
    MLSimple.predict_saturation
      [MLSimple.Obj (mkSensorReading 0 180 7.3 450 0.15 22)] 0 0 0 (-3)
      = FilterPrediction s d needed c
    /\ s == -3.
Proof. eexists _, _, _, _. split; reflexivity. Qed.

Lemma forest_saturation_range
  (forest : list (SensorReading Q) -> Q -> Z -> Q)
  (r : SensorReading Q) (rest : list (SensorReading Q)) (usage : Q) (days : Z) :
  exists s d needed c,
    MLModel.predict_saturation forest (r :: rest) usage days
      = FilterPrediction s d needed c
    /\ 0 <= s /\ s <= 100.
Proof.
  unfold MLModel.predict_saturation. cbv zeta.
  set (sat := py_max 0 (py_min 100 (forest (r :: rest) usage days))).
  assert (Hrange : 0 <= sat /\ sat <= 100).
  { unfold sat.
    destruct (py_min_spec 100 (forest (r :: rest) usage days)) as [[H1 ->]|[H1 ->]];
      destruct (py_max_spec 0 (forest (r :: rest) usage days)) as [[H2 E]|[H2 E]];
      destruct (py_max_spec 0 100) as [[H3 E']|[H3 E']];
      rewrite ?E, ?E'; lra. }
  pose proof (py_round1_bounds sat 0 100) as Hbnd.
  change (inject_Z 0) with 0 in Hbnd. change (inject_Z 100) with 100 in Hbnd.
  eexists _, _, _, _. split; [reflexivity | tauto].
Qed.

(** ** The validator *)



(** ** The empty reading sequence *)

(** C9: on the empty sequence the filter wear estimator and both analysis
    entry points return an error result instead of raising, and the
    detector threaded through [analyze_water_quality] of [ml_model.py]
    comes back unchanged (its baseline statistics included). *)
Theorem no_data_is_an_error_result
  (np_mean np_std np_median : list Q -> Q) (np_percentile : list Q -> Q -> Q)
  (forest : list (SensorReading Q) -> Q -> Z -> Q)
  (usage : Q) (days : Z) (now : Z) (noise : Q)
  (detector : MLModel.AnomalyDetector) :
  MLSimple.predict_saturation [] usage days now noise
    = FilterError "No data available for prediction"
  /\ MLSimple.analyze_water_quality [] usage days now noise
      = MLSimple.AnalysisError "No sensor readings provided"
  /\ MLModel.analyze_water_quality np_mean np_std np_median np_percentile forest
       [] usage days detector
      = (Ok (MLModel.AnalysisError "No sensor readings provided"), detector).
Proof. repeat split. Qed.

(** ** The alert synthesizer *)

(** [_generate_alerts] of [ml_model.py] issues the filter alert first:
    "filter_replacement"/high when a replacement is needed, otherwise
    "filter_warning"/medium above 60 percent. *)
Lemma generate_alerts_filter
  (fa : filter_analysis) (anomalies : list (string * MLModel.anomaly_message))
  (o : optimization) :
  (get_replacement_needed fa = true ->
   exists rest,
     MLModel._generate_alerts fa anomalies o
       = mkAlert "filter_replacement" "high"
           (FilterReplacementNeeded (get_saturation_percent fa)) :: rest)
  /\ (get_replacement_needed fa = false -> 60 < get_saturation_percent fa ->
      exists rest,
        MLModel._generate_alerts fa anomalies o
          = mkAlert "filter_warning" "medium"
              (FilterSaturationAt (get_saturation_percent fa)) :: rest).
Proof.
  unfold MLModel._generate_alerts. split.
  - intros ->. simpl. destruct (Qlt_bool (quality_score o) 70); eauto.
  - intros -> Hsat. apply Qlt_bool_iff in Hsat. unfold Qgt_bool.
    rewrite Hsat. simpl. destruct (Qlt_bool (quality_score o) 70); eauto.
Qed.

(** The alert types [analyze_water_quality] of [ml_model_simple.py] can
    produce: "filter_warning" is not among them. *)
Lemma simple_alert_types
  (readings : list MLSimple.any_reading) (usage : Q) (days : Z) (now : Z)
  (noise : Q) (rep : MLSimple.report) (a : alert MLSimple.anomaly_message) :
  MLSimple.analyze_water_quality readings usage days now noise = MLSimple.Analysis rep ->
  In a (MLSimple.alerts rep) ->
  alert_type a = "filter_replacement"%string
  \/ alert_type a = "sensor_anomaly"%string
  \/ alert_type a = "water_quality"%string.
Proof.
  unfold MLSimple.analyze_water_quality.
  destruct (last readings) as [latest|]; [| discriminate].
  intros [= <-]. simpl.
  destruct (Qlt_bool _ 70), (get_replacement_needed _); simpl;
    rewrite ?in_app_iff, in_map_iff; simpl; intros Ha;
    repeat match goal with
      | H : _ \/ _ |- _ => destruct H
      | H : exists _, _ |- _ => destruct H as [[? ?] [? _]]
      | H : False |- _ => destruct H
      end; subst a; auto.
Qed.

(** C4 on [ml_model_simple.py], the module [main.py] imports: forty days
    after a replacement, a reading with tds 350 and turbidity 0.6 (jitter
    0) gives saturation 73.0 without [replacement_needed], and the alert
    list is empty: no "filter_warning" is issued. *)
Theorem simple_analysis_omits_filter_warning :
  exists rep,
    MLSimple.analyze_water_quality
      [MLSimple.Obj (mkSensorReading 0 350 7 450 0.6 22)] 0 40 0 0
      = MLSimple.Analysis rep
    /\ get_replacement_needed (MLSimple.report_filter_analysis rep) = false
    /\ get_saturation_percent (MLSimple.report_filter_analysis rep) == 73
    /\ MLSimple.alerts rep = [].
Proof. eexists. split; [reflexivity |]. repeat split. Qed.

(** ** The anomaly detector *)

Lemma param_name_inj (p q : MLModel.param) :
  MLModel.param_name p = MLModel.param_name q -> p = q.
Proof. destruct p, q; simpl; congruence. Qed.

(** A turn of the loop leaves the entries of the other parameters alone. *)
Lemma detect_param_get_other (self : MLModel.AnomalyDetector)
  (r : SensorReading Q) (acc : MLModel.detection) (p q : MLModel.param) :
  p <> q ->
  odict_get (MLModel.param_name p) (MLModel.anomalies (MLModel.detect_param self r acc q))
  = odict_get (MLModel.param_name p) (MLModel.anomalies acc).
Proof.
  intros Hne.
  assert (Hk : MLModel.param_name p <> MLModel.param_name q)
    by (intros E; by apply param_name_inj in E).
  unfold MLModel.detect_param. cbv zeta.
  destruct (_ || _); cbn [MLModel.anomalies]; [by apply odict_get_set_ne |].
  destruct (MLModel.baseline_stats self !! MLModel.param_name q) as [stats|]; [| done].
  destruct (Qgt_bool (Qabs (MLModel.getattr r q - MLModel.mean stats))
              (3 * MLModel.std stats)),
    (Qgt_bool (Qabs (MLModel.getattr r q - MLModel.median stats))
       (2 * (MLModel.q75 stats - MLModel.q25 stats)));
    cbn [MLModel.anomalies MLModel.np_warnings];
    by rewrite ?odict_get_set_ne.
Qed.

(** The turn of a parameter writes its verdict, if there is one. *)
Lemma detect_param_get_self (self : MLModel.AnomalyDetector)
  (r : SensorReading Q) (acc : MLModel.detection) (p : MLModel.param) :
  odict_get (MLModel.param_name p) (MLModel.anomalies (MLModel.detect_param self r acc p))
  = match param_verdict self r p with
    | Some m => Some m
    | None => odict_get (MLModel.param_name p) (MLModel.anomalies acc)
    end.
Proof.
  unfold MLModel.detect_param, param_verdict, absolute_check, sigma_outlier,
    iqr_deviation. cbv zeta.
  destruct (_ || _); cbn [MLModel.anomalies]; [by apply odict_get_set_eq |].
  destruct (MLModel.baseline_stats self !! MLModel.param_name p) as [stats|]; [| done].
  destruct (Qgt_bool (Qabs (MLModel.getattr r p - MLModel.mean stats))
              (3 * MLModel.std stats)),
    (Qgt_bool (Qabs (MLModel.getattr r p - MLModel.median stats))
       (2 * (MLModel.q75 stats - MLModel.q25 stats)));
    cbn [MLModel.anomalies MLModel.np_warnings];
    by rewrite ?odict_get_set_eq.
Qed.

Lemma detect_param_warnings (self : MLModel.AnomalyDetector)
  (r : SensorReading Q) (acc : MLModel.detection) (p : MLModel.param) :
  MLModel.np_warnings (MLModel.detect_param self r acc p)
  = MLModel.np_warnings acc ++ param_warnings self r p.
Proof.
  unfold MLModel.detect_param, param_warnings, absolute_check, sigma_outlier.
  cbv zeta.
  destruct (_ || _); cbn [MLModel.np_warnings]; [by rewrite app_nil_r |].
  destruct (MLModel.baseline_stats self !! MLModel.param_name p) as [stats|];
    [| by rewrite app_nil_r].
  destruct (Qgt_bool (Qabs (MLModel.getattr r p - MLModel.mean stats))
              (3 * MLModel.std stats)),
    (Qgt_bool (Qabs (MLModel.getattr r p - MLModel.median stats))
       (2 * (MLModel.q75 stats - MLModel.q25 stats)));
    cbn [MLModel.anomalies MLModel.np_warnings];
    by rewrite ?app_nil_r.
Qed.

(** The dictionary built by the loop holds, for each parameter, exactly
    its verdict. *)
Lemma detect_anomalies_lookup (self : MLModel.AnomalyDetector)
  (r : SensorReading Q) (p : MLModel.param) :
  odict_get (MLModel.param_name p) (MLModel.detect_anomalies self r)
  = param_verdict self r p.
Proof.
  unfold MLModel.detect_anomalies, MLModel.detect_run. simpl foldl.
  destruct p;
    rewrite ?detect_param_get_other by discriminate;
    rewrite detect_param_get_self;
    destruct (param_verdict self r _); try reflexivity;
    by rewrite ?detect_param_get_other by discriminate.
Qed.

Lemma detect_run_warnings (self : MLModel.AnomalyDetector) (r : SensorReading Q) :
  MLModel.np_warnings (MLModel.detect_run self r)
  = concat (map (param_warnings self r) MLModel.all_params).
Proof.
  unfold MLModel.detect_run. simpl foldl.
  rewrite !detect_param_warnings. simpl. by rewrite app_nil_r, <- !app_assoc.
Qed.



(** The detector on an empty baseline: absolute thresholds only. *)
Lemma no_baseline_absolute_only (self : MLModel.AnomalyDetector)
  (r : SensorReading Q) (p : MLModel.param) :
  MLModel.baseline_stats self !! MLModel.param_name p = None ->
  param_verdict self r p = absolute_check r p /\ param_warnings self r p = [].
Proof.
  intros Hnone. unfold param_verdict, param_warnings. rewrite Hnone.
  by destruct (absolute_check r p).
Qed.

(** C6: with fewer than ten readings [update_baseline] returns the
    detector it was given; on a detector that had no baseline this leaves
    every parameter unset, and [detect_anomalies] then reports for each
    parameter the verdict of the absolute check alone and performs no
    statistical computation. *)
Theorem short_history_keeps_absolute_checks
  (np_mean np_std np_median : list Q -> Q) (np_percentile : list Q -> Q -> Q)
  (readings : list (SensorReading Q)) :
  (length readings < 10)%nat ->
  (forall self,
      MLModel.update_baseline np_mean np_std np_median np_percentile readings self
      = self)
  /\ (forall p,
        MLModel.baseline_stats
          (MLModel.update_baseline np_mean np_std np_median np_percentile readings
             MLModel.new_detector) !! MLModel.param_name p = None)
  /\ (forall r p,
        odict_get (MLModel.param_name p)
          (MLModel.detect_anomalies
             (MLModel.update_baseline np_mean np_std np_median np_percentile
                readings MLModel.new_detector) r)
        = absolute_check r p)
  /\ (forall r,
        MLModel.np_warnings
          (MLModel.detect_run
             (MLModel.update_baseline np_mean np_std np_median np_percentile
                readings MLModel.new_detector) r) = []).
Proof.
  intros Hlen.
  assert (Hnoop : forall self,
             MLModel.update_baseline np_mean np_std np_median np_percentile
               readings self = self).
  { intros self. unfold MLModel.update_baseline.
    apply Nat.ltb_lt in Hlen. by rewrite Hlen. }
  split; [exact Hnoop |]. rewrite Hnoop.
  split; [intros p; apply lookup_empty |].
  split.
  - intros r p. rewrite detect_anomalies_lookup.
    apply no_baseline_absolute_only. apply lookup_empty.
  - intros r. rewrite detect_run_warnings.
    unfold MLModel.all_params. simpl.
    rewrite !(proj2 (no_baseline_absolute_only MLModel.new_detector r _
                       (lookup_empty _))).
    reflexivity.
Qed.

Lemma short_history_keeps_absolute_checks_witness :
  MLModel.update_baseline (fun _ => 0) (fun _ => 0) (fun _ => 0) (fun _ _ => 0)
    [mkSensorReading 0 200 7.2 400 0.3 22] MLModel.new_detector
  = MLModel.new_detector
  /\ odict_get "tds"
       (MLModel.detect_anomalies
          (MLModel.update_baseline (fun _ => 0) (fun _ => 0) (fun _ => 0)
             (fun _ _ => 0) [mkSensorReading 0 200 7.2 400 0.3 22]
             MLModel.new_detector)
          (mkSensorReading 1 900 7.2 400 0.3 22))
     = absolute_check (mkSensorReading 1 900 7.2 400 0.3 22) MLModel.TDS.
Proof.
  pose (history := [mkSensorReading 0 200 7.2 400 0.3 22]).
  assert (Hlen : (length history < 10)%nat) by (simpl; lia).
  destruct (short_history_keeps_absolute_checks
              (fun _ => 0) (fun _ => 0) (fun _ => 0) (fun _ _ => 0)
              [mkSensorReading 0 200 7.2 400 0.3 22] Hlen) as (H1 & _ & H3 & _).
  split; [apply H1 | apply (H3 _ MLModel.TDS)].
Defined.

(** With a zero standard deviation the 3-sigma test itself is the test
    [value != mean]: it needs no division and does not always fire. *)
Lemma zero_std_sigma_test (value : Q) (stats : MLModel.BaselineStats) :
  MLModel.std stats == 0 ->
  sigma_outlier value stats = negb (Qeq_bool value (MLModel.mean stats)).
Proof.
  intros Hstd. unfold sigma_outlier, Qgt_bool.
  destruct (Qeq_bool value (MLModel.mean stats)) eqn:E; qprops; cbn [negb].
  - apply Qlt_bool_false. apply Qabs_case; intros H; lra.
  - apply Qlt_bool_iff.
    destruct (Qeq_dec value (MLModel.mean stats)) as [Heq|Hneq]; [done |].
    apply Qabs_case; intros H; lra.
Qed.

(** A value that differs from the mean of a zero-spread baseline is
    flagged, and the message of the 3-sigma branch is computed by dividing
    the deviation by zero. *)
Lemma zero_std_deviation (self : MLModel.AnomalyDetector) (r : SensorReading Q)
  (p : MLModel.param) (stats : MLModel.BaselineStats) :
  absolute_check r p = None ->
  MLModel.baseline_stats self !! MLModel.param_name p = Some stats ->
  MLModel.std stats == 0 ->
  ~ MLModel.getattr r p == MLModel.mean stats ->
  is_Some (odict_get (MLModel.param_name p) (MLModel.detect_anomalies self r))
  /\ param_warnings self r p = [MLModel.DivideByZero].
Proof.
  intros Habs Hstats Hstd Hne.
  assert (Hsigma : sigma_outlier (MLModel.getattr r p) stats = true).
  { rewrite zero_std_sigma_test by done. apply negb_true_iff.
    destruct (Qeq_bool _ _) eqn:E; [| done]. by qprops. }
  split.
  - rewrite detect_anomalies_lookup. unfold param_verdict.
    rewrite Habs, Hstats. cbv zeta. rewrite Hsigma.
    destruct (iqr_deviation _ _); eauto.
  - unfold param_warnings. rewrite Habs, Hstats. cbv zeta. rewrite Hsigma.
    unfold MLModel.np_divide.
    assert (Hzero : Qeq_bool (MLModel.std stats) 0 = true) by (by apply Qeq_bool_iff).
    rewrite Hzero. clear Hzero.
    assert (Hpos : 0 < Qabs (MLModel.getattr r p - MLModel.mean stats)).
    { apply Qabs_case; intros H;
        destruct (Qeq_dec (MLModel.getattr r p) (MLModel.mean stats)); lra. }
    destruct (Qeq_bool (Qabs (MLModel.getattr r p - MLModel.mean stats)) 0) eqn:E;
      qprops; [lra |].
    apply Qlt_bool_iff in Hpos. by rewrite Hpos.
Qed.

(** A value equal to the mean of a zero-spread baseline passes the 3-sigma
    test and causes no division. *)
Lemma zero_std_mean (self : MLModel.AnomalyDetector) (r : SensorReading Q)
  (p : MLModel.param) (stats : MLModel.BaselineStats) :
  MLModel.baseline_stats self !! MLModel.param_name p = Some stats ->
  MLModel.std stats == 0 ->
  MLModel.getattr r p == MLModel.mean stats ->
  sigma_outlier (MLModel.getattr r p) stats = false
  /\ param_warnings self r p = [].
Proof.
  intros Hstats Hstd Heq.
  assert (Hsigma : sigma_outlier (MLModel.getattr r p) stats = false).
  { rewrite zero_std_sigma_test by done. apply negb_false_iff.
    by apply Qeq_bool_iff. }
  split; [done |].
  unfold param_warnings. rewrite Hstats. cbv zeta. rewrite Hsigma.
  by destruct (absolute_check r p).
Qed.

(** The baseline of the statement below is the one [update_baseline]
    computes from ten identical readings, for statistics that are exact on
    a constant sample. *)
Lemma constant_history_baseline
  (np_mean np_std np_median : list Q -> Q) (np_percentile : list Q -> Q -> Q)
  (r : SensorReading Q) :
  np_mean (replicate 10 (tds r)) = tds r ->
  np_std (replicate 10 (tds r)) = 0 ->
  np_median (replicate 10 (tds r)) = tds r ->
  (forall q, np_percentile (replicate 10 (tds r)) q = tds r) ->
  MLModel.baseline_stats
    (MLModel.update_baseline np_mean np_std np_median np_percentile
       (replicate 10 r) MLModel.new_detector) !! "tds"%string
  = Some (MLModel.mkStats (tds r) 0 (tds r) (tds r) (tds r)).
Proof.
  intros Hmean Hstd Hmedian Hperc.
  unfold MLModel.update_baseline. simpl in *.
  rewrite !lookup_insert_ne by discriminate.
  rewrite lookup_insert_eq. by rewrite Hmean, Hstd, Hmedian, !Hperc.
Qed.

(** C7 on the code: after a baseline of identical tds values (mean 200,
    std 0, quartiles 200) a reading with tds 210 is flagged, but on the way
    the detector evaluates |210 - 200| / 0 for the message of the 3-sigma
    branch: numpy returns [inf] and emits "divide by zero encountered".
    The robust test then overwrites that message; were the quartiles 190
    and 210, the message with the quotient [inf] would be the one
    returned. *)
Theorem zero_std_divides_by_zero :
  MLModel.detect_run
    {| MLModel.baseline_stats :=
         {[ "tds"%string := (MLModel.mkStats 200 0 200 200 200)%Q ]} |}
    (mkSensorReading 0 210 7.2 400 0.3 22)
  = {| MLModel.anomalies := [("tds"%string, MLModel.DifferentFromTypical 210)];
       MLModel.np_warnings := [MLModel.DivideByZero] |}
  /\ (MLModel.detect_param
        {| MLModel.baseline_stats :=
             {[ "tds"%string := (MLModel.mkStats 200 0 200 190 210)%Q ]} |}
        (mkSensorReading 0 210 7.2 400 0.3 22)
        {| MLModel.anomalies := []; MLModel.np_warnings := [] |} MLModel.TDS
      = {| MLModel.anomalies := [("tds"%string, MLModel.StdDevFromNormal 210 PosInf)];
           MLModel.np_warnings := [MLModel.DivideByZero] |}).
Proof. split; vm_compute; reflexivity. Qed.

(** ** The quality scorer *)

(** Inside its band a parameter scores between 80 and 100 with
    [WaterQualityOptimizer] of [ml_model.py], and 100 exactly at the
    optimal value. *)
Lemma param_score_in_band (r : SensorReading Q) (p : MLModel.param)
  (target : MLModel.target_range) :
  MLModel.target_ranges p = Ok target ->
  MLModel.range_min target <= MLModel.getattr r p ->
  MLModel.getattr r p <= MLModel.range_max target ->
  exists s, MLModel.param_score r p = Ok s /\ 80 <= s /\ s <= 100
            /\ (MLModel.getattr r p == MLModel.optimal target -> s = 100).
Proof.
  intros Ht Hlo Hhi. unfold MLModel.param_score. rewrite Ht. cbv zeta.
  cbn [py_bind].
  destruct (Qeq_bool (MLModel.getattr r p) (MLModel.optimal target)) eqn:E.
  { exists 100. repeat split; try lra. }
  apply Qle_bool_iff in Hlo as Hlo'. apply Qle_bool_iff in Hhi as Hhi'.
  rewrite Hlo', Hhi'. cbn [andb]. qprops.
  set (v := MLModel.getattr r p) in *.
  destruct p; simpl in Ht; try discriminate; injection Ht as <-;
    cbn [MLModel.range_min MLModel.range_max MLModel.optimal] in *;
    unfold py_div;
    match goal with
    | |- context [Qlt_bool v ?o] => destruct (Qlt_bool v o) eqn:Ev
    end; qprops;
    match goal with
    | |- context [Qeq_bool ?d 0] =>
        replace (Qeq_bool d 0) with false by reflexivity
    end; cbn [py_bind];
    eexists; (split; [reflexivity |]); repeat split; try (intros; lra);
    try (apply Qle_shift_div_l; lra);
    try (match goal with
         | |- 80 + ?a / ?d <= 100 =>
             assert (a / d <= 20) by (apply Qle_shift_div_r; lra); lra
         | |- 80 <= 80 + ?a / ?d =>
             assert (0 <= a / d) by (apply Qle_shift_div_l; lra); lra
         end).
Qed.

(** C8 as stated does not hold for [WaterQualityOptimizer] of
    [ml_model.py]: with tds 200, inside [150,300], the tds sub-score is
    93.33 and the composite 98.3. *)
Lemma graded_score_inside_band :
  exists s q,
    MLModel.param_score (mkSensorReading 0 200 7.2 450 0.2 22) MLModel.TDS = Ok s
    /\ s == 280 # 3 /\ ~ s == 100
    /\ MLModel._calculate_quality_score (mkSensorReading 0 200 7.2 450 0.2 22) = Ok q
    /\ q == 98.3 /\ ~ q == 100.
Proof.
  eexists _, _. split; [reflexivity |]. split; [reflexivity |].
  split; [vm_compute; congruence |]. split; [reflexivity |].
  split; [reflexivity | vm_compute; congruence].
Qed.

(** Inside the band the score of [WaterQualityOptimizer] is the linear
    grading. *)
Lemma param_score_graded (r : SensorReading Q) (p : MLModel.param)
  (target : MLModel.target_range) :
  MLModel.target_ranges p = Ok target ->
  MLModel.range_min target <= MLModel.getattr r p ->
  MLModel.getattr r p <= MLModel.range_max target ->
  exists s, MLModel.param_score r p = Ok s
            /\ s == graded_score target (MLModel.getattr r p).
Proof.
  intros Ht Hlo Hhi. unfold MLModel.param_score, graded_score. rewrite Ht.
  cbv zeta. cbn [py_bind].
  set (v := MLModel.getattr r p) in *.
  destruct (Qeq_bool v (MLModel.optimal target)) eqn:E.
  { exists 100. split; [reflexivity |]. apply Qeq_bool_iff in E.
    assert (Hge : Qlt_bool v (MLModel.optimal target) = false)
      by (apply Qlt_bool_false; lra).
    rewrite Hge.
    destruct p; simpl in Ht; try discriminate; injection Ht as <-;
      cbn [MLModel.range_min MLModel.range_max MLModel.optimal] in *;
      rewrite E; reflexivity. }
  apply Qle_bool_iff in Hlo as Hlo'. apply Qle_bool_iff in Hhi as Hhi'.
  rewrite Hlo', Hhi'. cbn [andb].
  destruct p; simpl in Ht; try discriminate; injection Ht as <-;
    cbn [MLModel.range_min MLModel.range_max MLModel.optimal] in *;
    unfold py_div;
    match goal with
    | |- context [Qlt_bool v ?o] => destruct (Qlt_bool v o) eqn:Ev
    end;
    match goal with
    | |- context [Qeq_bool ?d 0] =>
        replace (Qeq_bool d 0) with false by reflexivity
    end; cbn [py_bind];
    eexists; (split; [reflexivity |]); reflexivity.
Qed.

(** C8, as the code has it.  With [SimpleWaterQualityOptimizer] every
    reading inside the four bands has all sub-scores 100, composite 100.0
    and status "excellent".  With [WaterQualityOptimizer] a sub-score inside
    its band is 100 at the optimal value and graded elsewhere: it follows
    the line from 80 at the edge of the band to 100 at the optimum (to
    within [rounding_slack], the code computing it in binary64), and so
    lies between 80 and 100; at the reading tds 225, ph 7.2, orp 450,
    turbidity 0.2 both scorers return 100.0 and "excellent". *)
Theorem in_band_scores (tds ph orp turbidity : Q) :
  150 <= tds -> tds <= 300 ->
  6.5 <= ph -> ph <= 8.5 ->
  300 <= orp -> orp <= 600 ->
  turbidity <= 1 ->
  MLSimple.sub_scores tds ph orp turbidity = [100; 100; 100; 100]
  /\ MLSimple._calculate_quality_score tds ph orp turbidity == 100
  /\ MLSimple._get_overall_status
       (MLSimple._calculate_quality_score tds ph orp turbidity) = "excellent"%string
  /\ (0 <= turbidity ->
      forall ts temp p target,
        MLModel.target_ranges p = Ok target ->
        exists s,
          MLModel.param_score (mkSensorReading ts tds ph orp turbidity temp) p = Ok s
          /\ 80 <= s /\ s <= 100
          /\ (MLModel.getattr (mkSensorReading ts tds ph orp turbidity temp) p
              == MLModel.optimal target -> s = 100)
          /\ - rounding_slack
             <= s - graded_score target
                      (MLModel.getattr (mkSensorReading ts tds ph orp turbidity temp) p)
          /\ s - graded_score target
                   (MLModel.getattr (mkSensorReading ts tds ph orp turbidity temp) p)
             <= rounding_slack)
  /\ (forall ts temp,
        exists q,
          MLModel._calculate_quality_score (mkSensorReading ts 225 7.2 450 0.2 temp)
            = Ok q
          /\ q == 100
          /\ MLModel._get_overall_status (mkSensorReading ts 225 7.2 450 0.2 temp)
             = Ok "excellent"%string).
Proof.
  intros Ht1 Ht2 Hp1 Hp2 Ho1 Ho2 Hu.
  assert (Hs : MLSimple.sub_scores tds ph orp turbidity = [100; 100; 100; 100]).
  { unfold MLSimple.sub_scores.
    apply Qle_bool_iff in Ht1, Ht2, Hp1, Hp2, Ho1, Ho2, Hu.
    by rewrite Ht1, Ht2, Hp1, Hp2, Ho1, Ho2, Hu. }
  split; [exact Hs |].
  unfold MLSimple._calculate_quality_score. rewrite Hs.
  split; [reflexivity |]. split; [reflexivity |].
  split.
  - intros Hu0 ts temp p target Htarget.
    set (r := mkSensorReading ts tds ph orp turbidity temp).
    assert (Hband : MLModel.range_min target <= MLModel.getattr r p
                    /\ MLModel.getattr r p <= MLModel.range_max target).
    { destruct p; simpl in Htarget; try discriminate; injection Htarget as <-;
        simpl; lra. }
    destruct Hband as [Hmin Hmax].
    destruct (param_score_in_band r p target Htarget Hmin Hmax)
      as (s & Hscore & Hlo & Hhi & Hopt).
    destruct (param_score_graded r p target Htarget Hmin Hmax)
      as (s' & Hscore' & Hgraded).
    assert (s' = s) by congruence. subst s'.
    assert (Hslack : 0 <= rounding_slack) by (unfold rounding_slack; lra).
    exists s. split; [exact Hscore |]. split; [exact Hlo |]. split; [exact Hhi |].
    split; [exact Hopt |]. rewrite Hgraded. split; lra.
  - intros ts temp. eexists. split; [reflexivity |]. split; reflexivity.
Qed.

Lemma in_band_scores_witness :
  MLSimple.sub_scores 225 7.2 450 0.2 = [100; 100; 100; 100]
  /\ MLSimple._calculate_quality_score 225 7.2 450 0.2 == 100
  /\ MLSimple._get_overall_status
       (MLSimple._calculate_quality_score 225 7.2 450 0.2) = "excellent"%string
  /\ exists s,
       MLModel.param_score (mkSensorReading 0 200 7.2 450 0.2 22) MLModel.TDS = Ok s
       /\ s - graded_score (MLModel.mkTarget 150 300 225) 200 <= rounding_slack.
Proof.
  destruct (in_band_scores 225 7.2 450 0.2) as (H1 & H2 & H3 & _);
    [vm_compute; discriminate .. |].
  destruct (in_band_scores 200 7.2 450 0.2) as (_ & _ & _ & Hgraded & _);
    [vm_compute; discriminate .. |].
  destruct (Hgraded ltac:(vm_compute; discriminate) 0%Z 22 MLModel.TDS
              (MLModel.mkTarget 150 300 225) eq_refl)
    as (s & Hscore & _ & _ & _ & _ & Hnear).
  split; [exact H1 |]. split; [exact H2 |]. split; [exact H3 |].
  exists s. split; [exact Hscore | exact Hnear].
Defined.

(** ** The serial response parser *)

Section ParserProperties.
Variable py_float : string -> py pyfloat.
Variable py_strip : string -> string.
Variable py_lower : string -> string.

(** A key that no pair carries is still absent from [data] after the
    loop. *)
Lemma parse_pairs_absent (pairs : list string) (data0 data : gmap string pyfloat)
  (k : string) :
  Sensors.parse_pairs py_float py_strip py_lower data0 pairs = Ok data ->
  data0 !! k = None ->
  ~ In k (flat_map (Sensors.pair_keys py_strip py_lower) pairs) ->
  data !! k = None.
Proof.
  revert data0. induction pairs as [|p pairs IH]; intros data0 Hparse H0 Hk.
  - simpl in Hparse. by injection Hparse as <-.
  - simpl in Hparse, Hk. rewrite in_app_iff in Hk.
    unfold Sensors.parse_pair, Sensors.pair_keys in *.
    destruct (split ":" p) as [|key [|value [|? ?]]]; try discriminate.
    destruct (py_float (py_strip value)) as [v|e]; [| discriminate].
    simpl in Hparse. apply (IH _ Hparse); [| tauto].
    rewrite lookup_insert_ne; [done |].
    intros <-. apply Hk. left. by left.
Qed.

(** C10: the parser never raises; a response whose pairs all parse
    gives a reading in which every field whose key is absent has its
    fixed default (tds 0.0, ph 7.0, orp 0.0, turbidity 0.0, temperature
    20.0) and every field whose key is present has the parsed value; any
    other response gives [None]. *)
Theorem parser_defaults_or_none (now : Z) (response : string) :
  (forall data,
      Sensors.parse_pairs py_float py_strip py_lower ∅ (split "," response)
        = Ok data ->
      exists reading,
        Sensors._parse_sensor_response py_float py_strip py_lower now response
          = Some reading
        /\ timestamp reading = now
        /\ tds reading = default (Fin 0) (data !! "tds")
        /\ ph reading = default (Fin 7) (data !! "ph")
        /\ orp reading = default (Fin 0) (data !! "orp")
        /\ turbidity reading = default (Fin 0) (data !! "turb")
        /\ temperature reading = default (Fin 20) (data !! "temp")
        /\ (~ In "tds"%string (Sensors.response_keys py_strip py_lower response) ->
            tds reading = Fin 0)
        /\ (~ In "ph"%string (Sensors.response_keys py_strip py_lower response) ->
            ph reading = Fin 7)
        /\ (~ In "orp"%string (Sensors.response_keys py_strip py_lower response) ->
            orp reading = Fin 0)
        /\ (~ In "turb"%string (Sensors.response_keys py_strip py_lower response) ->
            turbidity reading = Fin 0)
        /\ (~ In "temp"%string (Sensors.response_keys py_strip py_lower response) ->
            temperature reading = Fin 20))
  /\ (forall e,
        Sensors.parse_pairs py_float py_strip py_lower ∅ (split "," response)
          = Raise e ->
        Sensors._parse_sensor_response py_float py_strip py_lower now response
          = None).
Proof.
  split.
  - intros data Hdata.
    unfold Sensors._parse_sensor_response, Sensors.parse_body.
    rewrite Hdata. cbn [py_bind]. eexists. split; [reflexivity |].
    cbn [timestamp tds ph orp turbidity temperature].
    unfold Sensors.get_default.
    repeat split;
      intros Hk;
      by rewrite (parse_pairs_absent _ _ _ _ Hdata (lookup_empty _) Hk).
  - intros e Hraise.
    unfold Sensors._parse_sensor_response, Sensors.parse_body.
    by rewrite Hraise.
Qed.
End ParserProperties.

Lemma parser_defaults_or_none_witness :
  (exists reading,
      Sensors.parse_ascii 0 "TDS:250.5, pH :7.2" = Some reading
      /\ orp reading = Fin 0 /\ turbidity reading = Fin 0
      /\ temperature reading = Fin 20)
  /\ Sensors.parse_ascii 0 "TDS=250.5" = None.
Proof.
  split.
  - destruct (parser_defaults_or_none Sensors.decimal_float Sensors.ascii_strip
                Sensors.ascii_lower 0 "TDS:250.5, pH :7.2") as [Hok _].
    destruct (Hok _ eq_refl)
      as (reading & Hr & _ & _ & _ & _ & _ & _ & _ & _ & Horp & Hturb & Htemp).
    exists reading. split; [exact Hr |].
    split; [apply Horp | split; [apply Hturb | apply Htemp]];
      vm_compute; intuition discriminate.
  - destruct (parser_defaults_or_none Sensors.decimal_float Sensors.ascii_strip
                Sensors.ascii_lower 0 "TDS=250.5") as [_ Hnone].
    apply (Hnone ValueError). reflexivity.
Defined.

(** ** The monitoring loops *)

Lemma process_reading_shape (t : Main.tick) (r : SensorReading pyfloat)
  (st : Main.state) :
  exists entries,
    Main.monitoring_active (Main.process_reading t r st).1 = Main.monitoring_active st
    /\ Main.slept (Main.process_reading t r st).1 = Main.slept st
    /\ Main.log (Main.process_reading t r st).1 = entries ++ Main.log st
    /\ outer_errors entries = 0%nat
    /\ (Main.process_reading t r st).2
        = (Main.process_reading t r (Main.mkState true [] [])).2.
Proof.
  unfold Main.process_reading.
  destruct (Main.save_result t); [| by exists []].
  destruct (Main.publish_result t); [| by exists []].
  destruct (Sensors.validate_reading r); [| by exists []].
  destruct (Main.broadcast_result t); [| by exists []].
  destruct (Main.recent_count t mod 10 =? 0)%nat; [| by exists []].
  destruct (Main.analysis_result t); [by exists [] |].
  by exists [(ERROR, "ML analysis error in background task"%string)].
Qed.

(** One guarded turn: the flag is untouched, exactly one sleep completes
    (60 s after an exception, 30 s otherwise) and an exception leaves one
    "Background monitoring error" entry. *)
Lemma guarded_iteration_effect (t : Main.tick) (st : Main.state) :
  Main.monitoring_active (Main.guarded_iteration t st) = Main.monitoring_active st
  /\ Main.slept (Main.guarded_iteration t st) = pause_after t :: Main.slept st
  /\ outer_errors (Main.log (Main.guarded_iteration t st))
      = ((if tick_raises t then 1 else 0) + outer_errors (Main.log st))%nat.
Proof.
  unfold Main.guarded_iteration, pause_after, tick_raises, Main.iteration.
  destruct (Main.read_result t) as [[r|]|e].
  - destruct (process_reading_shape t r st) as (entries & Ha & Hs & Hl & He & Ho).
    destruct (Main.process_reading t r (Main.mkState true [] [])) as [st0 o0].
    destruct (Main.process_reading t r st) as [st1 o1].
    cbn [fst snd] in *. subst o1.
    unfold outer_errors in *.
    destruct o0 as [[]|e]; [destruct (Main.sleep_result t) |];
      cbn [fst snd Main.monitoring_active Main.slept Main.log Main.add_sleep
             Main.add_log];
      rewrite Ha, Hs, Hl; cbn [List.filter snd String.eqb Ascii.eqb Bool.eqb];
      rewrite ?List.filter_app; repeat split; try done;
      cbn [length]; rewrite ?length_app, ?He; lia.
  - destruct (Main.sleep_result t); done.
  - done.
Qed.

Lemma run_ticks_effect (ticks : list Main.tick) (st : Main.state) :
  Main.monitoring_active (run_ticks ticks st) = Main.monitoring_active st
  /\ Main.slept (run_ticks ticks st) = rev (map pause_after ticks) ++ Main.slept st
  /\ outer_errors (Main.log (run_ticks ticks st))
      = (length (List.filter tick_raises ticks) + outer_errors (Main.log st))%nat.
Proof.
  revert st. induction ticks as [|t ticks IH]; intros st; [done |].
  unfold run_ticks in *. simpl.
  destruct (IH (Main.guarded_iteration t st)) as (Ha & Hs & He).
  destruct (guarded_iteration_effect t st) as (Ha' & Hs' & He').
  rewrite Ha, Hs, He, Ha', Hs', He'. repeat split.
  - by rewrite <- app_assoc.
  - destruct (tick_raises t); simpl; lia.
Qed.

Lemma monitoring_loop_no_stop (ticks : list Main.tick) (st : Main.state) :
  Forall (fun t => Main.stop_requested t = false) ticks ->
  Main.monitoring_active st = true ->
  Main.monitoring_loop ticks st = (Running, run_ticks ticks st).
Proof.
  intros Hstop. revert st. induction Hstop as [|t ticks Ht _ IH]; intros st Hact.
  - simpl. by rewrite Hact.
  - simpl. rewrite Hact, Ht. apply IH.
    by rewrite (proj1 (guarded_iteration_effect t st)).
Qed.

Lemma monitoring_loop_stop (before after : list Main.tick) (t : Main.tick)
  (st : Main.state) :
  Forall (fun t => Main.stop_requested t = false) before ->
  Main.stop_requested t = true ->
  Main.monitoring_active st = true ->
  Main.monitoring_loop (before ++ t :: after) st
  = (Returned, Main.shutdown (run_ticks (before ++ [t]) st)).
Proof.
  intros Hstop Ht. revert st. induction Hstop as [|t0 before Ht0 _ IH]; intros st Hact.
  - simpl. rewrite Hact, Ht. by destruct after.
  - simpl. rewrite Hact, Ht0. apply IH.
    by rewrite (proj1 (guarded_iteration_effect t0 st)).
Qed.

(** C2 as stated does not hold for every exception raised inside a turn:
    one raised under the inner [try] of the analysis block is logged by the
    inner handler and followed by the ordinary 30 s sleep, not by the 60 s
    backoff. *)
Lemma analysis_error_keeps_interval :
  Main.analysis_result
    (Main.mkTick (Ok (Some (mkSensorReading 0 (Fin 200) (Fin 7) (Fin 400) (Fin 0.3) (Fin 22))))
       (Ok true) (Ok tt) (Ok tt) 10 (Raise ValueError) (Ok tt) false)
  = Raise ValueError
  /\ Main.background_monitoring
       [Main.mkTick (Ok (Some (mkSensorReading 0 (Fin 200) (Fin 7) (Fin 400) (Fin 0.3) (Fin 22))))
          (Ok true) (Ok tt) (Ok tt) 10 (Raise ValueError) (Ok tt) false]
       (Main.mkState false [] [])
     = (Running,
        Main.mkState true
          [(ERROR, "ML analysis error in background task"%string);
           (INFO, "Starting background monitoring task"%string)]
          [30%Z]).
Proof. split; reflexivity. Qed.

Lemma validate_reading_returns (r : SensorReading pyfloat) :
  exists warnings, Sensors.validate_reading r = Ok warnings.
Proof. unfold Sensors.validate_reading. by eexists. Qed.

(** One guarded turn against the words of the specification: the flag is
    untouched, one sleep completes, of 60 s exactly when a call outside the
    analysis block raised, and the log grows by the entry of the outer
    handler in that case and by the entry of the inner handler when the
    analysis block raised. *)
Lemma guarded_iteration_spec (t : Main.tick) (st : Main.state) :
  Main.monitoring_active (Main.guarded_iteration t st) = Main.monitoring_active st
  /\ Main.slept (Main.guarded_iteration t st) = spec_pause t :: Main.slept st
  /\ Main.log (Main.guarded_iteration t st) = spec_log t ++ Main.log st.
Proof.
  unfold Main.guarded_iteration, Main.iteration, Main.process_reading, spec_pause,
    spec_log, outer_exception, analysis_exception, raises.
  destruct (Main.read_result t) as [[r|]|e].
  - destruct (validate_reading_returns r) as [warnings ->].
    destruct (Main.save_result t), (Main.publish_result t),
      (Main.broadcast_result t), (Main.recent_count t mod 10 =? 0)%nat,
      (Main.analysis_result t), (Main.sleep_result t); by cbn.
  - destruct (Main.sleep_result t); by cbn.
  - by cbn.
Qed.

Lemma run_ticks_spec (ticks : list Main.tick) (st : Main.state) :
  Main.monitoring_active (run_ticks ticks st) = Main.monitoring_active st
  /\ Main.slept (run_ticks ticks st) = rev (map spec_pause ticks) ++ Main.slept st
  /\ Main.log (run_ticks ticks st)
     = concat (rev (map spec_log ticks)) ++ Main.log st.
Proof.
  revert st. induction ticks as [|t ticks IH]; intros st; [done |].
  unfold run_ticks in *. cbn [foldl map rev].
  destruct (IH (Main.guarded_iteration t st)) as (Ha & Hs & Hl).
  destruct (guarded_iteration_spec t st) as (Ha' & Hs' & Hl').
  rewrite Ha, Hs, Hl, Ha', Hs', Hl'. repeat split.
  - by rewrite <- app_assoc.
  - rewrite concat_app. cbn [concat]. by rewrite app_nil_r, <- app_assoc.
Qed.

(** C2, as the code has it, for [background_monitoring].  As long as no
    turn has the flag cleared, the task is still in its loop after any
    number of turns, whatever was raised in them.  Every turn ends with
    exactly one completed sleep: of 60 s when a call outside the analysis
    block raised, after the entry "Background monitoring error" of the
    outer handler; of 30 s otherwise, also when the analysis block raised,
    which leaves the entry "ML analysis error in background task" of the
    inner handler.  When the flag is cleared during a turn, that turn
    completes and the task returns at the next test of the flag, without
    running a further turn. *)
Theorem background_monitoring_survives (ticks : list Main.tick) (st : Main.state) :
  (Forall (fun t => Main.stop_requested t = false) ticks ->
   exists st',
     Main.background_monitoring ticks st = (Running, st')
     /\ Main.monitoring_active st' = true
     /\ Main.slept st' = rev (map spec_pause ticks) ++ Main.slept st
     /\ Main.log st'
        = concat (rev (map spec_log ticks))
          ++ (INFO, "Starting background monitoring task"%string) :: Main.log st)
  /\ (forall before t after,
        ticks = before ++ t :: after ->
        Forall (fun t => Main.stop_requested t = false) before ->
        Main.stop_requested t = true ->
        exists st',
          Main.background_monitoring ticks st = (Returned, st')
          /\ Main.background_monitoring (before ++ [t]) st = (Returned, st')
          /\ Main.monitoring_active st' = false
          /\ Main.slept st' = rev (map spec_pause (before ++ [t])) ++ Main.slept st
          /\ Main.log st'
             = concat (rev (map spec_log (before ++ [t])))
               ++ (INFO, "Starting background monitoring task"%string) :: Main.log st).
Proof.
  set (st0 := Main.add_log INFO "Starting background monitoring task"
                {| Main.monitoring_active := true; Main.log := Main.log st;
                   Main.slept := Main.slept st |}).
  assert (Hact : Main.monitoring_active st0 = true) by reflexivity.
  assert (Hslept : Main.slept st0 = Main.slept st) by reflexivity.
  assert (Hlog : Main.log st0
                 = (INFO, "Starting background monitoring task"%string) :: Main.log st)
    by reflexivity.
  split.
  - intros Hstop. exists (run_ticks ticks st0).
    destruct (run_ticks_spec ticks st0) as (Ha & Hs & Hl).
    unfold Main.background_monitoring. fold st0.
    rewrite (monitoring_loop_no_stop ticks st0 Hstop Hact).
    rewrite Ha, Hs, Hl, Hslept, Hlog. done.
  - intros before t after -> Hstop Ht.
    exists (Main.shutdown (run_ticks (before ++ [t]) st0)).
    destruct (run_ticks_spec (before ++ [t]) st0) as (Ha & Hs & Hl).
    unfold Main.background_monitoring. fold st0.
    rewrite (monitoring_loop_stop before after t st0 Hstop Ht Hact).
    rewrite (monitoring_loop_stop before [] t st0 Hstop Ht Hact).
    cbn [Main.shutdown Main.monitoring_active Main.slept Main.log].
    rewrite Hs, Hl, Hslept, Hlog. done.
Qed.

Lemma background_monitoring_survives_witness :
  (exists st',
      Main.background_monitoring
        [Main.mkTick (Raise ValueError) (Ok true) (Ok tt) (Ok tt) 1 (Ok tt) (Ok tt) false;
         Main.mkTick
           (Ok (Some (mkSensorReading 0 (Fin 200) (Fin 7) (Fin 400) (Fin 0.3) (Fin 22))))
           (Ok true) (Ok tt) (Ok tt) 10 (Raise ValueError) (Ok tt) false]
        (Main.mkState false [] []) = (Running, st')
      /\ Main.monitoring_active st' = true
      /\ Main.slept st' = [30%Z; 60%Z]
      /\ Main.log st'
         = [(ERROR, "ML analysis error in background task"%string);
            (ERROR, "Background monitoring error"%string);
            (INFO, "Starting background monitoring task"%string)])
  /\ (exists st',
        Main.background_monitoring
          [Main.mkTick (Ok None) (Ok true) (Ok tt) (Ok tt) 1 (Ok tt) (Ok tt) true;
           Main.mkTick (Ok None) (Ok true) (Ok tt) (Ok tt) 1 (Ok tt) (Ok tt) false]
          (Main.mkState false [] []) = (Returned, st')
        /\ Main.slept st' = [30%Z]).
Proof.
  split.
  - destruct (background_monitoring_survives
                [Main.mkTick (Raise ValueError) (Ok true) (Ok tt) (Ok tt) 1 (Ok tt) (Ok tt) false;
                 Main.mkTick
                   (Ok (Some (mkSensorReading 0 (Fin 200) (Fin 7) (Fin 400) (Fin 0.3)
                                (Fin 22))))
                   (Ok true) (Ok tt) (Ok tt) 10 (Raise ValueError) (Ok tt) false]
                (Main.mkState false [] [])) as [Hrun _].
    destruct Hrun as (st' & Hrun & Hact & Hslept & Hlog).
    + repeat constructor.
    + exists st'. split; [exact Hrun |]. split; [exact Hact |].
      split; [exact Hslept | exact Hlog].
  - destruct (background_monitoring_survives
                [Main.mkTick (Ok None) (Ok true) (Ok tt) (Ok tt) 1 (Ok tt) (Ok tt) true;
                 Main.mkTick (Ok None) (Ok true) (Ok tt) (Ok tt) 1 (Ok tt) (Ok tt) false]
                (Main.mkState false [] [])) as [_ Hstop].
    destruct (Hstop []
                (Main.mkTick (Ok None) (Ok true) (Ok tt) (Ok tt) 1 (Ok tt) (Ok tt) true)
                [Main.mkTick (Ok None) (Ok true) (Ok tt) (Ok tt) 1 (Ok tt) (Ok tt) false])
      as (st' & Hret & _ & _ & Hslept & _).
    + reflexivity.
    + constructor.
    + reflexivity.
    + exists st'. split; [exact Hret | exact Hslept].
Defined.

(** [SensorManager.start_monitoring] is built differently: its [try]
    encloses the [while], so the first exception raised in a turn ends the
    loop, with [is_running] still set and no sleep after it. *)
Lemma start_monitoring_exits_on_exception (interval : Z) (connected : bool)
  (t : Sensors.tick) (rest : list Sensors.tick) (m : Sensors.SensorManager) :
  (exists e, Sensors.read_result t = Raise e) ->
  exists m',
    Sensors.start_monitoring interval connected (t :: rest) m = (Returned, m')
    /\ Sensors.is_running m' = true
    /\ Sensors.slept m' = Sensors.slept m.
Proof.
  intros [e He]. unfold Sensors.start_monitoring. simpl.
  unfold Sensors.monitoring_iteration. rewrite He.
  eexists. split; [reflexivity |].
  unfold Sensors.disconnect_serial. simpl. by destruct connected.
Qed.


(** * Further properties of the code *)

(** ** [sensors.py]: the simulator and the validator *)

(** X1: Every reading the simulator can produce passes the validator without
    a warning. *)
Theorem simulated_reading_validates (now : Z) (u_tds u_ph u_orp u_turb u_temp : Q) :
  0 <= u_tds -> u_tds <= 1 ->
  0 <= u_ph -> u_ph <= 1 ->
  0 <= u_orp -> u_orp <= 1 ->
  0 <= u_turb -> u_turb <= 1 ->
  Sensors.validate_reading
    (Sensors._simulate_sensor_data now u_tds u_ph u_orp u_turb u_temp) = Ok [].
Proof.
  intros Ht0 Ht1 Hp0 Hp1 Ho0 Ho1 Hu0 Hu1.
  unfold Sensors.validate_reading, Sensors._simulate_sensor_data,
    Sensors.random_uniform, fgt.
  cbn [ph tds orp turbidity flt].
  assert (E1 : Qlt_bool (6.5 + (8.5 - 6.5) * u_ph) 6.5 = false)
    by (apply Qlt_bool_false; lra).
  assert (E2 : Qlt_bool 8.5 (6.5 + (8.5 - 6.5) * u_ph) = false)
    by (apply Qlt_bool_false; lra).
  assert (E3 : Qlt_bool 600 (150 + (300 - 150) * u_tds) = false)
    by (apply Qlt_bool_false; lra).
  assert (E4 : Qlt_bool (150 + (300 - 150) * u_tds) 50 = false)
    by (apply Qlt_bool_false; lra).
  assert (E5 : Qlt_bool 1 (0.1 + (1.0 - 0.1) * u_turb) = false)
    by (apply Qlt_bool_false; lra).
  assert (E6 : Qlt_bool (200 + (600 - 200) * u_orp) 200 = false)
    by (apply Qlt_bool_false; lra).
  assert (E7 : Qlt_bool 800 (200 + (600 - 200) * u_orp) = false)
    by (apply Qlt_bool_false; lra).
  by rewrite E1, E2, E3, E4, E5, E6, E7.
Qed.

Lemma simulated_reading_validates_witness :
  Sensors.validate_reading
    (Sensors._simulate_sensor_data 0 (1 # 2) 1 0 1 (1 # 3)) = Ok [].
Proof.
  apply (simulated_reading_validates 0 (1 # 2) 1 0 1 (1 # 3)); lra.
Defined.

(** X2: A finite reading gets no warning exactly when ph is in [6.5, 8.5], tds
    in [50, 600], turbidity at most 1.0 and orp in [200, 800]; temperature
    and timestamp play no part. *)
Theorem validate_reading_empty_iff (ts : Z) (v_tds v_ph v_orp v_turb : Q)
  (v_temp : pyfloat) :
  Sensors.validate_reading
    (mkSensorReading ts (Fin v_tds) (Fin v_ph) (Fin v_orp) (Fin v_turb) v_temp)
  = Ok []
  <-> (6.5 <= v_ph /\ v_ph <= 8.5) /\ (50 <= v_tds /\ v_tds <= 600)
      /\ v_turb <= 1 /\ (200 <= v_orp /\ v_orp <= 800).
Proof.
  unfold Sensors.validate_reading, fgt.
  cbn [ph tds orp turbidity flt].
  destruct (Qlt_bool v_ph 6.5) eqn:E1, (Qlt_bool 8.5 v_ph) eqn:E2,
    (Qlt_bool 600 v_tds) eqn:E3, (Qlt_bool v_tds 50) eqn:E4,
    (Qlt_bool 1 v_turb) eqn:E5,
    (Qlt_bool v_orp 200) eqn:E6, (Qlt_bool 800 v_orp) eqn:E7;
    qprops; cbn; split; intros H; try discriminate; try reflexivity;
    try lra; repeat split; lra.
Qed.

(** ** [sensors.py]: the parser, pair by pair *)

Lemma last_value_cons (k : string) (e : string * pyfloat)
  (rest : list (string * pyfloat)) :
  last_value k (e :: rest)
  = match last_value k rest with
    | Some v => Some v
    | None => if decide (e.1 = k) then Some e.2 else None
    end.
Proof.
  unfold last_value. simpl.
  generalize (if decide (e.1 = k) then Some e.2 else None).
  induction rest as [|e' rest IH]; intros acc; simpl.
  - done.
  - rewrite (IH (if decide (e'.1 = k) then Some e'.2 else acc)).
    rewrite (IH (if decide (e'.1 = k) then Some e'.2 else None)).
    destruct (foldl _ None rest); [done |]. by destruct (decide (e'.1 = k)).
Qed.

Section ParserEntries.
Variable py_float : string -> py pyfloat.
Variable py_strip : string -> string.
Variable py_lower : string -> string.

Lemma parse_pair_entry (data : gmap string pyfloat) (p : string) :
  Sensors.parse_pair py_float py_strip py_lower data p
  = match Sensors.pair_entry py_float py_strip py_lower p with
    | Some e => Ok (<[e.1 := e.2]> data)
    | None => Raise ValueError
    end
  \/ exists e, Sensors.parse_pair py_float py_strip py_lower data p = Raise e
               /\ Sensors.pair_entry py_float py_strip py_lower p = None.
Proof.
  unfold Sensors.parse_pair, Sensors.pair_entry.
  destruct (split ":" p) as [|key [|value [|? ?]]]; auto.
  destruct (py_float (py_strip value)) as [v|e]; simpl; eauto.
Qed.

(** The loop succeeds exactly when every pair is well formed, and then
    [data] is the initial dictionary updated with the entries in order. *)
Lemma parse_pairs_entries (pairs : list string) (data0 : gmap string pyfloat) :
  match Sensors.parse_pairs py_float py_strip py_lower data0 pairs with
  | Ok data =>
      Forall (fun p => is_Some (Sensors.pair_entry py_float py_strip py_lower p)) pairs
      /\ forall k,
           data !! k
           = match last_value k
                     (omap (Sensors.pair_entry py_float py_strip py_lower) pairs) with
             | Some v => Some v
             | None => data0 !! k
             end
  | Raise _ =>
      Exists (fun p => Sensors.pair_entry py_float py_strip py_lower p = None) pairs
  end.
Proof.
  revert data0. induction pairs as [|p pairs IH]; intros data0.
  - simpl. split; [constructor | done].
  - cbn [Sensors.parse_pairs].
    destruct (parse_pair_entry data0 p) as [E|(e & E & Hnone)].
    + rewrite E.
      destruct (Sensors.pair_entry py_float py_strip py_lower p) as [[k0 v0]|] eqn:Hp;
        cbn [py_bind fst snd]; [| by left].
      assert (Hcons : omap (Sensors.pair_entry py_float py_strip py_lower) (p :: pairs)
                      = (k0, v0) :: omap (Sensors.pair_entry py_float py_strip py_lower) pairs)
        by (simpl; by rewrite Hp).
      specialize (IH (<[k0:=v0]> data0)).
      destruct (Sensors.parse_pairs _ _ _ _ pairs) as [data|e]; [| by right].
      destruct IH as [Hall Hk]. split; [constructor; eauto |].
      intros k. rewrite Hk, Hcons, last_value_cons. cbn [fst snd].
      destruct (last_value k _); [done |].
      destruct (decide (k0 = k)) as [->|Hne].
      * by rewrite lookup_insert_eq.
      * by rewrite lookup_insert_ne.
    + rewrite E. cbn [py_bind]. by left.
Qed.

(** X3: When a key occurs in several pairs of a response that parses, the
    field gets the value of the last of them; a key that occurs in none
    is absent from [data]. *)
Theorem parser_last_pair_wins (response : string) (data : gmap string pyfloat)
  (k : string) :
  Sensors.parse_pairs py_float py_strip py_lower ∅ (split "," response) = Ok data ->
  data !! k
  = last_value k
      (omap (Sensors.pair_entry py_float py_strip py_lower) (split "," response)).
Proof.
  intros Hdata.
  pose proof (parse_pairs_entries (split "," response) ∅) as H.
  rewrite Hdata in H. destruct H as [_ Hk]. rewrite Hk, lookup_empty.
  by destruct (last_value _ _).
Qed.

(** X4: The parser returns [None] exactly when some pair of the response is
    malformed: it does not split in two at [":"], or its value is refused
    by [float].  One such pair discards the whole response. *)
Theorem parser_none_iff (now : Z) (response : string) :
  Sensors._parse_sensor_response py_float py_strip py_lower now response = None
  <-> Exists (fun p => Sensors.pair_entry py_float py_strip py_lower p = None)
        (split "," response).
Proof.
  unfold Sensors._parse_sensor_response, Sensors.parse_body.
  pose proof (parse_pairs_entries (split "," response) ∅) as H.
  destruct (Sensors.parse_pairs _ _ _ ∅ (split "," response)) as [data|e];
    cbn [py_bind].
  - destruct H as [Hall _]. split; [discriminate |].
    intros Hex. apply Exists_exists in Hex as (p & Hin & Hnone).
    rewrite Forall_forall in Hall. destruct (Hall p Hin) as [x Hx]. congruence.
  - by split.
Qed.
End ParserEntries.

Lemma parser_last_pair_wins_witness :
  exists data,
    Sensors.parse_pairs Sensors.decimal_float Sensors.ascii_strip Sensors.ascii_lower
      ∅ (split "," "TDS:100,ph:7,tds:250.5") = Ok data
    /\ data !! "tds"%string = Some (Fin 250.5).
Proof.
  eexists. split; [reflexivity |].
  rewrite (parser_last_pair_wins Sensors.decimal_float Sensors.ascii_strip
             Sensors.ascii_lower "TDS:100,ph:7,tds:250.5" _ "tds" eq_refl).
  reflexivity.
Defined.

(** ** [sensors.py]: how [start_monitoring] ends *)

Lemma monitoring_iteration_effect (interval : Z) (t : Sensors.tick)
  (m : Sensors.SensorManager) :
  Sensors.is_running (Sensors.monitoring_iteration interval t m).1 = Sensors.is_running m
  /\ Sensors.serial_open (Sensors.monitoring_iteration interval t m).1
     = Sensors.serial_open m
  /\ sensor_tick_raises t
     = match (Sensors.monitoring_iteration interval t m).2 with
       | Raise _ => true
       | Ok _ => false
       end.
Proof.
  unfold sensor_tick_raises, Sensors.monitoring_iteration.
  destruct (Sensors.read_result t) as [[r|]|e]; [| | done].
  - destruct (Sensors.save_result t) as [[|]|e]; [| | done].
    + destruct (Sensors.validate_reading r) as [[|w ws]|e];
        destruct (Sensors.sleep_result t); done.
    + destruct (Sensors.sleep_result t); done.
  - destruct (Sensors.sleep_result t); done.
Qed.

Lemma disconnect_serial_effect (m : Sensors.SensorManager) :
  Sensors.serial_open (Sensors.disconnect_serial m) = false
  /\ Sensors.is_running (Sensors.disconnect_serial m) = Sensors.is_running m.
Proof.
  unfold Sensors.disconnect_serial.
  destruct (Sensors.serial_open m) eqn:E; done.
Qed.

Lemma monitoring_loop_exit (interval : Z) (ticks : list Sensors.tick)
  (m m' : Sensors.SensorManager) :
  Sensors.monitoring_loop interval ticks m = (Returned, m') ->
  Sensors.serial_open m' = false
  /\ (Sensors.is_running m' = true ->
      Exists (fun t => sensor_tick_raises t = true) ticks)
  /\ (Sensors.is_running m' = false ->
      Sensors.is_running m = false
      \/ Exists (fun t => Sensors.stop_called t = true) ticks).
Proof.
  revert m. induction ticks as [|t ticks IH]; intros m Hloop; simpl in Hloop.
  - destruct (Sensors.is_running m) eqn:Hrun; [discriminate |].
    injection Hloop as <-.
    destruct (disconnect_serial_effect m) as [Hs Hr].
    rewrite Hs, Hr, Hrun.
    split; [done |]. split; [intros H; discriminate H | auto].
  - destruct (Sensors.is_running m) eqn:Hrun.
    + destruct (monitoring_iteration_effect interval t m) as (Hr1 & _ & Hraise).
      destruct (Sensors.monitoring_iteration interval t m) as [m1 [[]|e]];
        cbn [fst snd] in *.
      * apply IH in Hloop as (Hs & Ht & Hf).
        split; [exact Hs |]. split.
        -- intros H. right. by apply Ht.
        -- intros H. right. destruct (Hf H) as [Hm2|Hex]; [| by right].
           left. destruct (Sensors.stop_called t); [done |]. congruence.
      * injection Hloop as <-.
        destruct (disconnect_serial_effect
                    (Sensors.add_log ERROR "Error during monitoring" m1)) as [Hs Hr].
        rewrite Hs, Hr. cbn [Sensors.add_log Sensors.is_running]. rewrite Hr1, Hrun.
        split; [done |]. split; [intros _; by left | intros H; discriminate H].
    + injection Hloop as <-.
      destruct (disconnect_serial_effect m) as [Hs Hr].
      rewrite Hs, Hr, Hrun.
      split; [done |]. split; [intros H; discriminate H | auto].
Qed.

(** X5: Whenever [start_monitoring] returns, the serial port is closed.  If
    [is_running] is still set at that point, a turn ended in an exception;
    if it is cleared, [stop_monitoring] was called during a turn. *)
Theorem start_monitoring_exit (interval : Z) (connected : bool)
  (ticks : list Sensors.tick) (m m' : Sensors.SensorManager) :
  Sensors.start_monitoring interval connected ticks m = (Returned, m') ->
  Sensors.serial_open m' = false
  /\ (Sensors.is_running m' = true ->
      Exists (fun t => sensor_tick_raises t = true) ticks)
  /\ (Sensors.is_running m' = false ->
      Exists (fun t => Sensors.stop_called t = true) ticks).
Proof.
  unfold Sensors.start_monitoring. intros Hloop.
  apply monitoring_loop_exit in Hloop as (Hs & Ht & Hf).
  split; [exact Hs |]. split; [exact Ht |].
  intros H. destruct (Hf H) as [Hrun|Hex]; [discriminate | exact Hex].
Qed.

Lemma start_monitoring_exit_witness :
  exists m',
    Sensors.start_monitoring 30 true
      [Sensors.mkTick (Ok None) (Ok true) (Ok tt) false;
       Sensors.mkTick (Ok None) (Ok true) (Raise ValueError) false]
      (Sensors.mkSensorManager false false [] []) = (Returned, m')
    /\ Sensors.serial_open m' = false
    /\ Exists (fun t => sensor_tick_raises t = true)
         [Sensors.mkTick (Ok None) (Ok true) (Ok tt) false;
          Sensors.mkTick (Ok None) (Ok true) (Raise ValueError) false].
Proof.
  eexists. split; [reflexivity |].
  destruct (start_monitoring_exit 30 true
              [Sensors.mkTick (Ok None) (Ok true) (Ok tt) false;
               Sensors.mkTick (Ok None) (Ok true) (Raise ValueError) false]
              (Sensors.mkSensorManager false false [] []) _ eq_refl)
    as (Hs & Ht & _).
  split; [exact Hs | apply Ht; reflexivity].
Defined.

(** ** [ml_model_simple.py] *)

Lemma capped_score_range (x : Q) : 0 <= x -> 0 <= py_max 0 (100 - x) /\ py_max 0 (100 - x) <= 100.
Proof.
  intros Hx. destruct (py_max_spec 0 (100 - x)) as [[H ->]|[H ->]]; lra.
Qed.

Lemma sub_scores_range (v_tds v_ph v_orp v_turb : Q) :
  exists a b c d,
    MLSimple.sub_scores v_tds v_ph v_orp v_turb = [a; b; c; d]
    /\ (0 <= a /\ a <= 100) /\ (0 <= b /\ b <= 100)
    /\ (0 <= c /\ c <= 100) /\ (0 <= d /\ d <= 100).
Proof.
  unfold MLSimple.sub_scores. cbv zeta.
  eexists _, _, _, _. split; [reflexivity |].
  repeat apply conj.
  all: match goal with
       | |- context [if ?b then _ else _] => destruct b eqn:E
       end; try lra.
  all: try (apply capped_score_range || apply (proj1 (capped_score_range _ _))
            || apply (proj2 (capped_score_range _ _))).
  all: try (apply Qle_shift_div_l; [lra |]; rewrite Qmult_0_l; apply Qabs_nonneg).
  all: try (apply Qmult_le_0_compat; [apply Qabs_nonneg | lra]).
  all: apply andb_false_iff in E || apply Qle_bool_false in E; lra.
Qed.

(** X6: The composite score of [SimpleWaterQualityOptimizer] lies in [0, 100]
    for every reading, whatever the values. *)
Theorem simple_score_range (v_tds v_ph v_orp v_turb : Q) :
  0 <= MLSimple._calculate_quality_score v_tds v_ph v_orp v_turb
  /\ MLSimple._calculate_quality_score v_tds v_ph v_orp v_turb <= 100.
Proof.
  unfold MLSimple._calculate_quality_score. cbv zeta.
  destruct (sub_scores_range v_tds v_ph v_orp v_turb)
    as (a & b & c & d & -> & Ha & Hb & Hc & Hd).
  cbn [foldr length].
  change (inject_Z (Z.of_nat 4)) with 4.
  apply (py_round1_bounds _ 0 100).
  - change (inject_Z 0) with 0. apply Qle_shift_div_l; lra.
  - change (inject_Z 100) with 100. apply Qle_shift_div_r; lra.
Qed.

(** X7: The fields of a prediction agree with each other:
    [days_until_replacement] is never negative; when [replacement_needed]
    is set, it is 0, the confidence is "high" and [saturation_percent] is
    at least 80; when it is not set, [saturation_percent] is at most 80. *)
Theorem simple_prediction_consistent
  (readings : list MLSimple.any_reading) (usage : Q) (days : Z) (now : Z)
  (noise : Q) (s d : Q) (needed : bool) (c : string) :
  MLSimple.predict_saturation readings usage days now noise
    = FilterPrediction s d needed c ->
  0 <= d
  /\ (needed = true -> d == 0 /\ c = "high"%string /\ 80 <= s)
  /\ (needed = false -> s <= 80).
Proof.
  unfold MLSimple.predict_saturation.
  destruct (last readings) as [l|]; [| discriminate].
  cbv zeta.
  set (sat := py_min _ 100).
  intros [= <- <- <- <-].
  destruct (Qlt_bool sat 80) eqn:Elt.
  - assert (Hle : Qle_bool 80 sat = false).
    { apply Qle_bool_false. by apply Qlt_bool_iff. }
    rewrite Hle. qprops.
    split; [| split; [discriminate |]].
    + assert (H0 : 0 <= (80 - sat) / 1.5) by (apply Qle_shift_div_l; lra).
      apply (py_round1_bounds _ 0 (Qceiling ((80 - sat) / 1.5))); [exact H0 |].
      apply Qle_ceiling.
    + intros _. change 80 with (inject_Z 80).
      apply (py_round1_bounds sat (Qfloor sat) 80); [apply Qfloor_le |].
      change (inject_Z 80) with 80. lra.
  - assert (Hle : Qle_bool 80 sat = true).
    { apply Qle_bool_iff. by apply Qlt_bool_false. }
    rewrite Hle. qprops.
    split; [apply Qle_bool_iff; reflexivity |]. split; [| discriminate].
    intros _. split; [reflexivity |]. split.
    + assert (Hgt : Qgt_bool sat 20 = true) by (apply Qlt_bool_iff; lra).
      by rewrite Hgt.
    + change 80 with (inject_Z 80).
      apply (py_round1_bounds sat 80 (Qceiling sat)); [| apply Qle_ceiling].
      change (inject_Z 80) with 80. lra.
Qed.

Lemma simple_prediction_consistent_witness :
  exists s d c,
    MLSimple.predict_saturation
      [MLSimple.Obj (mkSensorReading 0 350 7 450 0.6 22)] 0 70 0 2
      = FilterPrediction s d true c
    /\ d == 0 /\ c = "high"%string /\ 80 <= s.
Proof.
  eexists _, _, _. split; [reflexivity |].
  apply (simple_prediction_consistent
           [MLSimple.Obj (mkSensorReading 0 350 7 450 0.6 22)] 0 70 0 2
           _ _ true _ eq_refl).
  reflexivity.
Defined.

Lemma to_dict_lookup (r : SensorReading Q) :
  MLSimple.to_dict r !! "tds"%string = Some (tds r)
  /\ MLSimple.to_dict r !! "ph"%string = Some (ph r)
  /\ MLSimple.to_dict r !! "orp"%string = Some (orp r)
  /\ MLSimple.to_dict r !! "turbidity"%string = Some (turbidity r)
  /\ MLSimple.to_dict r !! "temperature"%string = Some (temperature r).
Proof. unfold MLSimple.to_dict. repeat split; by simplify_map_eq. Qed.

(** X8: A reading handed over as its [to_dict()] dictionary is treated like
    the object itself: the same prediction, the same anomalies and the
    same recommendations; none of the built-in defaults is used. *)
Theorem to_dict_same_analysis (r : SensorReading Q)
  (earlier : list MLSimple.any_reading) (usage : Q) (days : Z) (now : Z)
  (noise : Q) :
  MLSimple.predict_saturation (earlier ++ [MLSimple.Dict (MLSimple.to_dict r)])
    usage days now noise
  = MLSimple.predict_saturation (earlier ++ [MLSimple.Obj r]) usage days now noise
  /\ MLSimple.detect_anomalies (MLSimple.Dict (MLSimple.to_dict r))
     = MLSimple.detect_anomalies (MLSimple.Obj r)
  /\ MLSimple.get_optimization_recommendations (MLSimple.Dict (MLSimple.to_dict r))
     = MLSimple.get_optimization_recommendations (MLSimple.Obj r).
Proof.
  destruct (to_dict_lookup r) as (Ht & Hp & Ho & Hu & He).
  split; [| split].
  - unfold MLSimple.predict_saturation. rewrite !last_snoc.
    unfold MLSimple.latest_reading. rewrite Ht, Hp, Ho, Hu, He. reflexivity.
  - unfold MLSimple.detect_anomalies, MLSimple.field.
    rewrite Ht, Hp, Ho, Hu. reflexivity.
  - unfold MLSimple.get_optimization_recommendations, MLSimple.field.
    rewrite Ht, Hp, Ho, Hu. reflexivity.
Qed.

(** ** [main.py]: what the analysis block forwards *)

(** X9: The background task forwards to the IoT hub the "filter_replacement"
    alert, when a replacement is needed, followed by one "sensor_anomaly"
    alert per anomaly, in the order of the anomalies; a "water_quality"
    alert is never forwarded, and nothing is on an empty history. *)
Theorem forwarded_alerts_are_high
  (readings : list MLSimple.any_reading) (usage : Q) (days : Z) (now : Z)
  (noise : Q) :
  Main.forwarded_alerts
    (MLSimple.analyze_water_quality readings usage days now noise)
  = match last readings with
    | None => []
    | Some latest =>
        (if get_replacement_needed
              (MLSimple.predict_saturation readings usage days now noise)
         then [mkAlert "filter_replacement" "high"
                 (FilterReplacementNeeded
                    (get_saturation_percent
                       (MLSimple.predict_saturation readings usage days now noise)))]
         else [])
        ++ map (fun '(param, m) => mkAlert "sensor_anomaly" "high" (AnomalyIn param m))
             (MLSimple.detect_anomalies latest)
    end.
Proof.
  unfold Main.forwarded_alerts, MLSimple.analyze_water_quality.
  destruct (last readings) as [latest|]; [| reflexivity].
  cbv zeta. cbn [MLSimple.alerts].
  assert (Hmap : forall l : list (string * MLSimple.anomaly_message),
             List.filter (fun a => String.eqb (severity a) "high")
               (map (fun '(param, m) =>
                       mkAlert "sensor_anomaly" "high" (AnomalyIn param m)) l)
             = map (fun '(param, m) =>
                      mkAlert "sensor_anomaly" "high" (AnomalyIn param m)) l).
  { induction l as [|[k m] l IH]; [done |]. simpl. by rewrite IH. }
  destruct (get_replacement_needed _), (Qlt_bool _ 70);
    rewrite ?List.filter_app, ?Hmap; simpl; rewrite ?Hmap, ?app_nil_r; reflexivity.
Qed.

(** ** [sensors.py] with [ml_model_simple.py]: simulated data *)

Lemma simulated_range_prediction
  (earlier : list MLSimple.any_reading) (r : SensorReading Q) (usage : Q)
  (now : Z) (noise : Q) :
  tds r <= 300 -> 6.5 <= ph r -> ph r <= 8.5 -> noise <= 5 ->
  get_replacement_needed
    (MLSimple.predict_saturation (earlier ++ [MLSimple.Obj r]) usage 0 now noise)
  = false.
Proof.
  intros Ht Hp1 Hp2 Hn.
  unfold MLSimple.predict_saturation. rewrite last_snoc. cbv zeta.
  cbn [MLSimple.latest_reading get_replacement_needed].
  apply Qle_bool_false.
  assert (Et : Qgt_bool (tds r) 300 = false) by (by apply Qlt_bool_false).
  assert (Ep : Qlt_bool (ph r) 6.5 || Qgt_bool (ph r) 8.5 = false).
  { apply orb_false_iff. split; by apply Qlt_bool_false. }
  rewrite Et, Ep.
  change (inject_Z 0) with 0.
  destruct (py_min_spec (0 * 1.2) 90) as [[H1 E1]|[H1 E1]]; [lra |].
  rewrite E1.
  destruct (Qgt_bool (turbidity r) 0.5);
    match goal with
    | |- py_min ?x 100 < 80 => destruct (py_min_spec x 100) as [[H2 ->]|[H2 ->]]
    end; lra.
Qed.

Lemma simulated_range_score (r : SensorReading Q) :
  150 <= tds r -> tds r <= 300 -> 6.5 <= ph r -> ph r <= 8.5 ->
  200 <= orp r -> orp r <= 600 -> turbidity r <= 1 ->
  87 <= MLSimple._calculate_quality_score (tds r) (ph r) (orp r) (turbidity r).
Proof.
  intros Ht1 Ht2 Hp1 Hp2 Ho1 Ho2 Hu.
  unfold MLSimple._calculate_quality_score, MLSimple.sub_scores. cbv zeta.
  apply Qle_bool_iff in Ht1 as Et1. apply Qle_bool_iff in Ht2 as Et2.
  apply Qle_bool_iff in Hp1 as Ep1. apply Qle_bool_iff in Hp2 as Ep2.
  apply Qle_bool_iff in Ho2 as Eo2. apply Qle_bool_iff in Hu as Eu.
  rewrite Et1, Et2, Ep1, Ep2, Eo2, Eu. cbn [andb foldr length].
  change (inject_Z (Z.of_nat 4)) with 4.
  set (o := if Qle_bool 300 (orp r) && true then 100
            else py_max 0 (100 - Qabs (orp r - 450) / 5)).
  assert (Horp : 50 <= o).
  { unfold o. destruct (Qle_bool 300 (orp r)) eqn:E; cbn [andb]; [lra |].
    qprops.
    assert (Habs : Qabs (orp r - 450) / 5 <= 50).
    { apply Qle_shift_div_r; [lra |]. apply Qabs_case; intros; lra. }
    destruct (py_max_spec 0 (100 - Qabs (orp r - 450) / 5)) as [[H ->]|[H ->]]; lra. }
  pose proof (py_round1_error ((100 + (100 + (o + (100 + 0)))) / 4)) as [Herr _].
  assert (Hmean : 87.5 <= (100 + (100 + (o + (100 + 0)))) / 4)
    by (apply Qle_shift_div_l; lra).
  lra.
Qed.

(** X10: The periodic analysis of the background task, which passes no filter
    age, raises no alert on simulated data: when the latest reading lies
    in the ranges of the simulator, there is no anomaly, the quality score
    is at least 87 and the alert list is empty. *)
Theorem simulated_history_never_alerts
  (earlier : list MLSimple.any_reading) (r : SensorReading Q) (usage : Q)
  (now : Z) (noise : Q) :
  150 <= tds r -> tds r <= 300 ->
  6.5 <= ph r -> ph r <= 8.5 ->
  200 <= orp r -> orp r <= 600 ->
  0.1 <= turbidity r -> turbidity r <= 1 ->
  -5 <= noise -> noise <= 5 ->
  exists rep,
    MLSimple.analyze_water_quality (earlier ++ [MLSimple.Obj r]) usage 0 now noise
    = MLSimple.Analysis rep
    /\ MLSimple.anomalies rep = []
    /\ 87 <= quality_score (MLSimple.report_optimization rep)
    /\ MLSimple.alerts rep = [].
Proof.
  intros Ht1 Ht2 Hp1 Hp2 Ho1 Ho2 Hu1 Hu2 Hn1 Hn2.
  pose proof (simulated_range_prediction earlier r usage now noise Ht2 Hp1 Hp2 Hn2)
    as Hneeded.
  pose proof (simulated_range_score r Ht1 Ht2 Hp1 Hp2 Ho1 Ho2 Hu2) as Hscore.
  assert (Hanom : MLSimple.detect_anomalies (MLSimple.Obj r) = []).
  { unfold MLSimple.detect_anomalies, MLSimple.field, Qgt_bool. cbv zeta.
    assert (E1 : Qlt_bool (tds r) 50 = false) by (apply Qlt_bool_false; lra).
    assert (E2 : Qlt_bool 800 (tds r) = false) by (apply Qlt_bool_false; lra).
    assert (E3 : Qlt_bool (ph r) 6 = false) by (apply Qlt_bool_false; lra).
    assert (E4 : Qlt_bool 9 (ph r) = false) by (apply Qlt_bool_false; lra).
    assert (E5 : Qlt_bool (orp r) 100 = false) by (apply Qlt_bool_false; lra).
    assert (E6 : Qlt_bool 900 (orp r) = false) by (apply Qlt_bool_false; lra).
    assert (E7 : Qlt_bool 5 (turbidity r) = false) by (apply Qlt_bool_false; lra).
    by rewrite E1, E2, E3, E4, E5, E6, E7. }
  unfold MLSimple.analyze_water_quality. rewrite last_snoc. cbv zeta.
  eexists. split; [reflexivity |].
  cbn [MLSimple.anomalies MLSimple.report_optimization MLSimple.alerts].
  rewrite Hneeded, Hanom.
  unfold MLSimple.get_optimization_recommendations. cbv zeta.
  cbn [quality_score MLSimple.field].
  assert (E70 : Qlt_bool
                  (MLSimple._calculate_quality_score (tds r) (ph r) (orp r)
                     (turbidity r)) 70 = false)
    by (apply Qlt_bool_false; lra).
  rewrite E70. repeat split; [exact Hscore].
Qed.

Lemma simulated_history_never_alerts_witness :
  exists rep,
    MLSimple.analyze_water_quality
      ([] ++ [MLSimple.Obj (mkSensorReading 0 150 8.5 200 1 20)]) 0 0 0 5
    = MLSimple.Analysis rep
    /\ MLSimple.anomalies rep = []
    /\ 87 <= quality_score (MLSimple.report_optimization rep)
    /\ MLSimple.alerts rep = [].
Proof.
  apply (simulated_history_never_alerts []
           (mkSensorReading 0 150 8.5 200 1 20) 0 0 5);
    vm_compute; discriminate.
Defined.


(** ** [ml_model.py]: the quality scorer *)

Lemma param_score_defined (r : SensorReading Q) (p : MLModel.param)
  (target : MLModel.target_range) :
  MLModel.target_ranges p = Ok target ->
  (p = MLModel.TURBIDITY -> 0 <= MLModel.getattr r p) ->
  exists s, MLModel.param_score r p = Ok s /\ 0 <= s /\ s <= 100.
Proof.
  intros Ht Hturb.
  destruct (Qlt_le_dec (MLModel.getattr r p) (MLModel.range_min target)) as [Hlow|Hlo];
    [| destruct (Qlt_le_dec (MLModel.range_max target) (MLModel.getattr r p))
        as [Hhigh|Hhi]].
  - (* below the band *)
    unfold MLModel.param_score. rewrite Ht. cbv zeta. cbn [py_bind].
    set (v := MLModel.getattr r p) in *.
    destruct p; simpl in Ht; try discriminate; injection Ht as <-;
      cbn [MLModel.range_min MLModel.range_max MLModel.optimal] in *;
      try (specialize (Hturb eq_refl); lra);
      match goal with
      | |- context [Qeq_bool v ?o] =>
          assert (E1 : Qeq_bool v o = false)
            by (destruct (Qeq_bool v o) eqn:E; [qprops; lra | done]);
          rewrite E1
      end;
      match goal with
      | |- context [Qle_bool ?lo v && _] =>
          assert (E2 : Qle_bool lo v = false) by (by apply Qle_bool_false);
          rewrite E2; cbn [andb];
          assert (E3 : Qlt_bool v lo = true) by (by apply Qlt_bool_iff);
          rewrite E3; unfold py_div;
          replace (Qeq_bool lo 0) with false by reflexivity; cbn [py_bind];
          eexists; (split; [reflexivity |]);
          assert (Hq : v / lo <= 1) by (apply Qle_shift_div_r; lra);
          destruct (py_max_spec 0 (80 * (v / lo))) as [[H ->]|[H ->]]; lra
      end.
  - (* above the band *)
    unfold MLModel.param_score. rewrite Ht. cbv zeta. cbn [py_bind].
    set (v := MLModel.getattr r p) in *.
    destruct p; simpl in Ht; try discriminate; injection Ht as <-;
      cbn [MLModel.range_min MLModel.range_max MLModel.optimal] in *;
      match goal with
      | |- context [Qeq_bool v ?o] =>
          assert (E1 : Qeq_bool v o = false)
            by (destruct (Qeq_bool v o) eqn:E; [qprops; lra | done]);
          rewrite E1
      end;
      match goal with
      | |- context [Qle_bool ?lo v && Qle_bool v ?hi] =>
          assert (E2 : Qle_bool v hi = false) by (by apply Qle_bool_false);
          rewrite E2, andb_false_r;
          assert (E3 : Qlt_bool v lo = false) by (apply Qlt_bool_false; lra);
          rewrite E3; unfold py_div;
          assert (E4 : Qeq_bool v 0 = false)
            by (destruct (Qeq_bool v 0) eqn:E; [qprops; lra | done]);
          rewrite E4; cbn [py_bind];
          eexists; (split; [reflexivity |]);
          assert (Hq : hi / v <= 1) by (apply Qle_shift_div_r; lra);
          destruct (py_max_spec 0 (80 * (hi / v))) as [[H ->]|[H ->]]; lra
      end.
  - destruct (param_score_in_band r p target Ht Hlo Hhi) as (s & Hs & H80 & H100 & _).
    exists s. repeat split; [exact Hs | lra | exact H100].
Qed.

Lemma turbidity_score_raises (r : SensorReading Q) :
  turbidity r < 0 ->
  MLModel.param_score r MLModel.TURBIDITY = Raise ZeroDivisionError.
Proof.
  intros Hneg. unfold MLModel.param_score. cbn [MLModel.target_ranges py_bind].
  cbv zeta. cbn [MLModel.getattr MLModel.range_min MLModel.range_max MLModel.optimal].
  assert (E1 : Qeq_bool (turbidity r) 0.2 = false)
    by (destruct (Qeq_bool (turbidity r) 0.2) eqn:E; [qprops; lra | done]).
  assert (E2 : Qle_bool 0 (turbidity r) = false) by (by apply Qle_bool_false).
  assert (E3 : Qlt_bool (turbidity r) 0 = true) by (by apply Qlt_bool_iff).
  rewrite E1, E2, E3. reflexivity.
Qed.

Lemma quality_score_raises (r : SensorReading Q) :
  turbidity r < 0 ->
  MLModel._calculate_quality_score r = Raise ZeroDivisionError.
Proof.
  intros Hneg.
  destruct (param_score_defined r MLModel.TDS _ eq_refl) as (a & Ha & _);
    [discriminate |].
  destruct (param_score_defined r MLModel.PH _ eq_refl) as (b & Hb & _);
    [discriminate |].
  destruct (param_score_defined r MLModel.ORP _ eq_refl) as (c & Hc & _);
    [discriminate |].
  unfold MLModel._calculate_quality_score. cbn [MLModel.collect_scores].
  rewrite Ha, Hb, Hc, (turbidity_score_raises r Hneg). reflexivity.
Qed.

Lemma quality_score_defined (r : SensorReading Q) :
  0 <= turbidity r ->
  exists q, MLModel._calculate_quality_score r = Ok q /\ 0 <= q /\ q <= 100.
Proof.
  intros Hpos.
  destruct (param_score_defined r MLModel.TDS _ eq_refl) as (a & Ha & Ha0 & Ha1);
    [discriminate |].
  destruct (param_score_defined r MLModel.PH _ eq_refl) as (b & Hb & Hb0 & Hb1);
    [discriminate |].
  destruct (param_score_defined r MLModel.ORP _ eq_refl) as (c & Hc & Hc0 & Hc1);
    [discriminate |].
  destruct (param_score_defined r MLModel.TURBIDITY _ eq_refl) as (d & Hd & Hd0 & Hd1);
    [intros _; exact Hpos |].
  unfold MLModel._calculate_quality_score. cbn [MLModel.collect_scores].
  rewrite Ha, Hb, Hc, Hd. cbn [py_bind app foldr length].
  eexists. split; [reflexivity |].
  change (inject_Z (Z.of_nat 4)) with 4.
  apply (py_round1_bounds _ 0 100).
  - change (inject_Z 0) with 0. apply Qle_shift_div_l; lra.
  - change (inject_Z 100) with 100. apply Qle_shift_div_r; lra.
Qed.

Lemma optimization_raises (r : SensorReading Q) :
  turbidity r < 0 ->
  MLModel.get_optimization_recommendations r = Raise ZeroDivisionError.
Proof.
  intros Hneg. unfold MLModel.get_optimization_recommendations. cbv zeta.
  by rewrite (quality_score_raises r Hneg).
Qed.

Lemma optimization_defined (r : SensorReading Q) :
  0 <= turbidity r ->
  exists o, MLModel.get_optimization_recommendations r = Ok o
            /\ 0 <= quality_score o /\ quality_score o <= 100.
Proof.
  intros Hpos. destruct (quality_score_defined r Hpos) as (q & Hq & H0 & H100).
  unfold MLModel.get_optimization_recommendations, MLModel._get_overall_status.
  cbv zeta. rewrite Hq. cbn [py_bind].
  eexists. split; [reflexivity |]. cbn [quality_score]. by split.
Qed.

(** X11: [WaterQualityOptimizer] fails with [ZeroDivisionError] on every reading
    whose turbidity is negative (the lower edge of the turbidity band is
    0, and the score below the band divides by it); on every other
    reading it returns a score in [0, 100]. *)
Theorem quality_score_zero_division (r : SensorReading Q) :
  (turbidity r < 0 ->
   MLModel._calculate_quality_score r = Raise ZeroDivisionError
   /\ MLModel.get_optimization_recommendations r = Raise ZeroDivisionError)
  /\ (0 <= turbidity r ->
      exists q, MLModel._calculate_quality_score r = Ok q /\ 0 <= q /\ q <= 100).
Proof.
  split.
  - intros Hneg. split; [by apply quality_score_raises | by apply optimization_raises].
  - apply quality_score_defined.
Qed.

Lemma quality_score_zero_division_witness :
  MLModel._calculate_quality_score (mkSensorReading 0 200 7.2 450 (-1) 22)
    = Raise ZeroDivisionError
  /\ exists q,
       MLModel._calculate_quality_score (mkSensorReading 0 900 3 50 7 22) = Ok q
       /\ 0 <= q /\ q <= 100.
Proof.
  split.
  - apply (quality_score_zero_division (mkSensorReading 0 200 7.2 450 (-1) 22)).
    vm_compute. reflexivity.
  - apply (quality_score_zero_division (mkSensorReading 0 900 3 50 7 22)).
    vm_compute. discriminate.
Defined.

(** ** [ml_model.py]: the analysis entry point *)

(** X12: When the sequence of readings is not empty, [analyze_water_quality]
    updates the module-level baseline before anything can fail: the
    detector it leaves behind is the updated one whether the call returns
    a report or raises.  It raises [ZeroDivisionError] exactly when the
    latest reading has a negative turbidity, and otherwise returns a
    report on the latest reading. *)
Theorem analysis_updates_baseline_first
  (np_mean np_std np_median : list Q -> Q) (np_percentile : list Q -> Q -> Q)
  (forest : list (SensorReading Q) -> Q -> Z -> Q)
  (readings : list (SensorReading Q)) (latest : SensorReading Q)
  (usage : Q) (days : Z) (detector : MLModel.AnomalyDetector) :
  last readings = Some latest ->
  (MLModel.analyze_water_quality np_mean np_std np_median np_percentile forest
     readings usage days detector).2
  = MLModel.update_baseline np_mean np_std np_median np_percentile readings detector
  /\ (turbidity latest < 0 ->
      (MLModel.analyze_water_quality np_mean np_std np_median np_percentile forest
         readings usage days detector).1
      = Raise ZeroDivisionError)
  /\ (0 <= turbidity latest ->
      exists rep,
        (MLModel.analyze_water_quality np_mean np_std np_median np_percentile forest
           readings usage days detector).1
        = Ok (MLModel.Analysis rep)
        /\ MLModel.current_readings rep = latest
        /\ MLModel.report_anomalies rep
           = MLModel.detect_anomalies
               (MLModel.update_baseline np_mean np_std np_median np_percentile
                  readings detector) latest).
Proof.
  intros Hlast. unfold MLModel.analyze_water_quality. rewrite Hlast. cbv zeta.
  split; [by destruct (MLModel.get_optimization_recommendations latest) |].
  split.
  - intros Hneg. by rewrite (optimization_raises latest Hneg).
  - intros Hpos. destruct (optimization_defined latest Hpos) as (o & Ho & _).
    rewrite Ho. cbn [fst]. eexists. split; [reflexivity |]. by split.
Qed.

Lemma analysis_updates_baseline_first_witness :
  (MLModel.analyze_water_quality (fun _ => 0) (fun _ => 0) (fun _ => 0)
     (fun _ _ => 0) (fun _ _ _ => 0)
     (replicate 10 (mkSensorReading 0 200 7.2 450 (-1) 22)) 0 0
     MLModel.new_detector).1
  = Raise ZeroDivisionError
  /\ (MLModel.analyze_water_quality (fun _ => 0) (fun _ => 0) (fun _ => 0)
        (fun _ _ => 0) (fun _ _ _ => 0)
        (replicate 10 (mkSensorReading 0 200 7.2 450 (-1) 22)) 0 0
        MLModel.new_detector).2
     = MLModel.update_baseline (fun _ => 0) (fun _ => 0) (fun _ => 0)
         (fun _ _ => 0) (replicate 10 (mkSensorReading 0 200 7.2 450 (-1) 22))
         MLModel.new_detector.
Proof.
  destruct (analysis_updates_baseline_first (fun _ => 0) (fun _ => 0) (fun _ => 0)
              (fun _ _ => 0) (fun _ _ _ => 0)
              (replicate 10 (mkSensorReading 0 200 7.2 450 (-1) 22))
              (mkSensorReading 0 200 7.2 450 (-1) 22) 0 0 MLModel.new_detector
              eq_refl) as (Hsnd & Hneg & _).
  split; [apply Hneg; vm_compute; reflexivity | exact Hsnd].
Defined.

(** ** [ml_model.py]: the baseline *)

Lemma last_n_app {A : Type} (n : nat) (older recent : list A) :
  length recent = n -> MLModel.last_n n (older ++ recent) = MLModel.last_n n recent.
Proof.
  intros <-. unfold MLModel.last_n.
  rewrite length_app, Nat.sub_diag.
  replace (length older + length recent - length recent)%nat with (length older) by lia.
  by rewrite drop_app_length.
Qed.

(** X13: With 50 readings or more, the baseline is computed from the last 50
    alone: whatever precedes them has no effect.  And such an update
    replaces what an earlier update stored: the resulting detector is the
    same as if the earlier update had never happened. *)
Theorem update_baseline_window
  (np_mean np_std np_median : list Q -> Q) (np_percentile : list Q -> Q -> Q)
  (older recent earlier : list (SensorReading Q)) (self : MLModel.AnomalyDetector) :
  length recent = 50%nat ->
  MLModel.update_baseline np_mean np_std np_median np_percentile (older ++ recent) self
  = MLModel.update_baseline np_mean np_std np_median np_percentile recent self
  /\ MLModel.update_baseline np_mean np_std np_median np_percentile recent
       (MLModel.update_baseline np_mean np_std np_median np_percentile earlier self)
     = MLModel.update_baseline np_mean np_std np_median np_percentile recent self.
Proof.
  intros Hlen. split.
  - unfold MLModel.update_baseline.
    rewrite (last_n_app 50 older recent Hlen), length_app, Hlen.
    replace (length older + 50 <? 10)%nat with false
      by (symmetry; apply Nat.ltb_ge; lia).
    reflexivity.
  - unfold MLModel.update_baseline. rewrite Hlen.
    change (50 <? 10)%nat with false. cbv iota.
    destruct (length earlier <? 10)%nat; [reflexivity |].
    unfold MLModel.all_params. cbn [foldl MLModel.baseline_stats].
    f_equal. apply map_eq. intros k.
    rewrite !lookup_insert. by repeat case_decide.
Qed.

Lemma update_baseline_window_witness :
  MLModel.update_baseline (fun _ => 0) (fun _ => 0) (fun _ => 0) (fun _ _ => 0)
    ([mkSensorReading 0 900 3 50 7 22]
     ++ replicate 50 (mkSensorReading 0 200 7.2 450 0.2 22))
    MLModel.new_detector
  = MLModel.update_baseline (fun _ => 0) (fun _ => 0) (fun _ => 0) (fun _ _ => 0)
      (replicate 50 (mkSensorReading 0 200 7.2 450 0.2 22))
      MLModel.new_detector.
Proof.
  apply (update_baseline_window (fun _ => 0) (fun _ => 0) (fun _ => 0) (fun _ _ => 0)
           [mkSensorReading 0 900 3 50 7 22]
           (replicate 50 (mkSensorReading 0 200 7.2 450 0.2 22)) []
           MLModel.new_detector).
  reflexivity.
Defined.

(** ** [ml_model.py]: the entries of the detector *)

Lemma odict_set_keys_new {K V : Type} `{EqDecision K} (k : K) (v : V)
  (d : list (K * V)) :
  k ∉ map fst d -> map fst (odict_set k v d) = map fst d ++ [k].
Proof.
  induction d as [|[k' v'] d IH]; simpl; [done |].
  intros Hnot. apply not_elem_of_cons in Hnot as [Hne Hnot].
  rewrite decide_False by done. simpl. by rewrite IH.
Qed.

Lemma odict_set_keys_old {K V : Type} `{EqDecision K} (k : K) (v : V)
  (d : list (K * V)) :
  k ∈ map fst d -> map fst (odict_set k v d) = map fst d.
Proof.
  induction d as [|[k' v'] d IH]; simpl; [by intros ?%elem_of_nil |].
  intros Hin. destruct (decide (k = k')) as [->|Hne]; [done |].
  simpl. f_equal. apply IH.
  apply elem_of_cons in Hin as [?|?]; [done | assumption].
Qed.

Lemma detect_param_keys (self : MLModel.AnomalyDetector) (r : SensorReading Q)
  (acc : MLModel.detection) (p : MLModel.param) :
  MLModel.param_name p ∉ map fst (MLModel.anomalies acc) ->
  map fst (MLModel.anomalies (MLModel.detect_param self r acc p))
  = map fst (MLModel.anomalies acc)
    ++ (if flagged self r p then [MLModel.param_name p] else []).
Proof.
  intros Hnew.
  unfold MLModel.detect_param, flagged, param_verdict, absolute_check,
    sigma_outlier, iqr_deviation. cbv zeta.
  destruct (_ || _); cbn [MLModel.anomalies]; [by apply odict_set_keys_new |].
  destruct (MLModel.baseline_stats self !! MLModel.param_name p) as [stats|];
    [| by rewrite app_nil_r].
  destruct (Qgt_bool (Qabs (MLModel.getattr r p - MLModel.mean stats))
              (3 * MLModel.std stats)),
    (Qgt_bool (Qabs (MLModel.getattr r p - MLModel.median stats))
       (2 * (MLModel.q75 stats - MLModel.q25 stats)));
    cbn [MLModel.anomalies MLModel.np_warnings].
  - rewrite odict_set_keys_old, odict_set_keys_new; try done.
    rewrite odict_set_keys_new by done. apply elem_of_app. right. by left.
  - by apply odict_set_keys_new.
  - by apply odict_set_keys_new.
  - by rewrite app_nil_r.
Qed.

Lemma detect_fold_keys (self : MLModel.AnomalyDetector) (r : SensorReading Q)
  (ps : list MLModel.param) (acc : MLModel.detection) :
  NoDup ps ->
  (forall p, p ∈ ps -> MLModel.param_name p ∉ map fst (MLModel.anomalies acc)) ->
  map fst (MLModel.anomalies (foldl (MLModel.detect_param self r) acc ps))
  = map fst (MLModel.anomalies acc)
    ++ map MLModel.param_name (List.filter (flagged self r) ps).
Proof.
  revert acc. induction ps as [|p ps IH]; intros acc Hnd Hnew.
  - simpl. by rewrite app_nil_r.
  - apply NoDup_cons in Hnd as [Hp Hnd].
    assert (Hstep := detect_param_keys self r acc p (Hnew p ltac:(by left))).
    cbn [foldl List.filter]. rewrite IH; [| done |].
    + rewrite Hstep. destruct (flagged self r p); cbn [map];
        by rewrite <- app_assoc.
    + intros q Hq. rewrite Hstep. intros [Hin|Hin]%elem_of_app.
      * by apply (Hnew q ltac:(by right)).
      * destruct (flagged self r p); [| by apply elem_of_nil in Hin].
        apply list_elem_of_singleton in Hin. apply param_name_inj in Hin.
        by subst.
Qed.

(** X14: The dictionary returned by [AnomalyDetector.detect_anomalies] lists the
    flagged parameters once each, in the order tds, ph, orp, turbidity,
    temperature, even when both statistical tests write the entry. *)
Theorem detect_anomalies_keys (self : MLModel.AnomalyDetector)
  (r : SensorReading Q) :
  map fst (MLModel.detect_anomalies self r)
  = map MLModel.param_name (List.filter (flagged self r) MLModel.all_params).
Proof.
  unfold MLModel.detect_anomalies, MLModel.detect_run.
  rewrite detect_fold_keys; [done | |].
  - unfold MLModel.all_params.
    repeat (apply NoDup_cons; split;
            [rewrite ?not_elem_of_cons; repeat split;
             first [discriminate | apply not_elem_of_nil] |]).
    apply NoDup_nil_2.
  - intros p _. apply not_elem_of_nil.
Qed.

(** ** [ml_model.py]: the fields of a prediction *)

(** X15: For a non-empty sequence of readings the prediction of the fitted
    predictor has a saturation in [0, 100] and a non-negative number of
    days left; when [replacement_needed] is set, the days left are 0, the
    confidence is "high" and the saturation is at least 80; when it is not
    set, the saturation is at most 80. *)
Theorem forest_prediction_consistent
  (forest : list (SensorReading Q) -> Q -> Z -> Q)
  (r : SensorReading Q) (rest : list (SensorReading Q)) (usage : Q) (days : Z) :
  exists s d needed c,
    MLModel.predict_saturation forest (r :: rest) usage days
      = FilterPrediction s d needed c
    /\ 0 <= s /\ s <= 100 /\ 0 <= d
    /\ (needed = true -> d == 0 /\ c = "high"%string /\ 80 <= s)
    /\ (needed = false -> s <= 80).
Proof.
  unfold MLModel.predict_saturation. cbv zeta.
  set (sat := py_max 0 (py_min 100 (forest (r :: rest) usage days))).
  assert (Hrange : 0 <= sat /\ sat <= 100).
  { unfold sat.
    destruct (py_min_spec 100 (forest (r :: rest) usage days)) as [[H1 ->]|[H1 ->]];
      destruct (py_max_spec 0 (forest (r :: rest) usage days)) as [[H2 E]|[H2 E]];
      destruct (py_max_spec 0 100) as [[H3 E']|[H3 E']];
      rewrite ?E, ?E'; lra. }
  pose proof (py_round1_bounds sat 0 100) as Hbnd.
  change (inject_Z 0) with 0 in Hbnd. change (inject_Z 100) with 100 in Hbnd.
  eexists _, _, _, _. split; [reflexivity |].
  split; [tauto |]. split; [tauto |].
  destruct (Qlt_bool sat 80) eqn:Elt.
  - assert (Hle : Qle_bool 80 sat = false).
    { apply Qle_bool_false. by apply Qlt_bool_iff. }
    rewrite Hle. qprops.
    split; [| split; [discriminate |]].
    + set (x := py_max 0 _).
      assert (H0 : 0 <= x) by (unfold x; destruct (py_max_spec 0
        ((80 - sat) / py_max 1 (sat / py_max 1 (inject_Z days)))) as [[H ->]|[H ->]]; lra).
      apply (py_round1_bounds x 0 (Qceiling x)); [exact H0 | apply Qle_ceiling].
    + intros _. change 80 with (inject_Z 80).
      apply (py_round1_bounds sat (Qfloor sat) 80); [apply Qfloor_le |].
      change (inject_Z 80) with 80. lra.
  - assert (Hle : Qle_bool 80 sat = true).
    { apply Qle_bool_iff. by apply Qlt_bool_false. }
    rewrite Hle. qprops.
    split; [apply Qle_bool_iff; reflexivity |]. split; [| discriminate].
    intros _. split; [reflexivity |]. split.
    + assert (Hgt : Qgt_bool sat 20 = true) by (apply Qlt_bool_iff; lra).
      by rewrite Hgt.
    + change 80 with (inject_Z 80).
      apply (py_round1_bounds sat 80 (Qceiling sat)); [| apply Qle_ceiling].
      change (inject_Z 80) with 80. lra.
Qed.

(** ** [ml_model_simple.py] against [ml_model.py] *)

(** X16: Every parameter the simple detector flags on a reading object is
    flagged by the full detector too, whatever its baseline. *)
Theorem simple_anomalies_also_flagged (self : MLModel.AnomalyDetector)
  (r : SensorReading Q) (k : string) :
  is_Some (odict_get k (MLSimple.detect_anomalies (MLSimple.Obj r))) ->
  is_Some (odict_get k (MLModel.detect_anomalies self r)).
Proof.
  assert (Habs : forall p,
    absolute_check r p <> None ->
    is_Some (odict_get (MLModel.param_name p) (MLModel.detect_anomalies self r))).
  { intros p Hp. rewrite detect_anomalies_lookup. unfold param_verdict.
    destruct (absolute_check r p); [by eexists | done]. }
  unfold MLSimple.detect_anomalies. cbv zeta. cbn [MLSimple.field].
  destruct (Qlt_bool (tds r) 50 || Qgt_bool (tds r) 800) eqn:Etds;
    destruct (Qlt_bool (ph r) 6 || Qgt_bool (ph r) 9) eqn:Eph;
    destruct (Qlt_bool (orp r) 100 || Qgt_bool (orp r) 900) eqn:Eorp;
    destruct (Qgt_bool (turbidity r) 5) eqn:Eturb;
    cbn [odict_set odict_get]; repeat (case_decide; cbn [odict_get odict_set]);
    try (by intros [? [=]]); intros _; subst k.
  all: first
    [ apply (Habs MLModel.TDS); unfold absolute_check; cbv zeta;
      cbn [MLModel.getattr MLModel.anomaly_thresholds fst snd];
      by rewrite Etds
    | apply (Habs MLModel.PH); unfold absolute_check; cbv zeta;
      cbn [MLModel.getattr MLModel.anomaly_thresholds fst snd];
      by rewrite Eph
    | apply (Habs MLModel.ORP); unfold absolute_check; cbv zeta;
      cbn [MLModel.getattr MLModel.anomaly_thresholds fst snd];
      by rewrite Eorp
    | apply (Habs MLModel.TURBIDITY); unfold absolute_check; cbv zeta;
      cbn [MLModel.getattr MLModel.anomaly_thresholds fst snd];
      rewrite Eturb; by rewrite orb_true_r ].
Qed.

Lemma simple_anomalies_also_flagged_witness :
  is_Some (odict_get "tds"%string
             (MLModel.detect_anomalies MLModel.new_detector
                (mkSensorReading 0 900 7 400 0.3 22))).
Proof.
  apply (simple_anomalies_also_flagged MLModel.new_detector
           (mkSensorReading 0 900 7 400 0.3 22) "tds").
  vm_compute. eexists. reflexivity.
Defined.

(** ** [main.py]: the WebSocket manager *)

Lemma failed_sends (send : nat -> py unit) (l acc : list nat) :
  foldl (fun disconnected connection =>
           match send connection with
           | Ok _ => disconnected
           | Raise _ => disconnected ++ [connection]
           end) acc l
  = acc ++ List.filter (fun c => negb (delivered send c)) l.
Proof.
  revert acc. induction l as [|c l IH]; intros acc; simpl.
  - by rewrite app_nil_r.
  - rewrite IH. unfold delivered. destruct (send c); simpl; [done |].
    by rewrite <- app_assoc.
Qed.

Lemma remove_first_app (x : nat) (pre l : list nat) :
  x ∉ pre -> Main.remove_first x (pre ++ x :: l) = pre ++ l.
Proof.
  induction pre as [|y pre IH]; simpl; intros Hnot.
  - by rewrite decide_True.
  - apply not_elem_of_cons in Hnot as [Hne Hnot].
    rewrite decide_False by done. by rewrite IH.
Qed.

Lemma disconnect_failed (send : nat -> py unit) (l pre : list nat) :
  Forall (fun c => delivered send c = true) pre ->
  Main.active_connections
    (foldl (fun m conn => Main.disconnect conn m) (Main.mkManager (pre ++ l))
       (List.filter (fun c => negb (delivered send c)) l))
  = pre ++ List.filter (delivered send) l.
Proof.
  revert pre. induction l as [|c l IH]; intros pre Hpre; [done |].
  cbn [List.filter]. destruct (delivered send c) eqn:Ec; cbn [negb].
  - replace (pre ++ c :: l) with ((pre ++ [c]) ++ l) by (by rewrite <- app_assoc).
    rewrite IH; [by rewrite <- app_assoc |].
    apply Forall_app. split; [done |]. by apply Forall_singleton.
  - cbn [foldl]. unfold Main.disconnect at 2. cbn [Main.active_connections].
    rewrite decide_True by (apply elem_of_app; right; by left).
    rewrite remove_first_app; [by apply IH |].
    intros Hin. rewrite Forall_forall in Hpre. specialize (Hpre c Hin). congruence.
Qed.

(** X17: After a broadcast the manager holds exactly the connections the
    message reached, in their former order: every connection whose send
    failed is gone, and no other one is. *)
Theorem broadcast_keeps_delivered (send : nat -> py unit) (m : Main.WebSocketManager) :
  Main.active_connections (Main.broadcast send m)
  = List.filter (delivered send) (Main.active_connections m).
Proof.
  unfold Main.broadcast. destruct m as [l]. cbn [Main.active_connections].
  destruct l as [|c l]; [done |].
  cbv zeta. rewrite (failed_sends send (c :: l) []). cbn [app].
  apply (disconnect_failed send (c :: l) []). constructor.
Qed.

(** ** [main.py]: the routes *)

(** X18: [GET /sensors/history] answers with the stored readings, their number
    and [hours] when [hours] is between 1 and 168; for every other value
    the status 400 raised in the body never leaves the handler: the answer
    is status 500, with the text of the 400 inside its detail. *)
Theorem history_route_outcome (str_of : Main.raised -> string)
  (get_recent_readings : Z -> list (SensorReading pyfloat)) (hours : Z) :
  ((1 <= hours <= 168)%Z ->
   Main.get_sensor_history str_of get_recent_readings hours
   = Main.Reply (get_recent_readings hours, length (get_recent_readings hours), hours))
  /\ (~ (1 <= hours <= 168)%Z ->
      Main.get_sensor_history str_of get_recent_readings hours
      = Main.Abort
          (Main.HTTPException 500
             ("Failed to get sensor history" +:+ ": "
              +:+ str_of (Main.HTTPException 400 "Hours must be between 1 and 168")))).
Proof.
  unfold Main.get_sensor_history. split; intros H.
  - replace ((hours <? 1)%Z || (168 <? hours)%Z) with false; [done |].
    symmetry. apply orb_false_iff. split; apply Z.ltb_ge; lia.
  - replace ((hours <? 1)%Z || (168 <? hours)%Z) with true; [done |].
    symmetry. apply orb_true_iff.
    destruct (Z.ltb_spec hours 1); [by left |]. right. apply Z.ltb_lt. lia.
Qed.

Lemma history_route_outcome_witness :
  Main.get_sensor_history (fun _ => "400: Hours must be between 1 and 168"%string)
    (fun _ => []) 0
  = Main.Abort
      (Main.HTTPException 500
         "Failed to get sensor history: 400: Hours must be between 1 and 168").
Proof.
  apply (history_route_outcome
           (fun _ => "400: Hours must be between 1 and 168"%string) (fun _ => []) 0).
  lia.
Defined.

(** ** [controller.py]: the valve and its hourly limit *)

Lemma send_command_keeps_count (command : string) (e : Controller.exchange)
  (c : Controller.HardwareController) :
  Controller.valve_operation_count (Controller._send_command command e c).2
  = Controller.valve_operation_count c
  /\ Controller.valve_count_reset_time (Controller._send_command command e c).2
     = Controller.valve_count_reset_time c.
Proof.
  unfold Controller._send_command, Controller._simulate_command. cbv zeta.
  destruct (negb (Controller.serial_open c)).
  - destruct (String.eqb command _); [done |].
    destruct (String.eqb command _); [done |].
    by destruct (bool_decide _).
  - by destruct (Controller.write_result e).
Qed.

Lemma control_valve_step (py_upper : string -> string) (action : string)
  (e : Controller.exchange) (c : Controller.HardwareController) :
  Controller.now e - Controller.valve_count_reset_time c <= 3600 ->
  Controller.valve_count_reset_time (Controller.control_valve py_upper action e c).2
  = Controller.valve_count_reset_time c
  /\ Controller.valve_operation_count (Controller.control_valve py_upper action e c).2
     = (Controller.valve_operation_count c
        + if is_valve_done (Controller.control_valve py_upper action e c).1
          then 1 else 0)%Z
  /\ (is_valve_done (Controller.control_valve py_upper action e c).1 = true ->
      (Controller.valve_operation_count c < 100)%Z).
Proof.
  intros Hwindow. unfold Controller.control_valve.
  destruct (negb (bool_decide _)); [cbn; repeat split; [lia | discriminate] |].
  unfold Controller._check_valve_safety_limits. cbv zeta.
  assert (Hkeep : Qlt_bool 3600
                    (Controller.now e - Controller.valve_count_reset_time c) = false)
    by (by apply Qlt_bool_false).
  rewrite Hkeep. unfold Controller.max_valve_operations_per_hour.
  destruct (Z.ltb_spec (Controller.valve_operation_count c) 100) as [Hlt|Hge];
    cbn [negb]; [| cbn; repeat split; [lia | discriminate]].
  destruct (send_command_keeps_count action e (Controller.set_status Controller.BUSY c))
    as [Hcount Hreset].
  destruct (Controller._send_command action e
              (Controller.set_status Controller.BUSY c)) as [success c1].
  cbn in Hcount, Hreset.
  destruct success; [| cbn; repeat split; [done | lia | discriminate]].
  destruct (Controller.acknowledged py_upper (Controller._read_response e c1));
    cbn; repeat split; try done; try lia; discriminate.
Qed.

Lemma valve_calls_count (py_upper : string -> string)
  (calls : list (string * Controller.exchange)) (c : Controller.HardwareController) :
  (Controller.valve_operation_count c <= 100)%Z ->
  Forall (fun call =>
            Controller.now call.2 - Controller.valve_count_reset_time c <= 3600)
    calls ->
  Controller.valve_count_reset_time (valve_calls py_upper calls c).2
  = Controller.valve_count_reset_time c
  /\ Controller.valve_operation_count (valve_calls py_upper calls c).2
     = (Controller.valve_operation_count c
        + Z.of_nat (length (List.filter is_valve_done
                              (valve_calls py_upper calls c).1)))%Z
  /\ (Controller.valve_operation_count (valve_calls py_upper calls c).2 <= 100)%Z.
Proof.
  revert c. induction calls as [|[action e] calls IH]; intros c Hmax Hwindow.
  - cbn. repeat split; lia.
  - apply Forall_cons in Hwindow as [Hnow Hwindow]. cbn [snd] in Hnow.
    destruct (control_valve_step py_upper action e c Hnow) as (Hreset & Hcount & Hdone).
    cbn [valve_calls].
    destruct (Controller.control_valve py_upper action e c) as [r c1].
    cbn [fst snd] in Hreset, Hcount, Hdone.
    destruct (IH c1) as (Hreset' & Hcount' & Hmax').
    { rewrite Hcount. destruct (is_valve_done r); [specialize (Hdone eq_refl) |]; lia. }
    { eapply Forall_impl; [exact Hwindow |]. intros call Hcall. cbn beta in *.
      by rewrite Hreset. }
    destruct (valve_calls py_upper calls c1) as [rs c2].
    cbn [fst snd] in *. cbn [List.filter].
    split; [congruence |].
    destruct (is_valve_done r); cbn [length]; lia.
Qed.

(** X19: As long as the hour that started at the last reset of the counter has
    not passed, the valve commands that succeed are counted one by one,
    and there are at most 100 minus the count at the start of them,
    whatever the commands and whatever the hardware answers. *)
Theorem valve_rate_limit (py_upper : string -> string)
  (calls : list (string * Controller.exchange)) (c : Controller.HardwareController) :
  (Controller.valve_operation_count c <= 100)%Z ->
  Forall (fun call =>
            Controller.now call.2 - Controller.valve_count_reset_time c <= 3600)
    calls ->
  (Z.of_nat (length (List.filter is_valve_done (valve_calls py_upper calls c).1))
   <= 100 - Controller.valve_operation_count c)%Z
  /\ Controller.valve_operation_count (valve_calls py_upper calls c).2
     = (Controller.valve_operation_count c
        + Z.of_nat (length (List.filter is_valve_done
                              (valve_calls py_upper calls c).1)))%Z.
Proof.
  intros Hmax Hwindow.
  destruct (valve_calls_count py_upper calls c Hmax Hwindow) as (_ & Hcount & Hle).
  split; [lia | exact Hcount].
Qed.

Lemma valve_rate_limit_witness :
  (Z.of_nat
     (length
        (List.filter is_valve_done
           (valve_calls (fun s => s)
              [("0"%string, Controller.mkExchange 10 (Ok tt) (Ok "OK"%string));
               ("C"%string, Controller.mkExchange 20 (Ok tt) (Ok "OK"%string))]
              (Controller.mkController false Controller.READY Controller.UNKNOWN
                 Controller.STOP None [] 99 0)).1))
   <= 100 - 99)%Z.
Proof.
  apply (valve_rate_limit (fun s => s)
           [("0"%string, Controller.mkExchange 10 (Ok tt) (Ok "OK"%string));
            ("C"%string, Controller.mkExchange 20 (Ok tt) (Ok "OK"%string))]
           (Controller.mkController false Controller.READY Controller.UNKNOWN
              Controller.STOP None [] 99 0)).
  - cbn. lia.
  - repeat constructor; vm_compute; discriminate.
Defined.

(** ** [controller.py]: the emergency stop *)

(** X20: Once the "STOP" command has gone out (or there is no serial
    connection), [emergency_stop] reports the valve closed and the filter
    stopped and records both in the controller, whether or not the command
    that closes the valve could be written; the hourly limit of the valve
    plays no part, and the counter of valve operations is left as it
    was.  When "STOP" cannot be written, nothing changes. *)
Theorem emergency_stop_reports_closed (e_stop e_close : Controller.exchange)
  (c : Controller.HardwareController) :
  (Controller.serial_open c = false \/ Controller.write_result e_stop = Ok tt ->
   (Controller.emergency_stop e_stop e_close c).1
   = Controller.EmergencyDone "C" "s" (Controller.now e_close)
   /\ Controller.valve_state (Controller.emergency_stop e_stop e_close c).2
      = Controller.CLOSED
   /\ Controller.filter_position (Controller.emergency_stop e_stop e_close c).2
      = Controller.STOP
   /\ Controller.status (Controller.emergency_stop e_stop e_close c).2
      = Controller.READY
   /\ Controller.valve_operation_count (Controller.emergency_stop e_stop e_close c).2
      = Controller.valve_operation_count c)
  /\ (Controller.serial_open c = true ->
      (exists x, Controller.write_result e_stop = Raise x) ->
      Controller.emergency_stop e_stop e_close c
      = (Controller.Failure "Failed to send emergency stop command" None, c)).
Proof.
  unfold Controller.emergency_stop. split.
  - intros Hsent.
    assert (Hfirst : (Controller._send_command "STOP" e_stop c).1 = true).
    { unfold Controller._send_command. destruct Hsent as [-> | ->]; [done |].
      by destruct (negb (Controller.serial_open c)). }
    destruct (send_command_keeps_count "STOP" e_stop c) as [Hcount _].
    destruct (Controller._send_command "STOP" e_stop c) as [success c1].
    cbn [fst snd] in Hfirst, Hcount. subst success.
    destruct (send_command_keeps_count (Controller.valve_value Controller.CLOSED)
                e_close c1) as [Hcount' _].
    destruct (Controller._send_command (Controller.valve_value Controller.CLOSED)
                e_close c1) as [closed c2].
    cbn [fst snd] in Hcount'. cbn. repeat split. congruence.
  - intros Hopen [x Hx]. unfold Controller._send_command.
    by rewrite Hopen, Hx.
Qed.

Lemma emergency_stop_reports_closed_witness :
  (Controller.emergency_stop
     (Controller.mkExchange 10 (Ok tt) (Ok "OK"%string))
     (Controller.mkExchange 11 (Raise ValueError) (Raise ValueError))
     (Controller.mkController true Controller.READY Controller.OPEN
        Controller.FORWARD None [] 0 0)).1
  = Controller.EmergencyDone "C" "s" 11.
Proof.
  apply (emergency_stop_reports_closed
           (Controller.mkExchange 10 (Ok tt) (Ok "OK"%string))
           (Controller.mkExchange 11 (Raise ValueError) (Raise ValueError))
           (Controller.mkController true Controller.READY Controller.OPEN
              Controller.FORWARD None [] 0 0)).
  right. reflexivity.
Defined.

(** ** [controller.py]: the drone *)

(** X21: With the drone available and valid coordinates, a dispatch in the last
    quarter of an hour (minute 45 to 59) fails with the [ValueError] of
    [datetime.replace]: no mission is stored and the drone stays
    available, but the mission counter has advanced.  In the first three
    quarters it succeeds: the drone is dispatched, one completion task is
    created, and [get_mission_status] finds the mission under the id that
    was returned. *)
Theorem dispatch_depends_on_minute (lat lon : Q) (kind : string)
  (k : Controller.clock) (d : Controller.DroneController) :
  Controller.drone_status d = "available"%string ->
  -90 <= lat /\ lat <= 90 -> -180 <= lon /\ lon <= 180 ->
  (0 <= Controller.minute k <= 59)%Z ->
  ((45 <= Controller.minute k)%Z ->
   Controller.dispatch_drone lat lon kind k d
   = (Controller.Failure "minute must be in 0..59" None,
      Controller.mkDrone (Controller.active_missions d) "available"
        (Controller.mission_counter d + 1),
      []))
  /\ ((Controller.minute k < 45)%Z ->
      exists d' m,
        Controller.dispatch_drone lat lon kind k d
        = (Controller.DroneDone (Controller.mission_counter d + 1)
             (Controller.unix_time k) kind lat lon (Controller.minute k + 15),
           d', [(Controller.mission_counter d + 1, Controller.unix_time k)%Z])
        /\ Controller.drone_status d' = "dispatched"%string
        /\ Controller.mission_counter d' = (Controller.mission_counter d + 1)%Z
        /\ Controller.get_mission_status
             (Controller.mission_counter d + 1, Controller.unix_time k)%Z d'
           = inl m
        /\ Controller.mission_status m = "dispatched"%string
        /\ Controller.latitude m = lat /\ Controller.longitude m = lon).
Proof.
  intros Havailable [Hlat1 Hlat2] [Hlon1 Hlon2] Hrange.
  unfold Controller.dispatch_drone. rewrite Havailable.
  change (negb ("available" =? "available")%string) with false. cbv iota.
  assert (Elat1 : Qle_bool (-90) lat = true) by (by apply Qle_bool_iff).
  assert (Elat2 : Qle_bool lat 90 = true) by (by apply Qle_bool_iff).
  assert (Elon1 : Qle_bool (-180) lon = true) by (by apply Qle_bool_iff).
  assert (Elon2 : Qle_bool lon 180 = true) by (by apply Qle_bool_iff).
  rewrite Elat1, Elat2, Elon1, Elon2. cbn [andb negb orb]. cbv zeta.
  cbn [Controller.mission_counter Controller.active_missions Controller.drone_status].
  split; intros Hminute.
  - replace (59 <? Controller.minute k + 15)%Z with true
      by (symmetry; apply Z.ltb_lt; lia).
    reflexivity.
  - replace (59 <? Controller.minute k + 15)%Z with false
      by (symmetry; apply Z.ltb_ge; lia).
    eexists _, _. split; [reflexivity |].
    unfold Controller.get_mission_status.
    cbn [Controller.active_missions Controller.drone_status
         Controller.mission_counter].
    rewrite odict_get_set_eq. by repeat split.
Qed.

Lemma dispatch_depends_on_minute_witness :
  Controller.dispatch_drone 40.7128 (-74.006) "emergency_supply"
    (Controller.mkClock 0 1700000000 50) Controller.new_drone
  = (Controller.Failure "minute must be in 0..59" None,
     Controller.mkDrone [] "available" 1, []).
Proof.
  apply (dispatch_depends_on_minute 40.7128 (-74.006) "emergency_supply"
           (Controller.mkClock 0 1700000000 50) Controller.new_drone eq_refl).
  - split; vm_compute; discriminate.
  - split; vm_compute; discriminate.
  - cbn. lia.
  - cbn. lia.
Defined.

(** ** [controller.py]: commands of type "drone" *)

(** X22: A "drone" command other than "dispatch" yields no result at all (the
    call returns [None]) and changes nothing; a "dispatch" whose latitude
    or longitude is 0 is answered "Missing coordinates", as if the
    coordinate had not been given, and changes nothing either. *)
Theorem drone_command_edge_cases (py_upper : string -> string)
  (command : string) (lat lon : Q) (latitude longitude : option Q)
  (env : Controller.call_env) (sys : Controller.system) :
  (command <> "dispatch"%string ->
   Controller.process_control_command py_upper "drone" command latitude longitude
     env sys
   = (None, sys))
  /\ (lat == 0 \/ lon == 0 ->
      Controller.process_control_command py_upper "drone" "dispatch"
        (Some lat) (Some lon) env sys
      = (Some (Controller.Failure "Missing coordinates" None), sys)).
Proof.
  unfold Controller.process_control_command.
  change ("drone" =? "valve")%string with false.
  change ("drone" =? "filter")%string with false.
  change ("drone" =? "drone")%string with true. cbv iota.
  split.
  - intros Hne. by apply String.eqb_neq in Hne as ->.
  - intros Hzero. change ("dispatch" =? "dispatch")%string with true. cbv iota.
    unfold Controller.truthy.
    destruct Hzero as [Hz|Hz]; apply Qeq_bool_iff in Hz; rewrite Hz; cbn [negb andb];
      [done | by rewrite andb_false_r].
Qed.

Lemma drone_command_edge_cases_witness :
  Controller.process_control_command (fun s => s) "drone" "dispatch"
    (Some 0) (Some 36.8)
    (Controller.mkEnv (Controller.mkExchange 0 (Ok tt) (Ok "OK"%string))
       (Controller.mkExchange 0 (Ok tt) (Ok "OK"%string))
       (Controller.mkClock 0 0 0))
    (Controller.mkSystem
       (Controller.mkController false Controller.READY Controller.UNKNOWN
          Controller.STOP None [] 0 0)
       Controller.new_drone [])
  = (Some (Controller.Failure "Missing coordinates" None),
     Controller.mkSystem
       (Controller.mkController false Controller.READY Controller.UNKNOWN
          Controller.STOP None [] 0 0)
       Controller.new_drone []).
Proof.
  apply (drone_command_edge_cases (fun s => s) "dispatch" 0 36.8 None None
           (Controller.mkEnv (Controller.mkExchange 0 (Ok tt) (Ok "OK"%string))
              (Controller.mkExchange 0 (Ok tt) (Ok "OK"%string))
              (Controller.mkClock 0 0 0))
           (Controller.mkSystem
              (Controller.mkController false Controller.READY Controller.UNKNOWN
                 Controller.STOP None [] 0 0)
              Controller.new_drone [])).
  left. reflexivity.
Defined.

(** ** [controller.py]: one mission at a time *)

Lemma odict_set_fresh {K V : Type} `{EqDecision K} (k : K) (v : V)
  (d : list (K * V)) :
  k ∉ map fst d -> odict_set k v d = d ++ [(k, v)].
Proof.
  induction d as [|[k' v'] d IH]; simpl; [done |].
  intros [Hne Hnot]%not_elem_of_cons.
  rewrite decide_False by done. by rewrite IH.
Qed.

Lemma odict_get_middle {K V : Type} `{EqDecision K} (k : K) (v : V)
  (pre post : list (K * V)) :
  k ∉ map fst pre -> odict_get k (pre ++ (k, v) :: post) = Some v.
Proof.
  induction pre as [|[k' v'] pre IH]; simpl.
  - intros _. by rewrite decide_True.
  - intros [Hne Hnot]%not_elem_of_cons. rewrite decide_False by done. by apply IH.
Qed.

Lemma odict_set_middle {K V : Type} `{EqDecision K} (k : K) (v v' : V)
  (pre post : list (K * V)) :
  k ∉ map fst pre ->
  odict_set k v' (pre ++ (k, v) :: post) = pre ++ (k, v') :: post.
Proof.
  induction pre as [|[k0 v0] pre IH]; simpl.
  - intros _. by rewrite decide_True.
  - intros [Hne Hnot]%not_elem_of_cons. rewrite decide_False by done.
    by rewrite IH.
Qed.

Lemma dispatch_keeps_invariant (lat lon : Q) (kind : string) (k : Controller.clock)
  (st : Controller.DroneController * list Controller.mission_id) :
  drone_invariant st -> drone_invariant (drone_step st (DispatchRequest lat lon kind k)).
Proof.
  destruct st as [d pending]. intros [Hfresh Hshape].
  cbn [drone_step fst snd] in *. unfold Controller.dispatch_drone.
  destruct (negb (String.eqb (Controller.drone_status d) "available")) eqn:Estatus.
  { rewrite app_nil_r. by split. }
  destruct (negb (Qle_bool (-90) lat && Qle_bool lat 90)
            || negb (Qle_bool (-180) lon && Qle_bool lon 180)).
  { rewrite app_nil_r. by split. }
  apply negb_false_iff, String.eqb_eq in Estatus.
  assert (Hfresh' : Forall (fun km : Controller.mission_id * Controller.mission =>
                              (km.1.1 <= Controller.mission_counter d + 1)%Z)
                      (Controller.active_missions d)).
  { eapply Forall_impl; [exact Hfresh |]. intros km Hkm. cbn beta in *. lia. }
  cbv zeta.
  cbn [Controller.mission_counter Controller.active_missions Controller.drone_status].
  destruct (59 <? Controller.minute k + 15)%Z.
  { rewrite app_nil_r. split; [exact Hfresh' |].
    destruct pending as [|mid [|? ?]]; [| | done].
    - by cbn.
    - destruct Hshape as [Hdispatched _]. congruence. }
  destruct pending as [|mid [|? ?]]; [| | done].
  - destruct Hshape as [_ Hcompleted].
    assert (Hnew : (Controller.mission_counter d + 1, Controller.unix_time k)%Z
                   ∉ map fst (Controller.active_missions d)).
    { intros Hin. apply list_elem_of_fmap in Hin as ([key m] & Hkey & Hin).
      rewrite Forall_forall in Hfresh. specialize (Hfresh _ Hin).
      cbn in Hkey, Hfresh. subst key. cbn in Hfresh. lia. }
    rewrite (odict_set_fresh _ _ _ Hnew).
    cbn [app fst snd Controller.mission_counter Controller.active_missions
         Controller.drone_status]. split.
    + apply Forall_app. split; [exact Hfresh' |]. apply Forall_singleton. cbn. lia.
    + split; [done |]. eexists _, [], _. split; [reflexivity |].
      cbn [Controller.mission_status]. by repeat split.
  - destruct Hshape as [Hdispatched _]. congruence.
Qed.

Lemma completion_keeps_invariant (finished_at : Q)
  (st : Controller.DroneController * list Controller.mission_id) :
  drone_invariant st -> drone_invariant (drone_step st (TaskCompletes finished_at)).
Proof.
  destruct st as [d pending]. intros [Hfresh Hshape].
  cbn [drone_step fst snd] in *.
  destruct pending as [|mid [|? ?]]; [by split | | done].
  destruct Hshape as (Hstatus & pre & post & m & Hmissions & Hm & Hpre & Hpost & Hnot).
  unfold Controller._simulate_mission_completion.
  rewrite Hmissions, (odict_get_middle _ _ _ _ Hnot), (odict_set_middle _ _ _ _ _ Hnot).
  split; cbn [fst snd Controller.mission_counter Controller.active_missions
              Controller.drone_status].
  - rewrite Hmissions in Hfresh.
    apply Forall_app in Hfresh as [Hf1 Hf2]. apply Forall_cons in Hf2 as [Hf2 Hf3].
    apply Forall_app. split; [done |]. by apply Forall_cons.
  - split; [done |]. apply Forall_app. split; [done |]. by apply Forall_cons.
Qed.

Lemma drone_run_invariant (events : list drone_event) :
  drone_invariant (drone_run events).
Proof.
  unfold drone_run.
  assert (Hstart : drone_invariant (Controller.new_drone, [])) by (by repeat split).
  revert Hstart. generalize (Controller.new_drone, @nil Controller.mission_id).
  induction events as [|ev events IH]; intros st Hst; [done |].
  cbn [foldl]. apply IH.
  destruct ev; [by apply dispatch_keeps_invariant | by apply completion_keeps_invariant].
Qed.

Lemma completed_not_dispatched
  (missions : list (Controller.mission_id * Controller.mission)) :
  Forall completed missions ->
  List.filter (fun m => String.eqb (Controller.mission_status m) "dispatched")
    (map snd missions) = [].
Proof.
  induction 1 as [|[key m] missions Hm _ IH]; [done |].
  cbn [map snd List.filter]. unfold completed in Hm. cbn in Hm. rewrite Hm.
  exact IH.
Qed.

(** X23: From a fresh [DroneController], whatever is requested and whenever the
    completion tasks run, at most one mission is in the state "dispatched":
    the number [get_drone_status] reports as active is the number of
    completion tasks still asleep, never more than 1, and it is 0 exactly
    when the drone is "available". *)
Theorem one_mission_at_a_time (events : list drone_event) :
  (Controller.get_drone_status (drone_run events).1).1.1.2
  = length (drone_run events).2
  /\ (length (drone_run events).2 <= 1)%nat
  /\ ((Controller.get_drone_status (drone_run events).1).1.1.1 = "available"%string
      <-> (drone_run events).2 = []).
Proof.
  pose proof (drone_run_invariant events) as [_ Hshape].
  destruct (drone_run events) as [d pending]. cbn [fst snd] in *.
  unfold Controller.get_drone_status. cbn [fst snd].
  destruct pending as [|mid [|? ?]]; [| | destruct Hshape].
  - destruct Hshape as [Hstatus Hcompleted].
    rewrite (completed_not_dispatched _ Hcompleted). cbn.
    repeat split; first [done | lia].
  - destruct Hshape as (Hstatus & pre & post & m & -> & Hm & Hpre & Hpost & _).
    rewrite map_app, List.filter_app. cbn [map snd List.filter].
    rewrite (completed_not_dispatched _ Hpre), (completed_not_dispatched _ Hpost), Hm.
    cbn. repeat split; [lia | by rewrite Hstatus | done].
Qed.

(** ** [weather_integration.py]: the analysis *)

Lemma overall_risk_values (wd : Weather.weather_data) (area_type : string)
  (a : Weather.analysis) :
  Weather.analyze_current_conditions (Some wd) area_type = Weather.Analysed a ->
  Weather.overall_risk a = "high"%string
  \/ Weather.overall_risk a = "medium"%string
  \/ Weather.overall_risk a = "low"%string.
Proof.
  unfold Weather.analyze_current_conditions.
  destruct (Weather.is_empty wd); [discriminate |].
  destruct (default [Weather.mkEntry None None] (Weather.weather wd)) as [|first rest];
    [discriminate |].
  cbv zeta. intros [= <-]. cbn [Weather.overall_risk].
  destruct (bool_decide ("high"%string ∈ _)); [by left |].
  destruct (bool_decide ("medium"%string ∈ _)); [right; by left | right; by right].
Qed.

Lemma analysis_recommendations (wd : Weather.weather_data) (area_type : string)
  (a : Weather.analysis) :
  Weather.analyze_current_conditions (Some wd) area_type = Weather.Analysed a ->
  exists t h rf cond ws,
    Weather.temperature_impact a = Weather._analyze_temperature_impact t
    /\ Weather.humidity_impact a = Weather._analyze_humidity_impact h
    /\ Weather.rainfall_impact a = Weather._analyze_rainfall_impact rf area_type
    /\ Weather.air_quality_impact a = Weather._analyze_air_quality_impact cond ws
    /\ Weather.recommendations a
       = Weather._generate_recommendations
           (Weather.mkAnalysis (Weather.temperature_impact a)
              (Weather.humidity_impact a) (Weather.rainfall_impact a)
              (Weather.air_quality_impact a) (Weather.overall_risk a) []).
Proof.
  unfold Weather.analyze_current_conditions.
  destruct (Weather.is_empty wd); [discriminate |].
  destruct (default [Weather.mkEntry None None] (Weather.weather wd)) as [|first rest];
    [discriminate |].
  cbv zeta. intros [= <-].
  cbn [Weather.temperature_impact Weather.humidity_impact Weather.rainfall_impact
       Weather.air_quality_impact Weather.overall_risk Weather.recommendations].
  by eexists _, _, _, _, _.
Qed.

Lemma temperature_recommendations (t : Q) :
  Weather.impact_recommendations (Weather._analyze_temperature_impact t)
  ∈ [["Increase filtration time"; "Monitor flow rate"];
     ["Increase disinfection"; "Monitor microbial levels"]; []]%string.
Proof.
  unfold Weather._analyze_temperature_impact.
  destruct (Qlt_bool t 5); [| destruct (Qgt_bool t 30)]; cbn;
    repeat first [by left | right].
Qed.

Lemma humidity_recommendations (h : Q) :
  Weather.impact_recommendations (Weather._analyze_humidity_impact h)
  ∈ [["Check sensor calibration"; "Monitor for condensation"];
     ["Check electrical connections"]; []]%string.
Proof.
  unfold Weather._analyze_humidity_impact.
  destruct (Qgt_bool h 85); [| destruct (Qlt_bool h 30)]; cbn;
    repeat first [by left | right].
Qed.

Lemma rainfall_recommendations (rf : Q) (area_type : string) :
  Weather.impact_recommendations (Weather._analyze_rainfall_impact rf area_type)
  ∈ [[]; ["Continue normal operation"];
     ["Increase pre-filtration"; "Monitor turbidity closely"];
     ["Activate enhanced filtration"; "Increase monitoring frequency";
      "Consider alternative source"]]%string.
Proof.
  unfold Weather._analyze_rainfall_impact. cbv zeta.
  destruct (Qeq_bool rf 0); [| destruct (Qlt_bool _ 2.5); [| destruct (Qlt_bool _ 10)]];
    cbn; repeat first [by left | right].
Qed.

Lemma air_quality_recommendations (cond : string) (ws : Q) :
  Weather.impact_recommendations (Weather._analyze_air_quality_impact cond ws)
  ∈ [["Activate air filtration"; "Increase water pre-treatment"];
     ["Monitor pre-filters"; "Check intake protection"]; []]%string.
Proof.
  unfold Weather._analyze_air_quality_impact.
  destruct (bool_decide _); [| destruct (Qgt_bool ws 15)]; cbn;
    repeat first [by left | right].
Qed.

Ltac list_cases H :=
  repeat (apply elem_of_cons in H as [->|H]); [.. | by apply elem_of_nil in H].

(** X24: The removal of duplicates at the end of [_generate_recommendations]
    never removes anything: the recommendations of an analysis are those
    of the temperature, the humidity, the rainfall and the air quality, in
    this order, followed by those of the overall risk. *)
Theorem recommendations_are_concatenation (wd : Weather.weather_data)
  (area_type : string) (a : Weather.analysis) :
  Weather.analyze_current_conditions (Some wd) area_type = Weather.Analysed a ->
  Weather.recommendations a
  = Weather.impact_recommendations (Weather.temperature_impact a)
    ++ Weather.impact_recommendations (Weather.humidity_impact a)
    ++ Weather.impact_recommendations (Weather.rainfall_impact a)
    ++ Weather.impact_recommendations (Weather.air_quality_impact a)
    ++ escalation (Weather.overall_risk a).
Proof.
  intros Hrun.
  destruct (analysis_recommendations wd area_type a Hrun)
    as (t & h & rf & cond & ws & Ht & Hh & Hrf & Hair & ->).
  pose proof (temperature_recommendations t) as Rt. rewrite <- Ht in Rt.
  pose proof (humidity_recommendations h) as Rh. rewrite <- Hh in Rh.
  pose proof (rainfall_recommendations rf area_type) as Rr. rewrite <- Hrf in Rr.
  pose proof (air_quality_recommendations cond ws) as Ra. rewrite <- Hair in Ra.
  unfold Weather._generate_recommendations, escalation. cbv zeta.
  cbn [Weather.temperature_impact Weather.humidity_impact Weather.rainfall_impact
       Weather.air_quality_impact Weather.overall_risk].
  generalize dependent (Weather.impact_recommendations (Weather.temperature_impact a)).
  generalize dependent (Weather.impact_recommendations (Weather.humidity_impact a)).
  generalize dependent (Weather.impact_recommendations (Weather.rainfall_impact a)).
  generalize dependent (Weather.impact_recommendations (Weather.air_quality_impact a)).
  intros ra Ra rr Rr rh Rh rt Rt.
  destruct (overall_risk_values wd area_type a Hrun) as [-> | [-> | ->]];
    list_cases Rt; list_cases Rh; list_cases Rr; list_cases Ra;
    vm_compute; reflexivity.
Qed.

Lemma recommendations_are_concatenation_witness :
  exists a,
    Weather.analyze_current_conditions
      (Some (Weather.mkWeather (Some (Weather.mkMain (Some 33) (Some 90) None))
               (Some [Weather.mkEntry (Some "Rain"%string) None]) None
               (Some (Weather.mkRain (Some 12))) None false)) "urban"
    = Weather.Analysed a
    /\ length (Weather.recommendations a) = 10%nat.
Proof.
  eexists. split; [reflexivity |].
  rewrite (recommendations_are_concatenation
             (Weather.mkWeather (Some (Weather.mkMain (Some 33) (Some 90) None))
                (Some [Weather.mkEntry (Some "Rain"%string) None]) None
                (Some (Weather.mkRain (Some 12))) None false) "urban" _ eq_refl).
  reflexivity.
Defined.

(** ** [weather_integration.py]: heavy rain *)

Lemma pollution_factor_at_least_one (area_type : string) :
  1 <= Weather.pollution_factor area_type.
Proof.
  unfold Weather.pollution_factor.
  repeat match goal with
         | |- context [String.eqb area_type ?s] => destruct (String.eqb area_type s)
         end; lra.
Qed.

Lemma heavy_rain_risk (rf : Q) (area_type : string) :
  10 < rf -> Weather.risk (Weather._analyze_rainfall_impact rf area_type) = "high"%string.
Proof.
  intros Hrain. pose proof (pollution_factor_at_least_one area_type) as Hfactor.
  unfold Weather._analyze_rainfall_impact. cbv zeta.
  assert (Hzero : Qeq_bool rf 0 = false).
  { destruct (Qeq_bool rf 0) eqn:E; [| done]. apply Qeq_bool_iff in E. lra. }
  assert (Hlight : Qlt_bool (rf * Weather.pollution_factor area_type) 2.5 = false)
    by (apply Qlt_bool_false; nra).
  assert (Hmoderate : Qlt_bool (rf * Weather.pollution_factor area_type) 10 = false)
    by (apply Qlt_bool_false; nra).
  by rewrite Hzero, Hlight, Hmoderate.
Qed.

Lemma temperature_risk (t : Q) :
  Weather.risk (Weather._analyze_temperature_impact t) ∈ ["medium"; "low"]%string.
Proof.
  unfold Weather._analyze_temperature_impact.
  destruct (Qlt_bool t 5); [| destruct (Qgt_bool t 30)]; cbn;
    repeat first [by left | right].
Qed.

Lemma air_quality_risk (cond : string) (ws : Q) :
  Weather.risk (Weather._analyze_air_quality_impact cond ws)
  ∈ ["high"; "medium"; "low"]%string.
Proof.
  unfold Weather._analyze_air_quality_impact.
  destruct (bool_decide _); [| destruct (Qgt_bool ws 15)]; cbn;
    repeat first [by left | right].
Qed.

Lemma heavy_rain_overall_risk (wd : Weather.weather_data) (area_type : string) :
  10 < default 0 (Weather.rain wd ≫= Weather.one_hour) ->
  Weather.is_empty wd = false ->
  Weather.weather wd <> Some [] ->
  Weather.get_overall_risk
    (Weather.analyze_current_conditions (Some wd) area_type) = "high"%string.
Proof.
  intros Hrain Hnonempty Hlist. unfold Weather.analyze_current_conditions.
  rewrite Hnonempty.
  destruct (default [Weather.mkEntry None None] (Weather.weather wd))
    as [|first rest] eqn:Hfirst.
  { destruct (Weather.weather wd) as [[|? ?]|]; [done | done | done]. }
  cbv zeta.
  cbn [Weather.get_overall_risk Weather.overall_risk Weather.temperature_impact
       Weather.rainfall_impact Weather.air_quality_impact].
  rewrite (heavy_rain_risk _ area_type Hrain).
  pose proof (temperature_risk (default 20 (Weather.main wd ≫= Weather.temp))) as Rt.
  pose proof (air_quality_risk (default "Clear"%string (Weather.condition first))
                (default 0 (Weather.wind wd ≫= Weather.speed))) as Ra.
  generalize dependent
    (Weather.risk (Weather._analyze_temperature_impact
                     (default 20 (Weather.main wd ≫= Weather.temp)))).
  generalize dependent
    (Weather.risk (Weather._analyze_air_quality_impact
                     (default "Clear"%string (Weather.condition first))
                     (default 0 (Weather.wind wd ≫= Weather.speed)))).
  intros ra Ra rt Rt. list_cases Rt; list_cases Ra; reflexivity.
Qed.

Lemma adjustments_for_heavy_rain (res : Weather.analysis_result)
  (wd : Weather.weather_data) :
  10 < default 0 (Weather.rain wd ≫= Weather.one_hour) ->
  odict_get "pre_filtration"%string (Weather._generate_treatment_adjustments res wd)
  = Some "enhanced"%string
  /\ odict_get "backup_systems"%string (Weather._generate_treatment_adjustments res wd)
     = Some (if String.eqb (Weather.get_overall_risk res) "high" then "active"
             else if String.eqb (Weather.get_overall_risk res) "medium" then "ready"
             else "standby")%string.
Proof.
  intros Hrain.
  assert (H5 : Qgt_bool (default 0 (Weather.rain wd ≫= Weather.one_hour)) 5 = true)
    by (apply Qlt_bool_iff; lra).
  unfold Weather._generate_treatment_adjustments. cbv zeta. rewrite H5.
  destruct (String.eqb (Weather.get_overall_risk res) "high");
    [| destruct (String.eqb (Weather.get_overall_risk res) "medium")];
    destruct (Qgt_bool (default 20 (Weather.main wd ≫= Weather.temp)) 25);
    by split.
Qed.

(** X25: When the rainfall of the last hour is above 10 mm, the threshold of
    the "heavy_rainfall" alert, the location gets that alert and the
    treatment adjustments ask for enhanced pre-filtration.  If the
    ['weather'] list of the data is not empty, [get_treatment_recommendations]
    returns a report whose overall risk is "high", in every area type, and
    whose backup systems are "active".  If the list is empty, the analysis
    is an error, the adjustments computed from it leave the backup systems
    on "standby", and the call itself ends in the [IndexError] of
    [_extract_current_conditions]: no recommendation is returned. *)
Theorem heavy_rain_escalates (locations : list Weather.location)
  (first_location : Weather.location) (now : Q) (wd : Weather.weather_data) :
  10 < default 0 (Weather.rain wd ≫= Weather.one_hour) ->
  Weather.mkAlert "heavy_rainfall" "high" (Weather.location_name first_location)
    (default 0 (Weather.rain wd ≫= Weather.one_hour))
    ∈ Weather._check_location_alerts (Weather.location_name first_location) wd
  /\ odict_get "pre_filtration"%string
       (Weather._generate_treatment_adjustments
          (Weather.analyze_current_conditions (Some wd)
             (Weather.location_area_type first_location)) wd)
     = Some "enhanced"%string
  /\ (Weather.weather wd <> Some [] ->
      exists report,
        Weather.get_treatment_recommendations (first_location :: locations) None
          (fun _ _ => Some wd) now
        = Weather.Returns (inr report)
        /\ Weather.report_location report = Weather.location_name first_location
        /\ Weather.get_overall_risk (Weather.report_analysis report) = "high"%string
        /\ odict_get "backup_systems"%string (Weather.treatment_adjustments report)
           = Some "active"%string
        /\ odict_get "pre_filtration"%string (Weather.treatment_adjustments report)
           = Some "enhanced"%string)
  /\ (Weather.weather wd = Some [] ->
      Weather.get_treatment_recommendations (first_location :: locations) None
        (fun _ _ => Some wd) now
      = Weather.RaisesIndexError
      /\ Weather.analyze_current_conditions (Some wd)
           (Weather.location_area_type first_location)
         = Weather.AnalysisError "list index out of range"
      /\ odict_get "backup_systems"%string
           (Weather._generate_treatment_adjustments
              (Weather.analyze_current_conditions (Some wd)
                 (Weather.location_area_type first_location)) wd)
         = Some "standby"%string).
Proof.
  intros Hrain.
  set (area_type := Weather.location_area_type first_location).
  assert (Hsome : exists rb, Weather.rain wd = Some rb).
  { destruct (Weather.rain wd) as [rb|]; [by eexists |]. cbn in Hrain. lra. }
  destruct Hsome as [rb Hrb].
  assert (Hnonempty : Weather.is_empty wd = false).
  { unfold Weather.is_empty. rewrite Hrb.
    by destruct (Weather.main wd), (Weather.weather wd), (Weather.wind wd). }
  assert (H10 : Qgt_bool (default 0 (Weather.rain wd ≫= Weather.one_hour)) 10 = true)
    by (by apply Qlt_bool_iff).
  destruct (adjustments_for_heavy_rain
              (Weather.analyze_current_conditions (Some wd) area_type) wd Hrain)
    as [Hpre Hbackup].
  split; [| split; [exact Hpre |]; split].
  - unfold Weather._check_location_alerts. cbv zeta. rewrite H10.
    destruct (Qgt_bool (default 0 (Weather.wind wd ≫= Weather.speed)) 20).
    + apply elem_of_app. left. apply elem_of_app. right. by left.
    + apply elem_of_app. right. by left.
  - intros Hlist.
    pose proof (heavy_rain_overall_risk wd area_type Hrain Hnonempty Hlist) as Hhigh.
    unfold Weather.get_treatment_recommendations. cbv zeta. cbn [default].
    rewrite Hnonempty. fold area_type.
    unfold Weather._extract_current_conditions.
    destruct (default [Weather.mkEntry None None] (Weather.weather wd))
      as [|first rest] eqn:Hfirst.
    { destruct (Weather.weather wd) as [[|? ?]|]; done. }
    eexists. split; [reflexivity |].
    cbn [Weather.report_location Weather.report_analysis
         Weather.treatment_adjustments].
    split; [reflexivity |]. split; [exact Hhigh |].
    split; [by rewrite Hbackup, Hhigh | exact Hpre].
  - intros Hlist.
    assert (Herror : Weather.analyze_current_conditions (Some wd) area_type
                     = Weather.AnalysisError "list index out of range").
    { unfold Weather.analyze_current_conditions. by rewrite Hnonempty, Hlist. }
    split; [| split; [exact Herror | by rewrite Hbackup, Herror]].
    unfold Weather.get_treatment_recommendations. cbv zeta. cbn [default].
    rewrite Hnonempty. unfold Weather._extract_current_conditions.
    by rewrite Hlist.
Qed.

Lemma heavy_rain_escalates_witness :
  Weather.get_treatment_recommendations
    [Weather.mkLocation "Primary Site" 40.7128 (-74.006) "urban"] None
    (fun _ _ =>
       Some (Weather.mkWeather None (Some []) None
               (Some (Weather.mkRain (Some 12))) None false)) 0
  = Weather.RaisesIndexError
  /\ exists report,
       Weather.get_treatment_recommendations
         [Weather.mkLocation "Primary Site" 40.7128 (-74.006) "urban"] None
         (fun _ _ =>
            Some (Weather.mkWeather None None None
                    (Some (Weather.mkRain (Some 12))) None false)) 0
       = Weather.Returns (inr report)
       /\ odict_get "backup_systems"%string (Weather.treatment_adjustments report)
          = Some "active"%string.
Proof.
  split.
  - apply (heavy_rain_escalates []
             (Weather.mkLocation "Primary Site" 40.7128 (-74.006) "urban") 0
             (Weather.mkWeather None (Some []) None
                (Some (Weather.mkRain (Some 12))) None false)).
    + vm_compute. reflexivity.
    + reflexivity.
  - destruct (heavy_rain_escalates []
                (Weather.mkLocation "Primary Site" 40.7128 (-74.006) "urban") 0
                (Weather.mkWeather None None None
                   (Some (Weather.mkRain (Some 12))) None false))
      as (_ & _ & Hreturns & _).
    + vm_compute. reflexivity.
    + destruct Hreturns as (report & Hcall & _ & _ & Hbackup & _); [discriminate |].
      exists report. split; [exact Hcall | exact Hbackup].
Defined.

(** ** [weather_integration.py]: the cache *)

Section CacheProperties.
Variable format_float : Q -> string.

(** X26: A fetch that succeeds (no valid entry, status 200, a JSON body) stores
    what it returns; for the next 600 seconds a call for the same
    coordinates returns the same data without looking at the network, and
    leaves the manager as it is.  A fetch that fails stores nothing. *)
Theorem weather_cache_round_trip (latitude longitude : Q)
  (checked_at stored_at : Q) (response : Weather.http_response)
  (d : Weather.weather_data) (m : Weather.WeatherDataManager) :
  Weather._is_cache_valid (Weather.current_key format_float latitude longitude)
    checked_at m = false ->
  Weather.status_code response = 200%Z ->
  Weather.json response = Ok d ->
  exists m',
    Weather.get_current_weather format_float latitude longitude checked_at stored_at
      (Ok response) m
    = (Some d, m')
    /\ (forall later stored_later request,
          later - stored_at < 600 ->
          Weather.get_current_weather format_float latitude longitude later
            stored_later request m'
          = (Some d, m'))
    /\ (forall x,
          Weather.get_current_weather format_float latitude longitude checked_at
            stored_at (Raise x) m
          = (None, m)).
Proof.
  intros Hinvalid Hstatus Hjson. unfold Weather.get_current_weather. cbv zeta.
  rewrite Hinvalid, Hstatus, Hjson. cbn [Z.eqb Pos.eqb].
  eexists. split; [reflexivity |]. split; [| done].
  intros later stored_later request Hlater.
  unfold Weather._is_cache_valid. cbn [Weather.cache].
  rewrite lookup_insert_eq. cbn [Weather.cached_at Weather.data fmap option_fmap option_map].
  unfold Weather.cache_duration.
  assert (Hvalid : Qlt_bool (later - stored_at) 600 = true) by (by apply Qlt_bool_iff).
  by rewrite Hvalid.
Qed.
End CacheProperties.

Lemma weather_cache_round_trip_witness :
  exists m',
    Weather.get_current_weather (fun _ => "x"%string) 40.7128 (-74.006) 0 1
      (Ok (Weather.mkResponse 200
             (Ok (Weather.mkWeather None None None None (Some 10000) false))))
      (Weather.mkManager ∅)
    = (Some (Weather.mkWeather None None None None (Some 10000) false), m')
    /\ Weather.get_current_weather (fun _ => "x"%string) 40.7128 (-74.006) 500 501
         (Raise ValueError) m'
       = (Some (Weather.mkWeather None None None None (Some 10000) false), m').
Proof.
  destruct (weather_cache_round_trip (fun _ => "x"%string) 40.7128 (-74.006) 0 1
              (Weather.mkResponse 200
                 (Ok (Weather.mkWeather None None None None (Some 10000) false)))
              (Weather.mkWeather None None None None (Some 10000) false)
              (Weather.mkManager ∅))
    as (m' & Hfirst & Hnext & _); [reflexivity | reflexivity | reflexivity |].
  exists m'. split; [exact Hfirst |]. apply Hnext. vm_compute. reflexivity.
Defined.

(** ** [iot_comm.py]: topics *)

Lemma split_not_nil (sep : ascii) (s : string) : split sep s <> [].
Proof.
  destruct s as [|c s]; simpl; [done |].
  destruct (Ascii.eqb c sep); [done |]. by destruct (split sep s).
Qed.

Lemma join_split (sep : ascii) (s : string) : join sep (split sep s) = s.
Proof.
  induction s as [|c s IH]; [done |].
  pose proof (split_not_nil sep s) as Hne.
  cbn [split]. destruct (Ascii.eqb c sep) eqn:Ec.
  - apply Ascii.eqb_eq in Ec as ->.
    destruct (split sep s) as [|w ws]; [done |].
    change (join sep (EmptyString :: w :: ws))
      with (String sep (join sep (w :: ws))).
    by rewrite IH.
  - destruct (split sep s) as [|w ws]; [done |].
    rewrite <- IH. by destruct ws.
Qed.

Lemma split_parts (sep : ascii) (s : string) :
  Forall (fun w => occurs sep w = false) (split sep s).
Proof.
  induction s as [|c s IH]; [by repeat constructor |].
  pose proof (split_not_nil sep s) as Hne.
  cbn [split]. destruct (Ascii.eqb c sep) eqn:Ec.
  - by constructor.
  - destruct (split sep s) as [|w ws]; [done |].
    apply Forall_cons in IH as [Hw Hws]. constructor; [| done].
    cbn [occurs]. by rewrite Ec, Hw.
Qed.

Lemma split_whole (sep : ascii) (w : string) :
  occurs sep w = false -> split sep w = [w].
Proof.
  induction w as [|c w IH]; [done |]. cbn [occurs split].
  intros [Hc Hw]%orb_false_iff. rewrite Hc, (IH Hw). done.
Qed.

Lemma split_append (sep : ascii) (w s : string) :
  occurs sep w = false ->
  split sep (w +:+ String sep s) = w :: split sep s.
Proof.
  induction w as [|c w IH]; simpl.
  - intros _. by rewrite Ascii.eqb_refl.
  - intros [Hc Hw]%orb_false_iff. by rewrite Hc, (IH Hw).
Qed.

Lemma parts_match_exact (ts ps : list string) :
  length ts = length ps ->
  Forall (fun p => p <> "+"%string) ps ->
  IoT.parts_match ts ps = true -> ts = ps.
Proof.
  revert ps. induction ts as [|t ts IH]; intros [|p ps]; try done.
  intros [= Hlen] [Hp Hps]%Forall_cons. cbn [IoT.parts_match].
  apply String.eqb_neq in Hp. rewrite Hp. cbn [negb andb].
  destruct (String.eqb p t) eqn:Ept; cbn [negb]; [| done].
  apply String.eqb_eq in Ept as ->. intros Hrest. f_equal. by apply IH.
Qed.

Lemma parts_match_refl (ts : list string) : IoT.parts_match ts ts = true.
Proof.
  induction ts as [|t ts IH]; [done |]. cbn [IoT.parts_match].
  by rewrite String.eqb_refl, andb_false_r.
Qed.

(** X27: A pattern none of whose levels is "+" matches one topic only:
    itself. *)
Theorem plain_pattern_matches_itself (topic pattern : string) :
  Forall (fun p => p <> "+"%string) (split "/" pattern) ->
  (IoT._topic_matches topic pattern = true <-> topic = pattern).
Proof.
  intros Hplain. unfold IoT._topic_matches. cbv zeta. split.
  - destruct (Nat.eqb_spec (length (split "/" topic)) (length (split "/" pattern)))
      as [Hlen|]; [| done].
    cbn [negb]. intros Hmatch.
    rewrite <- (join_split "/" topic), <- (join_split "/" pattern).
    f_equal. by apply parts_match_exact.
  - intros ->. rewrite Nat.eqb_refl. cbn [negb]. apply parts_match_refl.
Qed.

Lemma plain_pattern_matches_itself_witness :
  IoT._topic_matches "aquasentinel/emergency" "aquasentinel/emergency" = true
  <-> "aquasentinel/emergency"%string = "aquasentinel/emergency"%string.
Proof.
  apply (plain_pattern_matches_itself "aquasentinel/emergency"
           "aquasentinel/emergency").
  vm_compute. repeat constructor; discriminate.
Defined.

Lemma control_pattern_matches (topic : string) :
  IoT._topic_matches topic "aquasentinel/control/+" = true
  <-> exists x, topic = ("aquasentinel/control/" +:+ x)%string
                /\ occurs "/" x = false.
Proof.
  unfold IoT._topic_matches. cbv zeta.
  change (split "/" "aquasentinel/control/+")
    with ["aquasentinel"; "control"; "+"]%string.
  split.
  - pose proof (join_split "/" topic) as Hjoin.
    pose proof (split_parts "/" topic) as Hparts.
    destruct (split "/" topic) as [|a [|b [|x [|y rest]]]]; try done.
    cbn [length Nat.eqb negb IoT.parts_match].
    change ("+" =? "+")%string with true.
    change ("aquasentinel" =? "+")%string with false.
    change ("control" =? "+")%string with false.
    cbn [negb andb].
    destruct (String.eqb "aquasentinel" a) eqn:Ea; cbn [negb]; [| done].
    destruct (String.eqb "control" b) eqn:Eb; cbn [negb]; [| done].
    intros _. apply String.eqb_eq in Ea as <-. apply String.eqb_eq in Eb as <-.
    exists x. split; [by rewrite <- Hjoin |].
    by repeat (apply Forall_cons in Hparts as [? Hparts]).
  - intros (x & -> & Hx).
    change ("aquasentinel/control/" +:+ x)%string
      with ("aquasentinel" +:+ String "/" ("control" +:+ String "/" x))%string.
    rewrite !split_append by reflexivity. rewrite (split_whole "/" x Hx).
    reflexivity.
Qed.

(** X28: Of the two handlers the hub registers, the control handler receives
    exactly the topics "aquasentinel/control/x" with no "/" in x, and the
    emergency handler exactly the topic "aquasentinel/emergency"; a
    message on any other topic is handed to nobody.  (This is the routing
    of a message whose payload has been decoded; a payload that is not
    JSON ends [_on_message] before.) *)
Theorem registered_routes (topic : string) :
  (IoT.route IoT.registered_handlers topic = Some IoT.handle_control_message
   <-> exists x, topic = ("aquasentinel/control/" +:+ x)%string
                 /\ occurs "/" x = false)
  /\ (IoT.route IoT.registered_handlers topic = Some IoT.handle_emergency
      <-> topic = "aquasentinel/emergency"%string).
Proof.
  pose proof (control_pattern_matches topic) as Hcontrol.
  unfold IoT.route.
  change IoT.registered_handlers
    with [("aquasentinel/control/+"%string, IoT.handle_control_message);
          ("aquasentinel/emergency"%string, IoT.handle_emergency)].
  cbn [odict_get IoT.first_wildcard].
  change (IoT.has_plus "aquasentinel/control/+") with true.
  change (IoT.has_plus "aquasentinel/emergency") with false.
  cbn [andb].
  destruct (decide (topic = "aquasentinel/control/+"%string)) as [->|Hne1].
  - split; [| by split].
    split; [intros _ | done]. by exists "+"%string.
  - destruct (decide (topic = "aquasentinel/emergency"%string)) as [->|Hne2].
    + split; [| done]. split; [done |].
      intros (x & Hx & _). discriminate Hx.
    + destruct (IoT._topic_matches topic "aquasentinel/control/+").
      * split; [| by split]. split; [intros _; by apply Hcontrol | done].
      * split; [| by split]. split; [done |].
        intros Hx. apply Hcontrol in Hx. discriminate Hx.
Qed.
